(** * Hostgator deployment scripts: a shallow embedding

    The repository holds two Python scripts, [hostgator/deploy-staging.py]
    and [hostgator/fix-mylzip-redirect.py].  Both open an FTP session,
    change into a remote directory, list it, upload the local directory
    [./staging-deploy] and list the remote directory again.

    The scripts are embedded as computations in a state-and-exception monad
    over a "world" made of the FTP peer (an arbitrary implementation of the
    [FTP] interface) and the lines printed on standard output.  The local
    file system is only ever read, so it is a plain value. *)

From Stdlib Require Import ZArith String Ascii List Lia DecimalString.
From Stdlib.Strings Require Import Byte.
From stdpp Require Import base option list gmap strings.

Local Open Scope string_scope.

(** ** Python values *)

(** The exceptions the scripts can meet; all of them derive from Python's
    [Exception], so both [except Exception] and a bare [except:] catch them. *)
Inductive exn : Type :=
| error_perm (reply : string)    (* ftplib.error_perm: 5xx reply *)
| error_temp (reply : string)    (* ftplib.error_temp: 4xx reply *)
| OSError (msg : string).        (* socket and local file errors *)

(** [str(e)]. *)
Definition str_exn (e : exn) : string :=
  match e with
  | error_perm r => r
  | error_temp r => r
  | OSError m => m
  end.

(** [str(n)] for a non-negative integer. *)
Definition str_nat (n : nat) : string := NilZero.string_of_uint (Nat.to_uint n).

Definition nl : string := String (ascii_of_nat 10) EmptyString.

Inductive res (A : Type) : Type :=
| Ok (a : A)
| Raise (e : exn).
Arguments Ok {A} a.
Arguments Raise {A} e.

(** ** The local file system

    What sits at a local path: a regular file (whose [open] may fail), a
    directory (whose [os.listdir] may fail), something that is neither,
    such as a broken symbolic link or a socket, or an entry whose [stat]
    fails with an error other than "not found", as every entry of a
    directory that can be listed but not searched does.  [os.listdir]
    yields the entries in the order of [items]. *)
#[warnings="-register-all"] Inductive node : Type :=
| NFile (readable : bool) (data : list byte)
| NDir (listable : bool) (items : list (string * node))
| NOther
| NNoStat.

(** [os.path.isfile] and [os.path.isdir]: they answer [False] when [stat]
    fails, whatever the error. *)
Definition is_file (n : node) : bool :=
  match n with NFile _ _ => true | _ => false end.

Definition is_dir (n : node) : bool :=
  match n with NDir _ _ => true | _ => false end.

(** Whether [stat] answers for the entry. *)
Definition can_stat (n : node) : bool :=
  match n with NNoStat => false | _ => true end.

Definition permission_denied (path : string) : exn :=
  OSError ("[Errno 13] Permission denied: '" ++ path ++ "'").

(** [Path.is_file()] and [Path.is_dir()]: the same answers, except that an
    error of [stat] other than "not found" is raised again. *)
Definition path_is_file (path : string) (n : node) : res bool :=
  if can_stat n then Ok (is_file n) else Raise (permission_denied path).

Definition path_is_dir (path : string) (n : node) : res bool :=
  if can_stat n then Ok (is_dir n) else Raise (permission_denied path).

(** [Path.exists()], on what sits at the path if anything does. *)
Definition path_exists (path : string) (o : option node) : res bool :=
  match o with
  | None => Ok false
  | Some n => if can_stat n then Ok true else Raise (permission_denied path)
  end.

(** [open(path, 'rb')] followed by reading the whole file. *)
Definition open_rb (path : string) (n : node) : res (list byte) :=
  match n with
  | NFile true data => Ok data
  | NFile false _ => Raise (OSError ("[Errno 13] Permission denied: '" ++ path ++ "'"))
  | NDir _ _ => Raise (OSError ("[Errno 21] Is a directory: '" ++ path ++ "'"))
  | NOther => Raise (OSError ("[Errno 2] No such file or directory: '" ++ path ++ "'"))
  | NNoStat => Raise (permission_denied path)
  end.

(** [os.listdir(path)]. *)
Definition os_listdir (path : string) (n : node) : res (list (string * node)) :=
  match n with
  | NDir true items => Ok items
  | NDir false _ => Raise (OSError ("[Errno 13] Permission denied: '" ++ path ++ "'"))
  | NFile _ _ => Raise (OSError ("[Errno 20] Not a directory: '" ++ path ++ "'"))
  | NOther => Raise (OSError ("[Errno 2] No such file or directory: '" ++ path ++ "'"))
  | NNoStat => Raise (permission_denied path)
  end.

(** [os.listdir(path)] on what sits at the path if anything does. *)
Definition os_listdir_at (path : string) (o : option node)
  : res (list (string * node)) :=
  match o with
  | Some n => os_listdir path n
  | None => Raise (OSError ("[Errno 2] No such file or directory: '" ++ path ++ "'"))
  end.

Definition is_slash (c : ascii) : bool := Ascii.eqb c "/"%char.

Fixpoint has_slash (s : string) : bool :=
  match s with
  | EmptyString => false
  | String c r => is_slash c || has_slash r
  end.

Definition starts_with_slash (s : string) : bool :=
  match s with
  | String c _ => is_slash c
  | EmptyString => false
  end.

Fixpoint ends_with_slash (s : string) : bool :=
  match s with
  | EmptyString => false
  | String c EmptyString => is_slash c
  | String _ r => ends_with_slash r
  end.

(** [os.path.basename]: what follows the last slash. *)
Fixpoint basename (s : string) : string :=
  match s with
  | EmptyString => EmptyString
  | String c r => if has_slash s then basename r else s
  end.

(** [os.path.join(a, b)] on POSIX; [Path / item] joins the same way for the
    paths met here. *)
Definition path_join (a b : string) : string :=
  if starts_with_slash b then b
  else match a with
       | EmptyString => b
       | _ => if ends_with_slash a then a ++ b else a ++ "/" ++ b
       end.

(** The local side of a run: [Path(local_path).resolve()] and what is found
    there, [None] when the path does not exist. *)
Record localfs : Type := LocalFS {
  resolved : string;
  root : option node
}.

(** ** The FTP peer

    The methods of [ftplib.FTP] the scripts call.  Each takes the state of
    the peer (connection and remote store) and returns the reply or the
    exception raised, with the state that follows. *)
Class FTP (S : Type) : Type := {
  ftp_connect : string -> Z -> S -> res string * S;
  ftp_login : string -> string -> S -> res string * S;
  ftp_pwd : S -> res string * S;
  ftp_cwd : string -> S -> res string * S;
  ftp_mkd : string -> S -> res string * S;
  ftp_nlst : S -> res (list string) * S;
  ftp_storbinary : string -> list byte -> S -> res string * S;
  ftp_quit : S -> res string * S
}.

(** ** The monad *)

Record world (S : Type) : Type := World {
  srv : S;
  out : list string
}.
Arguments World {S} srv out.
Arguments srv {S} w.
Arguments out {S} w.

Definition M (S A : Type) : Type := world S -> res A * world S.

Definition ret {S A} (a : A) : M S A := fun w => (Ok a, w).

Definition bind {S A B} (m : M S A) (k : A -> M S B) : M S B :=
  fun w =>
    match m w with
    | (Ok a, w1) => k a w1
    | (Raise e, w1) => (Raise e, w1)
    end.

Definition raise {S A} (e : exn) : M S A := fun w => (Raise e, w).

(** [try: m  except Exception as e: h e]. *)
Definition try_except {S A} (m : M S A) (h : exn -> M S A) : M S A :=
  fun w =>
    match m w with
    | (Ok a, w1) => (Ok a, w1)
    | (Raise e, w1) => h e w1
    end.

(** [try: m  finally: f]: [f] runs on both exits; an exception of [f]
    replaces the outcome of [m]. *)
Definition try_finally {S A} (m : M S A) (f : M S unit) : M S A :=
  fun w =>
    match m w with
    | (r, w1) =>
        match f w1 with
        | (Ok _, w2) => (r, w2)
        | (Raise e, w2) => (Raise e, w2)
        end
    end.

(** [try: m  except: return h] in the middle of a function whose remainder
    is [k]: the handler's value is the function's result. *)
Definition try_or_return {S A B} (m : M S A) (h : exn -> M S B) (k : A -> M S B)
  : M S B :=
  fun w =>
    match m w with
    | (Ok a, w1) => k a w1
    | (Raise e, w1) => h e w1
    end.

Definition lift_res {S A} (r : res A) : M S A := fun w => (r, w).

(** [if c: t  else: e] where evaluating the condition [c] may raise. *)
Definition branch {S A} (c : res bool) (t e : M S A) : M S A :=
  match c with
  | Ok true => t
  | Ok false => e
  | Raise x => raise x
  end.

Definition print {S} (s : string) : M S unit :=
  fun w => (Ok tt, World (srv w) (out w ++ [s])).

(** A call on the FTP object. *)
Definition call {S A} (op : S -> res A * S) : M S A :=
  fun w => match op (srv w) with (r, s1) => (r, World s1 (out w)) end.

Declare Scope py_scope.
Delimit Scope py_scope with py.
Notation "x <- m ;; k" := (bind m (fun x => k))
  (at level 100, m at next level, right associativity) : py_scope.
Notation "m ;; k" := (bind m (fun _ => k))
  (at level 100, right associativity) : py_scope.
Local Open Scope py_scope.

(** A [for] loop that updates local variables, gathered in [acc]. *)
Definition for_fold {S A B} (body : B -> A -> M S B) : list A -> B -> M S B :=
  fix go (l : list A) (acc : B) : M S B :=
    match l with
    | [] => ret acc
    | x :: l' => acc' <- body acc x ;; go l' acc'
    end.

(** A [for] loop whose body only acts on the world. *)
Definition for_each {S A} (body : A -> M S unit) : list A -> M S unit :=
  fix go (l : list A) : M S unit :=
    match l with
    | [] => ret tt
    | x :: l' => body x ;; go l'
    end.

(** ** deploy-staging.py *)

Record configuration : Type := Config {
  host : string;
  username : string;
  password : string;
  port : Z;
  local_path : string;
  remote_path : string
}.

Definition config : configuration := {|
  host := "zaido.org";
  username := "zaidoftp@zaido.org";
  password := "9N9HNK6xoZ5I";
  port := 21;
  local_path := "./staging-deploy";
  remote_path := "/public_html/website_1a41642e"
|}.

(** The two counters of the upload loop. *)
Record counters : Type := Counters {
  success_count : nat;
  total_count : nat
}.

Definition index_html_in (files : list string) : bool :=
  existsb (String.eqb "index.html") files.

Section Scripts.
Context {S : Type} {ftp : FTP S}.

(** [upload_file] (deploy-staging.py, lines 17-27); [f] is what sits at
    [local_file]. *)
Definition upload_file (local_file : string) (f : node) (remote_file : string)
  : M S bool :=
  try_except
    (data <- lift_res (open_rb local_file f) ;;
     print ("   [FILE] Uploading " ++ basename local_file ++ "...") ;;
     call (ftp_storbinary ("STOR " ++ remote_file) data) ;;
     print ("   [OK] " ++ basename local_file ++ " uploaded successfully") ;;
     ret true)
    (fun e =>
       print ("   [ERROR] Failed to upload " ++ local_file ++ ": " ++ str_exn e) ;;
       ret false).

(** [upload_directory] (lines 29-48); [d] is what sits at [local_dir].
    [os.listdir(local_dir)] is matched in place, so that the recursive
    calls are on the entries of [d]: a directory that can be listed yields
    its entries, anything else makes [os_listdir] raise. *)
Fixpoint upload_directory (local_dir : string) (d : node) (remote_dir : string)
  {struct d} : M S bool :=
  try_except
    (print ("   [DIR] Uploading directory " ++ basename local_dir ++ "...") ;;
     call (ftp_mkd remote_dir) ;;
     print ("   [OK] Created remote directory " ++ remote_dir) ;;
     match d with
     | NDir true items =>
         for_each
           (fun entry : string * node =>
              let local_path := path_join local_dir (fst entry) in
              let remote_path := remote_dir ++ "/" ++ fst entry in
              if is_file (snd entry) then
                upload_file local_path (snd entry) remote_path ;; ret tt
              else if is_dir (snd entry) then
                upload_directory local_path (snd entry) remote_path ;; ret tt
              else ret tt)
           items
     | _ => items <- lift_res (os_listdir local_dir d) ;; ret tt
     end ;;
     ret true)
    (fun e =>
       print ("   [ERROR] Failed to upload directory " ++ local_dir ++ ": " ++ str_exn e) ;;
       ret false).

(** What one iteration of a loop of [deploy-staging.py] does to the world
    for an entry of [local_dir] whose remote name is [remote_name item]:
    the body of the loop of [upload_directory], and, on an entry whose
    kind [Path.is_file()] and [Path.is_dir()] can tell, the body of the
    loop of [deploy] without its counters. *)
Definition visit (local_dir : string) (remote_name : string -> string)
  (entry : string * node) : M S unit :=
  let local_path := path_join local_dir (fst entry) in
  let remote_path := remote_name (fst entry) in
  if is_file (snd entry) then
    upload_file local_path (snd entry) remote_path ;; ret tt
  else if is_dir (snd entry) then
    upload_directory local_path (snd entry) remote_path ;; ret tt
  else ret tt.

(** The loop of [upload_directory] over the listing of [local_dir]. *)
Definition upload_children (local_dir remote_dir : string)
  : list (string * node) -> M S unit :=
  for_each (visit local_dir (fun item => remote_dir ++ "/" ++ item)).

(** One iteration of the loop of [deploy] over [os.listdir(local_path)]
    (lines 93-102).  The tests are [Path.is_file()] and [Path.is_dir()],
    which may raise; nothing in the loop catches that. *)
Definition deploy_item (local_path : string) (c : counters) (entry : string * node)
  : M S counters :=
  let item := fst entry in
  let local_item_path := path_join local_path item in
  let total := total_count c + 1 in
  branch (path_is_file local_item_path (snd entry))
    (ok <- upload_file local_item_path (snd entry) item ;;
     ret (Counters (if ok then success_count c + 1 else success_count c) total))
    (branch (path_is_dir local_item_path (snd entry))
       (ok <- upload_directory local_item_path (snd entry) item ;;
        ret (Counters (if ok then success_count c + 1 else success_count c) total))
       (ret (Counters (success_count c) total))).

(** The loop of [deploy] with its two counters (lines 90-102). *)
Definition upload_pass (local_path : string) (items : list (string * node))
  : M S counters :=
  for_fold (deploy_item local_path) items (Counters 0 0).

(** The [try] block of [deploy], cut at its comments: connection (lines
    55-60), navigation (62-71), first listing (73-80), upload (82-121,
    which ends with the final listing, 106-119). *)
Definition deploy_connect : M S unit :=
  print "[CONNECT] Connecting to Hostgator for zaido.org staging deployment..." ;;
  call (ftp_connect (host config) (port config)) ;;
  call (ftp_login (username config) (password config)) ;;
  print "[OK] Connected successfully!" ;;
  d <- call ftp_pwd ;;
  print ("[DIR] Current directory: " ++ d).

Definition deploy_navigate : M S unit :=
  print ("[NAV] Navigating to " ++ remote_path config ++ "...") ;;
  try_except
    (call (ftp_cwd (remote_path config)))
    (fun _ =>
       call (ftp_mkd (remote_path config)) ;;
       call (ftp_cwd (remote_path config))) ;;
  d <- call ftp_pwd ;;
  print ("[OK] Now in directory: " ++ d).

Definition deploy_list_current : M S unit :=
  print (nl ++ "[LIST] Current files in zaido.org directory:") ;;
  try_except
    (files <- call ftp_nlst ;;
     for_each (fun file => print ("   [FILE] " ++ file)) files)
    (fun e => print ("   [ERROR] Could not list files: " ++ str_exn e)).

Definition deploy_list_final : M S unit :=
  print (nl ++ "[LIST] Final files in zaido.org directory:") ;;
  try_except
    (files <- call ftp_nlst ;;
     for_each (fun file => print ("   [FILE] " ++ file)) files ;;
     if index_html_in files then
       print (nl ++ "[OK] index.html found - zaido.org deployment looks good!")
     else
       print (nl ++ "[WARN] Warning: index.html not found in uploaded files"))
    (fun e => print ("   [ERROR] Could not list final files: " ++ str_exn e)).

Definition deploy_upload (fs : localfs) : M S bool :=
  print (nl ++ "[UPLOAD] Uploading files to zaido.org directory...") ;;
  branch (path_exists (resolved fs) (root fs))
    (items <- lift_res (os_listdir_at (resolved fs) (root fs)) ;;
     c <- upload_pass (resolved fs) items ;;
     print (nl ++ "[OK] Uploaded " ++ str_nat (success_count c) ++ "/"
               ++ str_nat (total_count c) ++ " items successfully!") ;;
     deploy_list_final ;;
     ret true)
    (print ("[ERROR] Local path " ++ resolved fs ++ " does not exist!") ;;
     ret false).

(** The [try] block of [deploy]. *)
Definition deploy_try (fs : localfs) : M S bool :=
  deploy_connect ;;
  deploy_navigate ;;
  deploy_list_current ;;
  deploy_upload fs.

(** [try: ftp.quit()  except: pass]. *)
Definition quit_quietly : M S unit :=
  try_except (call ftp_quit ;; ret tt) (fun _ => ret tt).

Definition deploy (fs : localfs) : M S bool :=
  try_finally
    (try_except
       (deploy_try fs)
       (fun e => print ("[ERROR] Deployment failed: " ++ str_exn e) ;; ret false))
    quit_quietly.

(** The [__main__] block; the result is the argument of [sys.exit]. *)
Definition deploy_main (fs : localfs) : M S Z :=
  print "[START] zaido.org staging deployment script starting..." ;;
  success <- deploy fs ;;
  if success then
    print (nl ++ "[SUCCESS] zaido.org staging deployment completed successfully!") ;;
    print "[URL] Your site should be live at: https://zaido.org" ;;
    ret 0%Z
  else
    print (nl ++ "[FAILED] Deployment failed!") ;;
    ret 1%Z.

(** ** fix-mylzip-redirect.py *)

Definition fix_remote_path : string := "/public_html/website_0f1108f2".

(** The body of the inner loop over [os.listdir(local_item_path)] (lines
    83-87): files directly inside a top-level directory. *)
Definition fix_subitem (item : string) (local_item_path : string)
  (sub : string * node) : M S unit :=
  let subitem := fst sub in
  let subitem_path := path_join local_item_path subitem in
  branch (path_is_file subitem_path (snd sub))
    (data <- lift_res (open_rb subitem_path (snd sub)) ;;
     call (ftp_storbinary ("STOR " ++ item ++ "/" ++ subitem) data) ;;
     ret tt)
    (ret tt).

(** One iteration of the loop of [fix_mylzip_redirect] (lines 64-91). *)
Definition fix_item (local_path : string) (c : counters) (entry : string * node)
  : M S counters :=
  let item := fst entry in
  let local_item_path := path_join local_path item in
  let total := total_count c + 1 in
  branch (path_is_file local_item_path (snd entry))
    (try_except
       (data <- lift_res (open_rb local_item_path (snd entry)) ;;
        print ("   [FILE] Uploading " ++ item ++ "...") ;;
        call (ftp_storbinary ("STOR " ++ item) data) ;;
        print ("   [OK] " ++ item ++ " uploaded successfully") ;;
        ret (Counters (success_count c + 1) total))
       (fun e =>
          print ("   [ERROR] Failed to upload " ++ item ++ ": " ++ str_exn e) ;;
          ret (Counters (success_count c) total)))
    (branch (path_is_dir local_item_path (snd entry))
       (print ("   [DIR] Uploading directory " ++ item ++ "...") ;;
        try_except
          (call (ftp_mkd item) ;;
           subitems <- lift_res (os_listdir local_item_path (snd entry)) ;;
           for_each (fix_subitem item local_item_path) subitems ;;
           print ("   [OK] Directory " ++ item ++ " uploaded successfully") ;;
           ret (Counters (success_count c + 1) total))
          (fun e =>
             print ("   [ERROR] Failed to upload directory " ++ item ++ ": " ++ str_exn e) ;;
             ret (Counters (success_count c) total)))
       (ret (Counters (success_count c) total))).

Definition fix_upload_pass (local_path : string) (items : list (string * node))
  : M S counters :=
  for_fold (fix_item local_path) items (Counters 0 0).

Definition fix_connect : M S unit :=
  print "[CONNECT] Connecting to Hostgator..." ;;
  call (ftp_connect "zaido.org" 21%Z) ;;
  call (ftp_login "zaidoftp@zaido.org" "9N9HNK6xoZ5I") ;;
  print "[OK] Connected successfully!" ;;
  d <- call ftp_pwd ;;
  print ("[DIR] Current directory: " ++ d).

Definition fix_list_final : M S unit :=
  print (nl ++ "[LIST] Final files in myl.zip directory:") ;;
  try_except
    (files <- call ftp_nlst ;;
     for_each (fun file => print ("   [FILE] " ++ file)) files ;;
     if index_html_in files then
       print (nl ++ "[OK] index.html found - myl.zip should now work correctly!")
     else
       print (nl ++ "[WARN] index.html not found in uploaded files"))
    (fun e => print ("   [ERROR] Could not list final files: " ++ str_exn e)).

Definition fix_upload (fs : localfs) : M S bool :=
  print (nl ++ "[UPLOAD] Uploading correct files...") ;;
  branch (path_exists (resolved fs) (root fs))
    (items <- lift_res (os_listdir_at (resolved fs) (root fs)) ;;
     c <- fix_upload_pass (resolved fs) items ;;
     print (nl ++ "[OK] Uploaded " ++ str_nat (success_count c) ++ "/"
               ++ str_nat (total_count c) ++ " items successfully!") ;;
     fix_list_final ;;
     ret true)
    (print ("[ERROR] Local path " ++ resolved fs ++ " does not exist!") ;;
     ret false).

(** The [try] block of [fix_mylzip_redirect] (lines 21-110). *)
Definition fix_try (fs : localfs) : M S bool :=
  fix_connect ;;
  print ("[NAV] Navigating to " ++ fix_remote_path ++ "...") ;;
  try_or_return
    (call (ftp_cwd fix_remote_path))
    (fun _ =>
       print ("[ERROR] Could not navigate to " ++ fix_remote_path) ;;
       ret false)
    (fun _ =>
       d <- call ftp_pwd ;;
       print ("[OK] Now in directory: " ++ d) ;;
       print (nl ++ "[LIST] Current files in myl.zip directory:") ;;
       try_or_return
         (files <- call ftp_nlst ;;
          for_each (fun file => print ("   [FILE] " ++ file)) files ;;
          ret files)
         (fun e =>
            print ("   [ERROR] Could not list files: " ++ str_exn e) ;;
            ret false)
         (fun files =>
            (if index_html_in files then
               print (nl ++ "[INFO] Found index.html - this might be causing the redirect") ;;
               print "[INFO] We will overwrite it with the correct content"
             else ret tt) ;;
            fix_upload fs)).

Definition fix_mylzip_redirect (fs : localfs) : M S bool :=
  try_finally
    (try_except
       (fix_try fs)
       (fun e => print ("[ERROR] Fix failed: " ++ str_exn e) ;; ret false))
    quit_quietly.

Definition fix_main (fs : localfs) : M S Z :=
  print "[START] Fixing myl.zip redirect issue..." ;;
  success <- fix_mylzip_redirect fs ;;
  if success then
    print (nl ++ "[SUCCESS] myl.zip redirect fix completed!") ;;
    print "[URL] Your site should now be live at: https://myl.zip" ;;
    print "[NOTE] Clear your browser cache or try incognito mode if you still see redirects" ;;
    ret 0%Z
  else
    print (nl ++ "[FAILED] Fix failed!") ;;
    ret 1%Z.

End Scripts.

(** ** Vocabulary of the statements *)

(** Whether a call returned rather than raised. *)
Definition returned {A B} (x : res A * B) : bool :=
  match fst x with Ok _ => true | Raise _ => false end.

(** Whether [os.listdir] succeeds on a node. *)
Definition listable_dir (n : node) : bool :=
  match n with NDir true _ => true | _ => false end.

(** The lines printed by [upload_file] and [upload_directory]. *)
Definition line_file_start (local_file : string) : string :=
  "   [FILE] Uploading " ++ basename local_file ++ "...".
Definition line_file_ok (local_file : string) : string :=
  "   [OK] " ++ basename local_file ++ " uploaded successfully".
Definition line_file_err (local_file : string) (e : exn) : string :=
  "   [ERROR] Failed to upload " ++ local_file ++ ": " ++ str_exn e.
Definition line_dir_start (local_dir : string) : string :=
  "   [DIR] Uploading directory " ++ basename local_dir ++ "...".
Definition line_dir_created (remote_dir : string) : string :=
  "   [OK] Created remote directory " ++ remote_dir.
Definition line_dir_err (local_dir : string) (e : exn) : string :=
  "   [ERROR] Failed to upload directory " ++ local_dir ++ ": " ++ str_exn e.

(** Lines about the remote listing and the navigation. *)
Definition line_listed (file : string) : string := "   [FILE] " ++ file.
Definition line_deploy_list_current : string :=
  nl ++ "[LIST] Current files in zaido.org directory:".
Definition line_deploy_list_final : string :=
  nl ++ "[LIST] Final files in zaido.org directory:".
Definition line_fix_list_current : string :=
  nl ++ "[LIST] Current files in myl.zip directory:".
Definition line_fix_list_final : string :=
  nl ++ "[LIST] Final files in myl.zip directory:".
Definition line_list_err (e : exn) : string :=
  "   [ERROR] Could not list files: " ++ str_exn e.
Definition line_list_final_err (e : exn) : string :=
  "   [ERROR] Could not list final files: " ++ str_exn e.
Definition line_deploy_index (files : list string) : string :=
  if index_html_in files
  then nl ++ "[OK] index.html found - zaido.org deployment looks good!"
  else nl ++ "[WARN] Warning: index.html not found in uploaded files".
Definition line_fix_index (files : list string) : string :=
  if index_html_in files
  then nl ++ "[OK] index.html found - myl.zip should now work correctly!"
  else nl ++ "[WARN] index.html not found in uploaded files".
Definition line_deploy_nav : string :=
  "[NAV] Navigating to " ++ remote_path config ++ "...".
Definition line_fix_nav : string :=
  "[NAV] Navigating to " ++ "/public_html/website_0f1108f2" ++ "...".
Definition line_fix_nav_err : string :=
  "[ERROR] Could not navigate to " ++ "/public_html/website_0f1108f2".
Definition line_now_in (d : string) : string := "[OK] Now in directory: " ++ d.
Definition line_summary (c : counters) : string :=
  nl ++ "[OK] Uploaded " ++ str_nat (success_count c) ++ "/"
     ++ str_nat (total_count c) ++ " items successfully!".
Definition line_deploy_upload : string :=
  nl ++ "[UPLOAD] Uploading files to zaido.org directory...".
Definition line_fix_upload : string :=
  nl ++ "[UPLOAD] Uploading correct files...".
Definition line_deploy_start : string :=
  "[START] zaido.org staging deployment script starting...".
Definition line_fix_start : string :=
  "[START] Fixing myl.zip redirect issue...".

Definition line_fix_dir_start (item : string) : string :=
  "   [DIR] Uploading directory " ++ item ++ "...".
Definition line_fix_dir_err (item : string) (e : exn) : string :=
  "   [ERROR] Failed to upload directory " ++ item ++ ": " ++ str_exn e.
Definition line_deploy_failed (e : exn) : string :=
  "[ERROR] Deployment failed: " ++ str_exn e.

(** Whether [stat] answers for every entry of a listing. *)
Definition stat_ok (items : list (string * node)) : bool :=
  forallb (fun e => can_stat (snd e)) items.

(** Whether the local side lets the upload phase go through: the local
    root exists, [os.listdir] returns its entries, and [stat] answers for
    each of them. *)
Definition root_ok (fs : localfs) : bool :=
  match root fs with
  | Some (NDir true items) => stat_ok items
  | _ => false
  end.

(** Where a run stops short of the success path: an exception while
    connecting, while navigating, in the first remote listing, the local
    root found missing, or an exception of the top-level upload pass. *)
Inductive phase : Type :=
| Connection
| Navigation
| Listing
| LocalRootMissing
| UploadPass.

(** What stops the upload phase on the local side: a missing root, or an
    exception of the upload pass.  The pass raises when [stat] fails on
    the root, when the root cannot be listed, and when [is_file()] or
    [is_dir()] raises on one of its entries; failures of the uploads
    themselves are caught inside the pass. *)
Definition local_stop (fs : localfs) : option phase :=
  match root fs with
  | None => Some LocalRootMissing
  | Some r =>
      match os_listdir (resolved fs) r with
      | Raise _ => Some UploadPass
      | Ok items => if stat_ok items then None else Some UploadPass
      end
  end.

Section Vocabulary.
Context {S : Type} {ftp : FTP S}.

(** The first phase of [deploy] that raises (or finds the local root
    missing), if any. *)
Definition deploy_stops (fs : localfs) (w : world S) : option phase :=
  match deploy_connect w with
  | (Raise _, _) => Some Connection
  | (Ok _, w1) =>
      match deploy_navigate w1 with
      | (Raise _, _) => Some Navigation
      | (Ok _, _) => local_stop fs
      end
  end.

(** The same for [fix_mylzip_redirect], whose navigation is a single
    [cwd] followed by [pwd] and whose first listing is a phase of its own. *)
Definition fix_stops (fs : localfs) (w : world S) : option phase :=
  match fix_connect w with
  | (Raise _, _) => Some Connection
  | (Ok _, w1) =>
      match ftp_cwd fix_remote_path (srv w1) with
      | (Raise _, _) => Some Navigation
      | (Ok _, s2) =>
          match ftp_pwd s2 with
          | (Raise _, _) => Some Navigation
          | (Ok _, s3) =>
              match ftp_nlst s3 with
              | (Raise _, _) => Some Listing
              | (Ok _, _) => local_stop fs
              end
          end
      end
  end.

(** A loop body that counts one more attempt and at most one more success
    on every entry whose kind can be tested, and raises on an entry whose
    [stat] fails, before anything is sent or printed. *)
Definition counting (body : counters -> string * node -> M S counters) : Prop :=
  forall c x w,
    if can_stat (snd x)
    then exists c' w',
           body c x w = (Ok c', w') /\
           total_count c' = total_count c + 1 /\
           success_count c <= success_count c' <= success_count c + 1
    else exists e, body c x w = (Raise e, w).

End Vocabulary.

(** ** A reference FTP peer

    The FTP server is not part of the repository.  The statements that
    need one (what ends up on the remote side) are made on an in-memory
    server: a store of files and directories keyed by absolute
    path (a list of components), the working directory of the session, and
    whether the server lets the session list directories.  It answers the
    way an FTP daemon does: [MKD] is refused when the name exists or its
    parent is not a directory, [STOR] overwrites a file and is refused on a
    directory or under a missing parent, [CWD] needs a directory. *)

Inductive rnode : Type :=
| RFile (data : list byte)
| RDir.

Record remote : Type := Remote {
  store : gmap (list string) rnode;
  cwd : list string;
  can_list : bool
}.

(** [s.split('/')]. *)
Fixpoint split_raw (s : string) : list string :=
  match s with
  | EmptyString => [EmptyString]
  | String c r =>
      if is_slash c then EmptyString :: split_raw r
      else match split_raw r with
           | h :: t => String c h :: t
           | [] => [String c EmptyString]
           end
  end.

Definition nonempty (s : string) : bool :=
  match s with EmptyString => false | _ => true end.

(** The components of a path; empty components are dropped. *)
Definition split_path (s : string) : list string :=
  List.filter nonempty (split_raw s).

Definition resolve (r : remote) (p : string) : list string :=
  if starts_with_slash p then split_path p else cwd r ++ split_path p.

Definition is_dir_at (r : remote) (q : list string) : bool :=
  match q with
  | [] => true
  | _ => match store r !! q with Some RDir => true | _ => false end
  end.

Definition exists_at (r : remote) (q : list string) : bool :=
  match q with
  | [] => true
  | _ => match store r !! q with Some _ => true | None => false end
  end.

Fixpoint strip_prefix (pre s : string) : option string :=
  match pre, s with
  | EmptyString, _ => Some s
  | String a pre', String b s' => if Ascii.eqb a b then strip_prefix pre' s' else None
  | String _ _, EmptyString => None
  end.

Definition child_name (dir : list string) (entry : list string * rnode) : option string :=
  match fst entry with
  | [] => None
  | k => if decide (removelast k = dir) then last k else None
  end.

Definition sim_connect (h : string) (p : Z) (r : remote) : res string * remote :=
  (Ok "220 Service ready", r).

Definition sim_login (u pw : string) (r : remote) : res string * remote :=
  (Ok "230 Login successful", r).

Definition sim_pwd (r : remote) : res string * remote :=
  (Ok ("/" ++ String.concat "/" (cwd r)), r).

Definition sim_cwd (p : string) (r : remote) : res string * remote :=
  let q := resolve r p in
  if is_dir_at r q then (Ok "250 CWD command successful", Remote (store r) q (can_list r))
  else (Raise (error_perm ("550 " ++ p ++ ": No such file or directory")), r).

Definition sim_mkd (p : string) (r : remote) : res string * remote :=
  let q := resolve r p in
  if exists_at r q then (Raise (error_perm ("550 " ++ p ++ ": File exists")), r)
  else if is_dir_at r (removelast q) then
    (Ok p, Remote (<[q := RDir]> (store r)) (cwd r) (can_list r))
  else (Raise (error_perm ("550 " ++ p ++ ": No such file or directory")), r).

Definition sim_nlst (r : remote) : res (list string) * remote :=
  if can_list r then (Ok (omap (child_name (cwd r)) (map_to_list (store r))), r)
  else (Raise (error_temp "425 Unable to build data connection"), r).

Definition sim_storbinary (cmd : string) (data : list byte) (r : remote)
  : res string * remote :=
  match strip_prefix "STOR " cmd with
  | None => (Raise (error_perm "500 Unknown command"), r)
  | Some p =>
      let q := resolve r p in
      if is_dir_at r q then (Raise (error_perm ("550 " ++ p ++ ": Is a directory")), r)
      else if is_dir_at r (removelast q) then
        (Ok "226 Transfer complete", Remote (<[q := RFile data]> (store r)) (cwd r) (can_list r))
      else (Raise (error_perm ("553 " ++ p ++ ": No such file or directory")), r)
  end.

Definition sim_quit (r : remote) : res string * remote :=
  (Ok "221 Goodbye", r).

#[export] Instance sim_ftp : FTP remote := {|
  ftp_connect := sim_connect;
  ftp_login := sim_login;
  ftp_pwd := sim_pwd;
  ftp_cwd := sim_cwd;
  ftp_mkd := sim_mkd;
  ftp_nlst := sim_nlst;
  ftp_storbinary := sim_storbinary;
  ftp_quit := sim_quit
|}.

Definition bytes_of (s : string) : list byte := list_byte_of_string s.

Definition scenario_tree : list (string * node) :=
  [ ("index.html", NFile true (bytes_of "<html></html>"));
    ("assets", NDir true [ ("style.css", NFile true (bytes_of "body {}")) ]) ].

(** The components of the remote roots of the two scripts. *)
Definition site_root : list string := ["public_html"; "website_1a41642e"].
Definition fix_site_root : list string := ["public_html"; "website_0f1108f2"].

(** Some states of the peer: an account with both sites created and empty,
    one with [public_html] only, one that refuses to list, and one whose
    first site already has an [assets] directory. *)
Definition hostgator : remote :=
  Remote (<[ fix_site_root := RDir ]>
            (<[ site_root := RDir ]> (<[ ["public_html"] := RDir ]> ∅))) [] true.

Definition bare : remote :=
  Remote (<[ ["public_html"] := RDir ]> ∅) [] true.

Definition mute : remote := Remote (store hostgator) [] false.

Definition taken : remote :=
  Remote (<[ (site_root ++ ["assets"])%list := RDir ]> (store hostgator)) [] true.

(** The session once inside the remote root of [deploy]. *)
Definition in_site (r : remote) : remote := Remote (store r) site_root (can_list r).

(** Some local trees. *)
Definition staging : string := "/home/user/staging-deploy".

Definition scenario_fs : localfs := LocalFS staging (Some (NDir true scenario_tree)).

Definition unreadable_tree : list (string * node) :=
  [ ("a.txt", NFile true (bytes_of "a"));
    ("b.txt", NFile false (bytes_of "b")) ].

Definition nested_unreadable_tree : list (string * node) :=
  [ ("docs", NDir true [ ("secret.txt", NFile false (bytes_of "s")) ]) ].

Definition deep_tree : list (string * node) :=
  [ ("a", NDir true [ ("b", NDir true [ ("c.txt", NFile true (bytes_of "c")) ]) ]) ].

Definition deep_fs : localfs := LocalFS staging (Some (NDir true deep_tree)).

Definition special_tree : list (string * node) :=
  [ ("index.html", NFile true (bytes_of "<html></html>"));
    ("queue.fifo", NOther) ].

(** A root with an entry whose [stat] fails between a file and a
    directory. *)
Definition locked_tree : list (string * node) :=
  [ ("index.html", NFile true (bytes_of "<html></html>"));
    ("locked", NNoStat);
    ("assets", NDir true [ ("style.css", NFile true (bytes_of "body {}")) ]) ].

Definition locked_fs : localfs := LocalFS staging (Some (NDir true locked_tree)).

(** A root with a FIFO and an entry whose [stat] fails. *)
Definition special_locked_tree : list (string * node) :=
  [ ("index.html", NFile true (bytes_of "<html></html>"));
    ("queue.fifo", NOther);
    ("locked", NNoStat) ].

Definition special_locked_fs : localfs :=
  LocalFS staging (Some (NDir true special_locked_tree)).

(** ** Local trees and their remote image *)

(** The entry called [name] in a listing. *)
Fixpoint find_entry (name : string) (items : list (string * node)) : option node :=
  match items with
  | [] => None
  | (n, child) :: items' => if decide (n = name) then Some child else find_entry name items'
  end.

(** What the local tree rooted at [n] holds at the relative path [q]. *)
Fixpoint node_at (q : list string) (n : node) : option node :=
  match q with
  | [] => Some n
  | name :: q' =>
      match n with
      | NDir _ items =>
          match find_entry name items with
          | Some child => node_at q' child
          | None => None
          end
      | _ => None
      end
  end.

(** What the remote store should hold for a local node: the same bytes for
    a file, a directory for a directory, nothing for what is neither. *)
Definition image (n : node) : option rnode :=
  match n with
  | NFile _ data => Some (RFile data)
  | NDir _ _ => Some RDir
  | NOther => None
  | NNoStat => None
  end.

(** A name as a directory listing yields them. *)
Definition valid_name (s : string) : bool := nonempty s && negb (has_slash s).

(** A local tree on which no item can fail: every file can be read, every
    directory can be listed, [stat] answers for every entry, and the
    listings are genuine (valid names, no name twice in a directory). *)
Fixpoint well_formed (n : node) : bool :=
  match n with
  | NFile readable _ => readable
  | NDir listable items =>
      listable
      && forallb (fun e => valid_name (fst e) && well_formed (snd e)) items
      && bool_decide (NoDup (map fst items))
  | NOther => true
  | NNoStat => false
  end.

(** [below base k]: the path [k] relative to [base], when [k] is at or
    under [base]. *)
Fixpoint below (base k : list string) : option (list string) :=
  match base, k with
  | [], _ => Some k
  | b :: base', x :: k' => if decide (b = x) then below base' k' else None
  | _ :: _, [] => None
  end.

(** A remote path given relative to the working directory, with its
    components. *)
Definition relative (p : string) (q : list string) : Prop :=
  starts_with_slash p = false /\ split_path p = q.

(** What visiting the entry [name] of the remote directory [cwd r ++ p]
    does on the reference peer when nothing is at or under its remote
    path: it returns, and the store then holds the image of the local
    subtree there and is unchanged elsewhere. *)
Definition visit_spec (child : node) : Prop :=
  forall local_dir (remote_name : string -> string) name p (r : remote) o,
    relative (remote_name name) (p ++ [name])%list ->
    well_formed child = true ->
    is_dir_at r (cwd r ++ p) = true ->
    (forall q, store r !! ((cwd r ++ p) ++ name :: q)%list = None) ->
    exists w',
      visit local_dir remote_name (name, child) (World r o) = (Ok tt, w') /\
      cwd (srv w') = cwd r /\
      can_list (srv w') = can_list r /\
      forall k,
        store (srv w') !! k =
        match below ((cwd r ++ p) ++ [name])%list k with
        | Some q => node_at q child ≫= image
        | None => store r !! k
        end.

(** The same for any loop body [step] run on an entry [e] of the remote
    directory [cwd r ++ p], the store receiving the image of
    [view (snd e)]. *)
Definition entry_spec (step : string * node -> M remote unit) (p : list string)
  (view : node -> node) (e : string * node) : Prop :=
  forall (r : remote) o,
    is_dir_at r (cwd r ++ p) = true ->
    (forall q, store r !! ((cwd r ++ p) ++ fst e :: q)%list = None) ->
    exists w',
      step e (World r o) = (Ok tt, w') /\
      cwd (srv w') = cwd r /\
      can_list (srv w') = can_list r /\
      forall k,
        store (srv w') !! k =
        match below ((cwd r ++ p) ++ [fst e])%list k with
        | Some q => node_at q (view (snd e)) ≫= image
        | None => store r !! k
        end.

(** What [fix_mylzip_redirect] sees of a local tree: below a top-level
    directory only the regular files count. *)
Definition leaf (n : node) : node :=
  match n with
  | NFile readable data => NFile readable data
  | NNoStat => NNoStat
  | _ => NOther
  end.

Definition shallow (n : node) : node :=
  match n with
  | NDir listable items => NDir listable (map (fun e => (fst e, leaf (snd e))) items)
  | _ => n
  end.

Definition shallow_tree (items : list (string * node)) : node :=
  NDir true (map (fun e => (fst e, shallow (snd e))) items).

(** One iteration of the loop of [fix_mylzip_redirect], counters dropped. *)
Definition fix_visit (local_path : string) (entry : string * node) : M remote unit :=
  (_ <- fix_item local_path (Counters 0 0) entry ;; ret tt)%py.

(** The remote root of [deploy] is there, or can be created by the
    fallback of the navigation. *)
Definition site_ready (r : remote) : Prop :=
  is_dir_at r site_root = true \/
  (exists_at r site_root = false /\ is_dir_at r (removelast site_root) = true).

(** Nothing lies under the remote root. *)
Definition site_empty (r : remote) : Prop :=
  forall q, q <> [] -> store r !! (site_root ++ q)%list = None.

(** The number of entries of a tree, at any depth. *)
Fixpoint node_entries (n : node) : nat :=
  match n with
  | NDir _ items => list_sum (map (fun e => 1 + node_entries (snd e)) items)
  | _ => 0
  end.

Definition tree_entries (items : list (string * node)) : nat :=
  list_sum (map (fun e => 1 + node_entries (snd e)) items).

(** ** Further vocabulary *)

(** A peer on a read-only account: it answers like the reference peer, but
    refuses every [MKD] and every [STOR]. *)
Definition readonly_ftp : FTP remote := {|
  ftp_connect := sim_connect;
  ftp_login := sim_login;
  ftp_pwd := sim_pwd;
  ftp_cwd := sim_cwd;
  ftp_mkd := fun p r => (Raise (error_perm ("550 " ++ p ++ ": Permission denied")), r);
  ftp_nlst := sim_nlst;
  ftp_storbinary := fun cmd data r => (Raise (error_perm "550 Permission denied"), r);
  ftp_quit := sim_quit
|}.

Definition css_tree : list (string * node) :=
  [ ("a.css", NFile true (bytes_of "a"));
    ("b.css", NFile false (bytes_of "b"));
    ("c.css", NFile true (bytes_of "c")) ].

(** The entries of a listing that are uploaded: regular files and
    directories. *)
Definition uploadable (items : list (string * node)) : nat :=
  length (List.filter (fun e => is_file (snd e) || is_dir (snd e)) items).

(** A listing whose directories hold no directory. *)
Definition no_nested_dirs (items : list (string * node)) : bool :=
  forallb
    (fun e =>
       match snd e with
       | NDir _ children => forallb (fun c => negb (is_dir (snd c))) children
       | _ => true
       end)
    items.

(** What a run over [items] writes when every directory of the listing is
    refused: the readable files of the listing, at [base]. *)
Definition refresh (base : list string) (items : list (string * node))
  (m : gmap (list string) rnode) : gmap (list string) rnode :=
  fold_left
    (fun m e =>
       match snd e with
       | NFile true data => <[(base ++ [fst e])%list := RFile data]> m
       | _ => m
       end)
    items m.

Definition readable_files (items : list (string * node)) : nat :=
  length (List.filter (fun e => match snd e with NFile true _ => true | _ => false end)
            items).

(** The state a second run finds for an entry of the listing: the kind of
    the entry can be tested, the name of a directory is taken on the
    remote side, the name of a file is not taken by a remote directory. *)
Definition already_there (r : remote) (e : string * node) : bool :=
  valid_name (fst e)
  && match snd e with
     | NFile _ _ => negb (is_dir_at r (cwd r ++ [fst e])%list)
     | NDir _ _ => exists_at r (cwd r ++ [fst e])%list
     | NOther => true
     | NNoStat => false
     end.

(** The same local tree listed in another order, at any depth. *)
#[warnings="-register-all"] Inductive reordered : node -> node -> Prop :=
| reordered_file readable data : reordered (NFile readable data) (NFile readable data)
| reordered_other : reordered NOther NOther
| reordered_nostat : reordered NNoStat NNoStat
| reordered_dir listable items items1 items' :
    Permutation items items1 ->
    Forall2 (fun e e' => fst e = fst e' /\ reordered (snd e) (snd e')) items1 items' ->
    reordered (NDir listable items) (NDir listable items').

(** The remote side after a first run over the scenario tree, and the tree
    with new contents for both files. *)
Definition first_run : remote :=
  srv (snd (upload_pass staging scenario_tree (World (in_site hostgator) []))).

Definition updated_tree : list (string * node) :=
  [ ("index.html", NFile true (bytes_of "<html>v2</html>"));
    ("assets", NDir true [ ("style.css", NFile true (bytes_of "body { color: red }")) ]) ].

Definition reversed_tree : list (string * node) :=
  [ ("assets", NDir true [ ("style.css", NFile true (bytes_of "body {}")) ]);
    ("index.html", NFile true (bytes_of "<html></html>")) ].

(** Every entry of the tree, at any depth, has a name a directory listing
    can yield. *)
Fixpoint names_ok (n : node) : bool :=
  match n with
  | NDir _ items => forallb (fun e => valid_name (fst e) && names_ok (snd e)) items
  | _ => true
  end.

Definition fs_names_ok (fs : localfs) : bool :=
  match root fs with
  | Some n => names_ok n
  | None => true
  end.

(** [m'] is [m] with entries added or files rewritten at or under [base]:
    every path holds what it held, or is a path at or under [base] that
    did not hold a directory and now holds something. *)
Definition grown (base : list string) (m m' : gmap (list string) rnode) : Prop :=
  forall k,
    m' !! k = m !! k \/
    exists q, k = (base ++ q)%list /\ m !! k <> Some RDir /\ is_Some (m' !! k).

(** [r'] follows [r] in a session that stayed in its directory. *)
Definition kept (r r' : remote) : Prop :=
  cwd r' = cwd r /\ grown (cwd r) (store r) (store r').

(** * Properties *)

(** ** Induction on local trees *)

Lemma node_rect' (P : node -> Prop) :
  (forall r data, P (NFile r data)) ->
  (forall l items, Forall (fun e => P (snd e)) items -> P (NDir l items)) ->
  P NOther ->
  P NNoStat ->
  forall n, P n.
Proof.
  intros HF HD HO HN.
  fix IH 1.
  intros [r data | l items | | ].
  - apply HF.
  - apply HD.
    induction items as [| [name child] items IHitems].
    + constructor.
    + constructor; [apply IH | apply IHitems].
  - apply HO.
  - apply HN.
Qed.

Ltac run :=
  unfold bind, ret, raise, try_except, try_or_return, print, call, lift_res in *;
  simpl in *.

Section Generic.
Context {S : Type} {ftp : FTP S}.

(** *** Loops *)

Lemma for_each_total {A} (body : A -> M S unit) (l : list A) :
  Forall (fun x => forall w, exists w', body x w = (Ok tt, w')) l ->
  forall w, exists w', for_each body l w = (Ok tt, w').
Proof.
  induction 1 as [| x l Hx Hl IH]; intros w; simpl.
  - eexists; reflexivity.
  - unfold bind. destruct (Hx w) as [w1 ->]. apply IH.
Qed.

Lemma for_fold_app {A B} (body : B -> A -> M S B) (l1 l2 : list A) (acc : B) (w : world S) :
  for_fold body (l1 ++ l2) acc w =
  match for_fold body l1 acc w with
  | (Ok acc1, w1) => for_fold body l2 acc1 w1
  | (Raise e, w1) => (Raise e, w1)
  end.
Proof.
  revert acc w. induction l1 as [| x l1 IH]; intros acc w; simpl.
  - reflexivity.
  - unfold bind. destruct (body acc x w) as [[acc1 | e] w1]; [apply IH | reflexivity].
Qed.

Lemma stat_ok_cons (x : string * node) l :
  stat_ok (x :: l) = can_stat (snd x) && stat_ok l.
Proof. reflexivity. Qed.

Lemma stat_ok_app (l1 l2 : list (string * node)) :
  stat_ok (l1 ++ l2) = stat_ok l1 && stat_ok l2.
Proof. apply forallb_app. Qed.

Lemma stat_ok_In (l : list (string * node)) x :
  stat_ok l = true -> In x l -> can_stat (snd x) = true.
Proof.
  unfold stat_ok. rewrite forallb_forall. intros H Hin. exact (H x Hin).
Qed.

(** A counting loop over entries whose kind can be tested runs to its
    end. *)
Lemma for_fold_counting (body : counters -> string * node -> M S counters) :
  counting body ->
  forall l c w, stat_ok l = true ->
  exists c' w',
    for_fold body l c w = (Ok c', w') /\
    total_count c' = total_count c + length l /\
    success_count c <= success_count c' <= success_count c + length l.
Proof.
  intros Hb l. induction l as [| x l IH]; intros c w Hl; simpl.
  - exists c, w. repeat split; lia.
  - rewrite stat_ok_cons in Hl. apply andb_prop in Hl as [Hx Hl].
    pose proof (Hb c x w) as H. rewrite Hx in H.
    unfold bind. destruct H as (c1 & w1 & -> & Ht & Hs).
    destruct (IH c1 w1 Hl) as (c2 & w2 & -> & Ht2 & Hs2).
    exists c2, w2. repeat split; lia.
Qed.

(** A counting loop raises at the first entry whose [stat] fails. *)
Lemma for_fold_raises (body : counters -> string * node -> M S counters) :
  counting body ->
  forall l c w, stat_ok l = false ->
  exists e w', for_fold body l c w = (Raise e, w').
Proof.
  intros Hb l. induction l as [| x l IH]; intros c w Hl; simpl.
  - discriminate.
  - rewrite stat_ok_cons in Hl.
    pose proof (Hb c x w) as H. unfold bind.
    destruct (can_stat (snd x)).
    + destruct H as (c1 & w1 & -> & _). apply IH. exact Hl.
    + destruct H as (e & ->). eauto.
Qed.

(** *** [upload_file] *)

Lemma upload_file_eq local_file f remote_file (w : world S) :
  upload_file local_file f remote_file w =
  match open_rb local_file f with
  | Raise e => (Ok false, World (srv w) (out w ++ [line_file_err local_file e]))
  | Ok data =>
      match ftp_storbinary ("STOR " ++ remote_file) data (srv w) with
      | (Ok _, s1) =>
          (Ok true,
           World s1 ((out w ++ [line_file_start local_file]) ++ [line_file_ok local_file]))
      | (Raise e, s1) =>
          (Ok false,
           World s1 ((out w ++ [line_file_start local_file]) ++ [line_file_err local_file e]))
      end
  end.
Proof.
  unfold upload_file. run.
  destruct (open_rb local_file f) as [data | e]; [| reflexivity].
  destruct (ftp_storbinary _ data (srv w)) as [[rep | e] s1]; reflexivity.
Qed.

Lemma upload_file_total local_file f remote_file (w : world S) :
  exists b w', upload_file local_file f remote_file w = (Ok b, w').
Proof.
  rewrite upload_file_eq.
  destruct (open_rb local_file f) as [data | e]; [| eauto].
  simpl. destruct (ftp_storbinary _ data (srv w)) as [[rep | e] s1]; eauto.
Qed.

(** *** [upload_directory] *)

Lemma upload_directory_eq local_dir d remote_dir (w : world S) :
  upload_directory local_dir d remote_dir w =
  match ftp_mkd remote_dir (srv w) with
  | (Raise e, s1) =>
      (Ok false, World s1 ((out w ++ [line_dir_start local_dir]) ++ [line_dir_err local_dir e]))
  | (Ok _, s1) =>
      let w1 :=
        World s1 ((out w ++ [line_dir_start local_dir]) ++ [line_dir_created remote_dir]) in
      match os_listdir local_dir d with
      | Raise e => (Ok false, World s1 (out w1 ++ [line_dir_err local_dir e]))
      | Ok items =>
          match upload_children local_dir remote_dir items w1 with
          | (Ok _, w2) => (Ok true, w2)
          | (Raise e, w2) => (Ok false, World (srv w2) (out w2 ++ [line_dir_err local_dir e]))
          end
      end
  end.
Proof.
  destruct d as [r data | [|] items | | ]; simpl; run;
    destruct (ftp_mkd remote_dir (srv w)) as [[rep | e] s1]; simpl; try reflexivity.
  unfold upload_children, visit, line_dir_start, line_dir_created. run.
  match goal with
  | |- context [for_each ?b ?l ?w0] => destruct (for_each b l w0) as [[[] | e] w2]
  end; reflexivity.
Qed.

Lemma upload_directory_total local_dir d remote_dir (w : world S) :
  exists b w', upload_directory local_dir d remote_dir w = (Ok b, w').
Proof.
  rewrite upload_directory_eq.
  destruct (ftp_mkd remote_dir (srv w)) as [[rep | e] s1]; [| eauto].
  simpl. destruct (os_listdir local_dir d) as [items | e]; [| eauto].
  destruct (upload_children _ _ _ _) as [[[] | e] w2]; eauto.
Qed.

Lemma upload_children_total local_dir remote_dir items (w : world S) :
  exists w', upload_children local_dir remote_dir items w = (Ok tt, w').
Proof.
  apply for_each_total. apply List.Forall_forall. intros [name child] _ w0.
  unfold visit. simpl.
  destruct (is_file child).
  - destruct (upload_file_total (path_join local_dir name) child
                (remote_dir ++ "/" ++ name) w0) as (b & w1 & H).
    unfold bind. rewrite H. eexists; reflexivity.
  - destruct (is_dir child); [| eexists; reflexivity].
    destruct (upload_directory_total (path_join local_dir name) child
                (remote_dir ++ "/" ++ name) w0) as (b & w1 & H).
    unfold bind. rewrite H. eexists; reflexivity.
Qed.

Lemma upload_directory_returns local_dir d remote_dir (w : world S) :
  exists w',
    upload_directory local_dir d remote_dir w =
    (Ok (returned (ftp_mkd remote_dir (srv w)) && listable_dir d), w').
Proof.
  rewrite upload_directory_eq. unfold returned.
  destruct (ftp_mkd remote_dir (srv w)) as [[rep | e] s1]; simpl; [| eauto].
  destruct d as [r data | [|] items | | ]; simpl; eauto.
  destruct (upload_children_total local_dir remote_dir items
              (World s1 ((out w ++ [line_dir_start local_dir]) ++ [line_dir_created remote_dir])))
    as [w2 ->].
  eauto.
Qed.

(** *** The top-level loops *)

Lemma deploy_item_counting local_path : counting (deploy_item local_path).
Proof.
  intros c [name f] w. unfold deploy_item, path_is_file, path_is_dir.
  cbn [fst snd].
  destruct (can_stat f); [| eexists; reflexivity]. cbn [branch].
  destruct (is_file f).
  - destruct (upload_file_total (path_join local_path name) f name w) as (b & w1 & H).
    unfold bind. rewrite H. eexists _, _. split; [reflexivity |].
    destruct b; simpl; lia.
  - destruct (is_dir f).
    + destruct (upload_directory_total (path_join local_path name) f name w) as (b & w1 & H).
      unfold bind. rewrite H. eexists _, _. split; [reflexivity |].
      destruct b; simpl; lia.
    + eexists _, _. split; [reflexivity |]. simpl; lia.
Qed.

Lemma fix_subitems_outcome item local_item_path subitems (w : world S) :
  exists r w', for_each (fix_subitem item local_item_path) subitems w = (r, w')
               /\ out w' = out w.
Proof.
  revert w. induction subitems as [| [subitem f] l IH]; intros w; simpl.
  - eexists _, _; split; reflexivity.
  - unfold bind at 1, fix_subitem at 1, path_is_file. cbn [fst snd].
    destruct (can_stat f); [| eexists _, _; split; reflexivity]. cbn [branch].
    destruct (is_file f).
    + run. destruct (open_rb _ f) as [data | e]; [| eexists _, _; split; reflexivity].
      destruct (ftp_storbinary _ data (srv w)) as [[rep | e] s1].
      * destruct (IH (World s1 (out w))) as (r & w' & -> & Ho). eauto.
      * eexists _, _; split; reflexivity.
    + run. apply IH.
Qed.

Lemma fix_item_counting local_path : counting (fix_item local_path).
Proof.
  intros c [name f] w. unfold fix_item, path_is_file, path_is_dir.
  cbn [fst snd].
  destruct (can_stat f); [| eexists; reflexivity]. cbn [branch].
  destruct (is_file f).
  - run. destruct (open_rb _ f) as [data | e].
    + destruct (ftp_storbinary _ data (srv w)) as [[rep | e] s1];
        eexists _, _; (split; [reflexivity |]); simpl; lia.
    + eexists _, _; (split; [reflexivity |]); simpl; lia.
  - destruct (is_dir f).
    + run. destruct (ftp_mkd name (srv w)) as [[rep | e] s1].
      * destruct (os_listdir _ f) as [subitems | e].
        -- match goal with
           | |- context [for_each ?b ?l ?w0] =>
               destruct (for_each b l w0) as [[[] | e] w2]
           end; eexists _, _; (split; [reflexivity |]); simpl; lia.
        -- eexists _, _; (split; [reflexivity |]); simpl; lia.
      * eexists _, _; (split; [reflexivity |]); simpl; lia.
    + eexists _, _. split; [reflexivity |]. simpl; lia.
Qed.

(** How a counting loop runs through [l1 ++ x :: l2]. *)
Lemma for_fold_split (body : counters -> string * node -> M S counters) :
  counting body ->
  forall l1 x l2 c w,
  stat_ok l1 = true -> can_stat (snd x) = true -> stat_ok l2 = true ->
  exists c1 w1 c2 w2 c3 w3,
    for_fold body l1 c w = (Ok c1, w1) /\
    body c1 x w1 = (Ok c2, w2) /\
    for_fold body l2 c2 w2 = (Ok c3, w3) /\
    for_fold body (l1 ++ x :: l2) c w = (Ok c3, w3) /\
    total_count c1 = total_count c + length l1 /\
    success_count c1 <= success_count c + length l1 /\
    total_count c2 = total_count c1 + 1 /\
    success_count c2 <= success_count c1 + 1 /\
    total_count c3 = total_count c2 + length l2 /\
    success_count c3 <= success_count c2 + length l2.
Proof.
  intros Hb l1 x l2 c w Hl1 Hx Hl2.
  destruct (for_fold_counting body Hb l1 c w Hl1) as (c1 & w1 & H1 & Ht1 & Hs1).
  pose proof (Hb c1 x w1) as H. rewrite Hx in H.
  destruct H as (c2 & w2 & H2 & Ht2 & Hs2).
  destruct (for_fold_counting body Hb l2 c2 w2 Hl2) as (c3 & w3 & H3 & Ht3 & Hs3).
  exists c1, w1, c2, w2, c3, w3.
  repeat split; try assumption; try lia.
  rewrite for_fold_app, H1. simpl. unfold bind. rewrite H2. exact H3.
Qed.

(** *** The phases of a run *)

Lemma for_each_print (g : string -> string) files (w : world S) :
  for_each (fun file => print (g file)) files w =
  (Ok tt, World (srv w) (out w ++ map g files)).
Proof.
  revert w. induction files as [| f files IH]; intros w; simpl.
  - unfold ret. rewrite app_nil_r. destruct w; reflexivity.
  - unfold bind, print at 1. rewrite IH. simpl. rewrite <- app_assoc. reflexivity.
Qed.

Lemma deploy_list_current_eq (w : world S) :
  deploy_list_current w =
  match ftp_nlst (srv w) with
  | (Ok files, s1) =>
      (Ok tt, World s1 ((out w ++ [line_deploy_list_current]) ++ map line_listed files))
  | (Raise e, s1) =>
      (Ok tt, World s1 ((out w ++ [line_deploy_list_current]) ++ [line_list_err e]))
  end.
Proof.
  unfold deploy_list_current.
  unfold bind at 1, print at 1, try_except, bind at 1, call. simpl.
  destruct (ftp_nlst (srv w)) as [[files | e] s1].
  - rewrite (for_each_print line_listed). reflexivity.
  - reflexivity.
Qed.

Lemma deploy_list_final_eq (w : world S) :
  deploy_list_final w =
  match ftp_nlst (srv w) with
  | (Ok files, s1) =>
      (Ok tt,
       World s1 (((out w ++ [line_deploy_list_final]) ++ map line_listed files)
                 ++ [line_deploy_index files]))
  | (Raise e, s1) =>
      (Ok tt, World s1 ((out w ++ [line_deploy_list_final]) ++ [line_list_final_err e]))
  end.
Proof.
  unfold deploy_list_final.
  unfold bind at 1, print at 1, try_except, bind at 1, call. simpl.
  destruct (ftp_nlst (srv w)) as [[files | e] s1].
  - unfold bind. rewrite (for_each_print line_listed). unfold line_deploy_index.
    destruct (index_html_in files); reflexivity.
  - reflexivity.
Qed.

Lemma fix_list_final_eq (w : world S) :
  fix_list_final w =
  match ftp_nlst (srv w) with
  | (Ok files, s1) =>
      (Ok tt,
       World s1 (((out w ++ [line_fix_list_final]) ++ map line_listed files)
                 ++ [line_fix_index files]))
  | (Raise e, s1) =>
      (Ok tt, World s1 ((out w ++ [line_fix_list_final]) ++ [line_list_final_err e]))
  end.
Proof.
  unfold fix_list_final.
  unfold bind at 1, print at 1, try_except, bind at 1, call. simpl.
  destruct (ftp_nlst (srv w)) as [[files | e] s1].
  - unfold bind. rewrite (for_each_print line_listed). unfold line_fix_index.
    destruct (index_html_in files); reflexivity.
  - reflexivity.
Qed.

Lemma quit_quietly_eq (w : world S) :
  quit_quietly w = (Ok tt, World (snd (ftp_quit (srv w))) (out w)).
Proof.
  unfold quit_quietly. run. destruct (ftp_quit (srv w)) as [[rep | e] s1]; reflexivity.
Qed.

Lemma upload_pass_total local_path items (w : world S) :
  stat_ok items = true ->
  exists c w', upload_pass local_path items w = (Ok c, w')
               /\ total_count c = length items.
Proof.
  intros Hs.
  destruct (for_fold_counting _ (deploy_item_counting local_path) items (Counters 0 0) w Hs)
    as (c & w' & H & Ht & _).
  exists c, w'. split; [exact H | exact Ht].
Qed.

Lemma fix_upload_pass_total local_path items (w : world S) :
  stat_ok items = true ->
  exists c w', fix_upload_pass local_path items w = (Ok c, w')
               /\ total_count c = length items.
Proof.
  intros Hs.
  destruct (for_fold_counting _ (fix_item_counting local_path) items (Counters 0 0) w Hs)
    as (c & w' & H & Ht & _).
  exists c, w'. split; [exact H | exact Ht].
Qed.

Lemma upload_pass_raises local_path items (w : world S) :
  stat_ok items = false ->
  exists e w', upload_pass local_path items w = (Raise e, w').
Proof. apply (for_fold_raises _ (deploy_item_counting local_path)). Qed.

Lemma fix_upload_pass_raises local_path items (w : world S) :
  stat_ok items = false ->
  exists e w', fix_upload_pass local_path items w = (Raise e, w').
Proof. apply (for_fold_raises _ (fix_item_counting local_path)). Qed.

(** What [deploy_upload] does on each kind of local root. *)
Lemma deploy_upload_missing fs (w : world S) :
  root fs = None ->
  exists w', deploy_upload fs w = (Ok false, w').
Proof.
  intros H. unfold deploy_upload. rewrite H. run. eauto.
Qed.

Lemma deploy_upload_unlistable fs r e (w : world S) :
  root fs = Some r -> os_listdir (resolved fs) r = Raise e ->
  deploy_upload fs w = (Raise e, World (srv w) (out w ++ [line_deploy_upload])).
Proof.
  intros H He. unfold deploy_upload. rewrite H.
  destruct r as [? ? | [|] ? | | ]; simpl in He; try discriminate;
    run; rewrite ?He; injection He as <-; reflexivity.
Qed.

Lemma listed_can_stat path r items :
  os_listdir path r = Ok items -> r = NDir true items.
Proof.
  destruct r as [? ? | [|] ? | | ]; simpl; congruence.
Qed.

Lemma deploy_upload_stat_raises fs r items (w : world S) :
  root fs = Some r -> os_listdir (resolved fs) r = Ok items ->
  stat_ok items = false ->
  exists e w',
    upload_pass (resolved fs) items (World (srv w) (out w ++ [line_deploy_upload]))
      = (Raise e, w') /\
    deploy_upload fs w = (Raise e, w').
Proof.
  intros H Hl Hs. apply listed_can_stat in Hl as ->.
  destruct (upload_pass_raises (resolved fs) items
              (World (srv w) (out w ++ [line_deploy_upload])) Hs) as (e & w1 & Hp).
  exists e, w1. split; [exact Hp |].
  unfold deploy_upload. rewrite H.
  unfold bind at 1, print at 1. cbn [path_exists can_stat branch os_listdir_at os_listdir].
  unfold bind at 1, lift_res. fold line_deploy_upload.
  unfold bind at 1. rewrite Hp. reflexivity.
Qed.

Lemma deploy_upload_listable fs r items (w : world S) :
  root fs = Some r -> os_listdir (resolved fs) r = Ok items ->
  stat_ok items = true ->
  exists c w1 w',
    upload_pass (resolved fs) items (World (srv w) (out w ++ [line_deploy_upload]))
      = (Ok c, w1) /\
    total_count c = length items /\
    deploy_upload fs w = (Ok true, w') /\
    In (line_summary c) (out w') /\
    srv w' = snd (ftp_nlst (srv w1)).
Proof.
  intros H Hl Hs. apply listed_can_stat in Hl as ->.
  destruct (upload_pass_total (resolved fs) items
              (World (srv w) (out w ++ [line_deploy_upload])) Hs) as (c & w1 & Hp & Ht).
  exists c, w1.
  unfold deploy_upload. rewrite H.
  unfold bind at 1, print at 1. cbn [path_exists can_stat branch os_listdir_at os_listdir].
  unfold bind at 1, lift_res.
  unfold bind at 1. fold line_deploy_upload. rewrite Hp.
  unfold bind at 1, print at 1. unfold bind at 1.
  rewrite deploy_list_final_eq. simpl.
  destruct (ftp_nlst (srv w1)) as [[files | e] s1]; eexists; (split; [reflexivity |]);
    (split; [exact Ht |]); (split; [reflexivity |]); (split; [| reflexivity]); simpl;
    rewrite !in_app_iff; simpl; unfold line_summary; tauto.
Qed.

Lemma local_stop_root_ok fs : local_stop fs = None <-> root_ok fs = true.
Proof.
  unfold local_stop, root_ok.
  destruct (root fs) as [[r data | [|] items | | ] |]; simpl;
    try destruct (stat_ok items); split; congruence.
Qed.

Lemma deploy_upload_value fs (w : world S) :
  exists r w', deploy_upload fs w = (r, w') /\
    (r = Ok true <-> root_ok fs = true) /\
    (r = Ok true \/ r = Ok false \/ exists e, r = Raise e).
Proof.
  destruct (root fs) as [r |] eqn:Hr.
  - destruct (os_listdir (resolved fs) r) as [items | e] eqn:Hl.
    + pose proof (listed_can_stat _ _ _ Hl) as Hn.
      destruct (stat_ok items) eqn:Hs.
      * destruct (deploy_upload_listable fs r items w Hr Hl Hs)
          as (c & w1 & w' & _ & _ & H & _ & _).
        exists (Ok true), w'. split; [exact H |].
        split; [| tauto].
        unfold root_ok. rewrite Hr, Hn, Hs. tauto.
      * destruct (deploy_upload_stat_raises fs r items w Hr Hl Hs) as (e & w' & _ & H).
        exists (Raise e), w'. split; [exact H |].
        split; [| eauto].
        unfold root_ok. rewrite Hr, Hn, Hs. split; congruence.
    + rewrite (deploy_upload_unlistable fs r e w Hr Hl).
      eexists _, _. split; [reflexivity |].
      split; [| eauto].
      unfold root_ok. rewrite Hr.
      destruct r as [? ? | [|] ? | | ]; simpl in *; try discriminate; split; congruence.
  - destruct (deploy_upload_missing fs w Hr) as [w' H].
    exists (Ok false), w'. split; [exact H |].
    split; [| tauto].
    unfold root_ok. rewrite Hr. split; congruence.
Qed.

Lemma fix_upload_value fs (w : world S) :
  exists r w', fix_upload fs w = (r, w') /\
    (r = Ok true <-> root_ok fs = true) /\
    (r = Ok true \/ r = Ok false \/ exists e, r = Raise e).
Proof.
  unfold fix_upload, root_ok.
  destruct (root fs) as [r |].
  - unfold bind at 1, print at 1.
    destruct r as [? ? | [|] items | | ];
      cbn [path_exists can_stat branch os_listdir_at os_listdir];
      try (unfold bind, lift_res, raise; simpl;
           eexists _, _; split; [reflexivity |]; split; [split; congruence | eauto]).
    unfold bind at 1, lift_res. fold line_fix_upload. cbn [srv out].
    destruct (stat_ok items) eqn:Hs.
    + destruct (fix_upload_pass_total (resolved fs) items
                  (World (srv w) (out w ++ [line_fix_upload])) Hs) as (c & w1 & Hp & _).
      unfold bind at 1. rewrite Hp.
      unfold bind at 1, print at 1. unfold bind at 1.
      rewrite fix_list_final_eq. simpl.
      destruct (ftp_nlst (srv w1)) as [[files | e] s1];
        eexists _, _; (split; [reflexivity |]); tauto.
    + destruct (fix_upload_pass_raises (resolved fs) items
                  (World (srv w) (out w ++ [line_fix_upload])) Hs) as (e & w1 & Hp).
      unfold bind at 1. rewrite Hp.
      eexists _, _. split; [reflexivity |]. split; [split; congruence | eauto].
  - run. eexists _, _. split; [reflexivity |]. split; [split; congruence | tauto].
Qed.

Lemma deploy_try_eq fs (w : world S) :
  deploy_try fs w =
  match deploy_connect w with
  | (Raise e, w1) => (Raise e, w1)
  | (Ok _, w1) =>
      match deploy_navigate w1 with
      | (Raise e, w2) => (Raise e, w2)
      | (Ok _, w2) =>
          match deploy_list_current w2 with
          | (Raise e, w3) => (Raise e, w3)
          | (Ok _, w3) => deploy_upload fs w3
          end
      end
  end.
Proof. reflexivity. Qed.

Lemma deploy_eq fs (w : world S) :
  deploy fs w =
  match deploy_try fs w with
  | (Ok b, w1) => (Ok b, World (snd (ftp_quit (srv w1))) (out w1))
  | (Raise e, w1) =>
      (Ok false,
       World (snd (ftp_quit (srv w1)))
         (out w1 ++ ["[ERROR] Deployment failed: " ++ str_exn e]))
  end.
Proof.
  unfold deploy, try_finally, try_except.
  destruct (deploy_try fs w) as [[b | e] w1]; run; rewrite quit_quietly_eq; reflexivity.
Qed.

Lemma fix_eq fs (w : world S) :
  fix_mylzip_redirect fs w =
  match fix_try fs w with
  | (Ok b, w1) => (Ok b, World (snd (ftp_quit (srv w1))) (out w1))
  | (Raise e, w1) =>
      (Ok false,
       World (snd (ftp_quit (srv w1))) (out w1 ++ ["[ERROR] Fix failed: " ++ str_exn e]))
  end.
Proof.
  unfold fix_mylzip_redirect, try_finally, try_except.
  destruct (fix_try fs w) as [[b | e] w1]; run; rewrite quit_quietly_eq; reflexivity.
Qed.

(** [deploy] always returns a boolean, and [True] exactly when no phase
    stops the run. *)
Lemma deploy_value fs (w : world S) :
  exists w',
    deploy fs w = (Ok (match deploy_stops fs w with None => true | Some _ => false end), w').
Proof.
  rewrite deploy_eq, deploy_try_eq. unfold deploy_stops.
  destruct (deploy_connect w) as [[u | e] w1]; [| eauto].
  destruct (deploy_navigate w1) as [[u2 | e] w2]; [| eauto].
  rewrite deploy_list_current_eq.
  destruct (ftp_nlst (srv w2)) as [[files | e] s3];
    match goal with
    | |- context [deploy_upload fs ?w3] =>
        destruct (deploy_upload_value fs w3) as (r & w' & -> & Hr & Hc)
    end;
    pose proof (local_stop_root_ok fs) as Hl;
    (destruct Hc as [-> | [-> | [e' ->]]];
     destruct (local_stop fs);
     try solve [exfalso; intuition congruence];
     eexists; reflexivity).
Qed.

(** The ways through the [try] block of [fix_mylzip_redirect]. *)
Lemma fix_try_connect_fails fs (w w1 : world S) e :
  fix_connect w = (Raise e, w1) ->
  fix_try fs w = (Raise e, w1).
Proof. intros H. unfold fix_try, bind. rewrite H. reflexivity. Qed.

Lemma fix_try_cwd_fails fs (w w1 : world S) u e s2 :
  fix_connect w = (Ok u, w1) ->
  ftp_cwd fix_remote_path (srv w1) = (Raise e, s2) ->
  fix_try fs w = (Ok false, World s2 ((out w1 ++ [line_fix_nav]) ++ [line_fix_nav_err])).
Proof.
  intros H Hc. unfold fix_try. unfold bind at 1. rewrite H.
  unfold bind at 1, print at 1, try_or_return, call. simpl. rewrite Hc. reflexivity.
Qed.

Lemma fix_try_pwd_fails fs (w w1 : world S) u rep s2 e s3 :
  fix_connect w = (Ok u, w1) ->
  ftp_cwd fix_remote_path (srv w1) = (Ok rep, s2) ->
  ftp_pwd s2 = (Raise e, s3) ->
  fix_try fs w = (Raise e, World s3 (out w1 ++ [line_fix_nav])).
Proof.
  intros H Hc Hp. unfold fix_try. unfold bind at 1. rewrite H.
  unfold bind at 1, print at 1, try_or_return at 1, call at 1. simpl. rewrite Hc.
  unfold bind at 1, call at 1. simpl. rewrite Hp. reflexivity.
Qed.

Lemma fix_try_nlst_fails fs (w w1 : world S) u rep s2 d s3 e s4 :
  fix_connect w = (Ok u, w1) ->
  ftp_cwd fix_remote_path (srv w1) = (Ok rep, s2) ->
  ftp_pwd s2 = (Ok d, s3) ->
  ftp_nlst s3 = (Raise e, s4) ->
  fix_try fs w =
  (Ok false,
   World s4 ((((out w1 ++ [line_fix_nav]) ++ [line_now_in d]) ++ [line_fix_list_current])
             ++ [line_list_err e])).
Proof.
  intros H Hc Hp Hn. unfold fix_try. unfold bind at 1. rewrite H.
  unfold bind at 1, print at 1, try_or_return at 1, call at 1. simpl. rewrite Hc.
  unfold bind at 1, call at 1. simpl. rewrite Hp.
  unfold bind at 1, print at 1. simpl.
  unfold bind at 1, print at 1. simpl.
  unfold try_or_return, bind at 1, call at 1. simpl. rewrite Hn. reflexivity.
Qed.

Lemma fix_try_listed fs (w w1 : world S) u rep s2 d s3 files s4 :
  fix_connect w = (Ok u, w1) ->
  ftp_cwd fix_remote_path (srv w1) = (Ok rep, s2) ->
  ftp_pwd s2 = (Ok d, s3) ->
  ftp_nlst s3 = (Ok files, s4) ->
  exists o, fix_try fs w = fix_upload fs (World s4 o).
Proof.
  intros H Hc Hp Hn. unfold fix_try. unfold bind at 1. rewrite H.
  unfold bind at 1, print at 1, try_or_return at 1, call at 1. simpl. rewrite Hc.
  unfold bind at 1, call at 1. simpl. rewrite Hp.
  unfold bind at 1, print at 1. simpl.
  unfold bind at 1, print at 1. simpl.
  unfold try_or_return, bind at 1, call at 1. simpl. rewrite Hn.
  unfold bind at 1. rewrite (for_each_print line_listed). simpl.
  unfold ret at 1. unfold bind at 1.
  destruct (index_html_in files); run; eexists; reflexivity.
Qed.

Lemma fix_value fs (w : world S) :
  exists w',
    fix_mylzip_redirect fs w =
    (Ok (match fix_stops fs w with None => true | Some _ => false end), w').
Proof.
  rewrite fix_eq. unfold fix_stops.
  destruct (fix_connect w) as [[u | e] w1] eqn:H.
  2: { rewrite (fix_try_connect_fails fs w w1 e H). eauto. }
  destruct (ftp_cwd fix_remote_path (srv w1)) as [[rep | e] s2] eqn:Hc.
  2: { rewrite (fix_try_cwd_fails fs w w1 u e s2 H Hc). eauto. }
  destruct (ftp_pwd s2) as [[d | e] s3] eqn:Hp.
  2: { rewrite (fix_try_pwd_fails fs w w1 u rep s2 e s3 H Hc Hp). eauto. }
  destruct (ftp_nlst s3) as [[files | e] s4] eqn:Hn.
  2: { rewrite (fix_try_nlst_fails fs w w1 u rep s2 d s3 e s4 H Hc Hp Hn). eauto. }
  destruct (fix_try_listed fs w w1 u rep s2 d s3 files s4 H Hc Hp Hn) as [o ->].
  destruct (fix_upload_value fs (World s4 o)) as (r & w' & -> & Hr & Hcases).
  pose proof (local_stop_root_ok fs) as Hl.
  destruct Hcases as [-> | [-> | [e' ->]]];
    destruct (local_stop fs);
    try solve [exfalso; intuition congruence];
    eexists; reflexivity.
Qed.

(** *** Claims on the counters *)

(** C8: in both scripts every iteration of the top-level loop that
    completes adds one to the attempted count and at most one to the
    succeeded count; the only iteration that does not complete is one
    whose [is_file()] or [is_dir()] test raises, and then the loop raises
    and returns no counters.  So whenever the loop returns counters, that
    is, when the kind of every entry can be tested, they satisfy
    succeeded <= attempted. *)
Theorem succeeded_le_attempted local_path items (w : world S) :
  counting (deploy_item local_path) /\
  counting (fix_item local_path) /\
  (if stat_ok items
   then exists c w', upload_pass local_path items w = (Ok c, w')
                     /\ success_count c <= total_count c
   else exists e w', upload_pass local_path items w = (Raise e, w')) /\
  (if stat_ok items
   then exists c w', fix_upload_pass local_path items w = (Ok c, w')
                     /\ success_count c <= total_count c
   else exists e w', fix_upload_pass local_path items w = (Raise e, w')).
Proof.
  split; [apply deploy_item_counting |].
  split; [apply fix_item_counting |].
  destruct (stat_ok items) eqn:Hs; split.
  - destruct (for_fold_counting _ (deploy_item_counting local_path) items
                (Counters 0 0) w Hs) as (c & w' & H & Ht & Hc).
    exists c, w'. split; [exact H |]. simpl in *. lia.
  - destruct (for_fold_counting _ (fix_item_counting local_path) items
                (Counters 0 0) w Hs) as (c & w' & H & Ht & Hc).
    exists c, w'. split; [exact H |]. simpl in *. lia.
  - apply upload_pass_raises. exact Hs.
  - apply fix_upload_pass_raises. exact Hs.
Qed.

(** C10, amended: a top-level entry that is neither a regular file nor a
    directory costs one attempt, triggers no FTP command and no output (the world is
    left as it was) and no success; so in both scripts a loop over a
    listing that holds such an entry, when it returns counters, returns
    them with succeeded < attempted.  The loop returns counters exactly
    when the kind of every entry of the listing can be tested; otherwise it
    raises and there are no counters. *)
Theorem other_entry_is_attempted_only local_path items name c (w : world S) :
  deploy_item local_path c (name, NOther) w =
    (Ok (Counters (success_count c) (total_count c + 1)), w) /\
  fix_item local_path c (name, NOther) w =
    (Ok (Counters (success_count c) (total_count c + 1)), w) /\
  (In (name, NOther) items ->
   if stat_ok items
   then (exists c' w', upload_pass local_path items w = (Ok c', w')
                       /\ success_count c' < total_count c') /\
        (exists c' w', fix_upload_pass local_path items w = (Ok c', w')
                       /\ success_count c' < total_count c')
   else (exists e w', upload_pass local_path items w = (Raise e, w')) /\
        (exists e w', fix_upload_pass local_path items w = (Raise e, w'))).
Proof.
  split; [reflexivity |]. split; [reflexivity |].
  intros Hin. destruct (stat_ok items) eqn:Hs.
  2: { split; [apply upload_pass_raises | apply fix_upload_pass_raises]; exact Hs. }
  apply in_split in Hin as (l1 & l2 & ->).
  rewrite stat_ok_app, stat_ok_cons in Hs.
  apply andb_prop in Hs as [Hs1 Hs2]. apply andb_prop in Hs2 as [Hx Hs2].
  split.
  - destruct (for_fold_split _ (deploy_item_counting local_path) l1 (name, NOther) l2
                (Counters 0 0) w Hs1 Hx Hs2)
      as (c1 & w1 & c2 & w2 & c3 & w3 & H1 & H2 & H3 & H & Ht1 & Hc1 & Ht2 & Hc2 & Ht3 & Hc3).
    exists c3, w3. split; [exact H |].
    unfold deploy_item in H2. simpl in H2. injection H2 as <- _. simpl in *. lia.
  - destruct (for_fold_split _ (fix_item_counting local_path) l1 (name, NOther) l2
                (Counters 0 0) w Hs1 Hx Hs2)
      as (c1 & w1 & c2 & w2 & c3 & w3 & H1 & H2 & H3 & H & Ht1 & Hc1 & Ht2 & Hc2 & Ht3 & Hc3).
    exists c3, w3. split; [exact H |].
    unfold fix_item in H2. simpl in H2. injection H2 as <- _. simpl in *. lia.
Qed.

(** C7, amended: [upload_directory] returns [True] exactly when its [mkd]
    call and the listing of the local directory return; the loop over the
    children never raises, whatever happens to the children.  A directory
    that is a direct entry of the local root is therefore counted as
    succeeded exactly in that case, and it moves the counters by one
    attempt and at most one success whatever it contains: the files and
    directories inside it, failed or not, are not counted. *)
Theorem directory_success_ignores_children local_path c name l items (w : world S) :
  (forall local_dir remote_dir children (w0 : world S),
     exists w', upload_children local_dir remote_dir children w0 = (Ok tt, w')) /\
  (forall local_dir d remote_dir (w0 : world S),
     exists w', upload_directory local_dir d remote_dir w0 =
                (Ok (returned (ftp_mkd remote_dir (srv w0)) && listable_dir d), w')) /\
  exists w',
    deploy_item local_path c (name, NDir l items) w =
    (Ok (Counters
           (if returned (ftp_mkd name (srv w)) && l
            then success_count c + 1 else success_count c)
           (total_count c + 1)), w').
Proof.
  split; [intros; apply upload_children_total |].
  split; [intros; apply upload_directory_returns |].
  unfold deploy_item. cbn [fst snd path_is_file path_is_dir can_stat is_file is_dir branch].
  destruct (upload_directory_returns (path_join local_path name) (NDir l items) name w)
    as [w' H].
  unfold bind. rewrite H. exists w'. unfold ret.
  replace (listable_dir (NDir l items)) with l by (destruct l; reflexivity).
  reflexivity.
Qed.

(** C2, amended: over a local root that exists and can be listed, and
    whose direct entries all let [is_file()] and [is_dir()] answer, the
    upload loop of [deploy] returns counters whose attempted count is the
    number of direct entries of the root (nested entries are not counted),
    [deploy]'s upload phase returns [True] and prints these counters in its
    summary line. *)
Theorem attempted_counts_direct_entries fs r items (w : world S) :
  root fs = Some r ->
  os_listdir (resolved fs) r = Ok items ->
  stat_ok items = true ->
  exists c w1 w',
    upload_pass (resolved fs) items (World (srv w) (out w ++ [line_deploy_upload]))
      = (Ok c, w1) /\
    total_count c = length items /\
    deploy_upload fs w = (Ok true, w') /\
    In (line_summary c) (out w').
Proof.
  intros Hr Hl Hs.
  destruct (deploy_upload_listable fs r items w Hr Hl Hs)
    as (c & w1 & w' & Hp & Ht & Hd & Hin & _).
  exists c, w1, w'. repeat split; assumption.
Qed.

(** C4, amended: when a file directly under the local root cannot be
    uploaded (its [open] raises, or [storbinary] raises in the state the
    loop has reached), [upload_file] catches the exception, prints the
    error and returns [False]; the loop goes on with the remaining
    siblings from the world that follows.  When the kind of each of these
    siblings can be tested, the loop visits them all and returns counters
    with succeeded < attempted instead of raising; an exception of
    [is_file()] or [is_dir()] on one of them is the one thing the loop
    does not catch.  At any depth [upload_file] and the loop over the
    entries of a directory return rather than raise, so a file that fails
    inside a directory is caught in the same way; it is not counted. *)
Theorem failed_direct_file_is_survived local_path l1 name r data l2
    (w : world S) c1 w1 :
  upload_pass local_path l1 w = (Ok c1, w1) ->
  r = false \/ returned (ftp_storbinary ("STOR " ++ name) data (srv w1)) = false ->
  (exists e w2,
     upload_file (path_join local_path name) (NFile r data) name w1 = (Ok false, w2) /\
     last (out w2) = Some (line_file_err (path_join local_path name) e) /\
     upload_pass local_path (l1 ++ (name, NFile r data) :: l2) w =
       for_fold (deploy_item local_path) l2
         (Counters (success_count c1) (total_count c1 + 1)) w2 /\
     if stat_ok l2
     then exists c w3,
            upload_pass local_path (l1 ++ (name, NFile r data) :: l2) w = (Ok c, w3) /\
            total_count c = length l1 + 1 + length l2 /\
            success_count c < total_count c
     else exists e' w3,
            upload_pass local_path (l1 ++ (name, NFile r data) :: l2) w = (Raise e', w3)) /\
  (forall local_file f remote_file (w0 : world S),
     exists b w', upload_file local_file f remote_file w0 = (Ok b, w')) /\
  (forall local_dir remote_dir children (w0 : world S),
     exists w', upload_children local_dir remote_dir children w0 = (Ok tt, w')).
Proof.
  intros H1 Hbad.
  split; [| split; [intros; apply upload_file_total | intros; apply upload_children_total]].
  assert (Hl1 : stat_ok l1 = true).
  { destruct (stat_ok l1) eqn:Hs; [reflexivity |].
    destruct (upload_pass_raises local_path l1 w Hs) as (e & w' & He). congruence. }
  destruct (for_fold_counting _ (deploy_item_counting local_path) l1 (Counters 0 0) w Hl1)
    as (c1' & w1' & H1' & Ht1 & Hs1).
  unfold upload_pass in H1. rewrite H1 in H1'. injection H1' as <- <-.
  assert (Hfile : exists e w2,
             upload_file (path_join local_path name) (NFile r data) name w1 = (Ok false, w2)
             /\ last (out w2) = Some (line_file_err (path_join local_path name) e)).
  { rewrite upload_file_eq. unfold returned in Hbad.
    destruct r; simpl.
    - destruct (ftp_storbinary ("STOR " ++ name) data (srv w1)) as [[rep | e] s1];
        simpl in Hbad.
      + destruct Hbad; discriminate.
      + eexists e, _. split; [reflexivity |]. simpl. apply last_snoc.
    - eexists _, _. split; [reflexivity |]. simpl. apply last_snoc. }
  destruct Hfile as (e & w2 & Hf & Hlast).
  assert (Hrun : upload_pass local_path (l1 ++ (name, NFile r data) :: l2) w =
                 for_fold (deploy_item local_path) l2
                   (Counters (success_count c1) (total_count c1 + 1)) w2).
  { unfold upload_pass. rewrite for_fold_app, H1. simpl.
    unfold bind at 1, deploy_item at 1.
    cbn [fst snd path_is_file can_stat is_file branch].
    unfold bind at 1. rewrite Hf. reflexivity. }
  exists e, w2.
  split; [exact Hf |]. split; [exact Hlast |]. split; [exact Hrun |].
  rewrite Hrun. destruct (stat_ok l2) eqn:Hl2.
  - destruct (for_fold_counting _ (deploy_item_counting local_path) l2
                (Counters (success_count c1) (total_count c1 + 1)) w2 Hl2)
      as (c & w3 & H3 & Ht3 & Hs3).
    exists c, w3. split; [exact H3 |]. simpl in *. lia.
  - apply (for_fold_raises _ (deploy_item_counting local_path)). exact Hl2.
Qed.

(** C3, amended: when the remote creation of a directory fails,
    [upload_directory] prints the error and returns [False] at once: the
    peer is left in the state the failed [mkd] produced, so the children
    of the directory are neither listed nor uploaded.  The top-level loop
    of either script counts the directory as attempted, not as succeeded,
    and goes on with the next sibling. *)
Theorem failed_mkd_skips_the_directory local_path c remote_dir l items
    (w : world S) e s1 :
  ftp_mkd remote_dir (srv w) = (Raise e, s1) ->
  (forall local_dir d,
     upload_directory local_dir d remote_dir w =
     (Ok false,
      World s1 ((out w ++ [line_dir_start local_dir]) ++ [line_dir_err local_dir e]))) /\
  deploy_item local_path c (remote_dir, NDir l items) w =
    (Ok (Counters (success_count c) (total_count c + 1)),
     World s1 ((out w ++ [line_dir_start (path_join local_path remote_dir)])
               ++ [line_dir_err (path_join local_path remote_dir) e])) /\
  fix_item local_path c (remote_dir, NDir l items) w =
    (Ok (Counters (success_count c) (total_count c + 1)),
     World s1 ((out w ++ [line_fix_dir_start remote_dir])
               ++ [line_fix_dir_err remote_dir e])).
Proof.
  intros Hm.
  assert (Hd : forall local_dir d,
             upload_directory local_dir d remote_dir w =
             (Ok false,
              World s1 ((out w ++ [line_dir_start local_dir])
                        ++ [line_dir_err local_dir e]))).
  { intros local_dir d. rewrite upload_directory_eq, Hm. reflexivity. }
  split; [exact Hd |]. split.
  - unfold deploy_item. cbn [fst snd path_is_file path_is_dir can_stat is_file is_dir branch].
    unfold bind. rewrite Hd. reflexivity.
  - unfold fix_item. cbn [fst snd path_is_file path_is_dir can_stat is_file is_dir branch].
    run. rewrite Hm. reflexivity.
Qed.

(** C5, amended.  [deploy], on any run whose first [cwd] into the
    configured remote path raises: [mkd] is called on that path and [cwd]
    is called once more; an exception of either leaves [deploy_navigate]
    and makes [deploy] return [False]; when both return (and [pwd] after
    them), the run goes on and its result is decided by the local side
    alone.  [fix_mylzip_redirect], on any run whose [cwd] raises: there is
    no fallback, the function prints an error and returns [False] with no
    further command than [quit]. *)
Theorem navigation_failure_handling fs :
  (forall (w w1 : world S) u e s1,
     deploy_connect w = (Ok u, w1) ->
     ftp_cwd (remote_path config) (srv w1) = (Raise e, s1) ->
     deploy_navigate w1 =
       match ftp_mkd (remote_path config) s1 with
       | (Raise e2, s2) => (Raise e2, World s2 (out w1 ++ [line_deploy_nav]))
       | (Ok _, s2) =>
           match ftp_cwd (remote_path config) s2 with
           | (Raise e3, s3) => (Raise e3, World s3 (out w1 ++ [line_deploy_nav]))
           | (Ok _, s3) =>
               match ftp_pwd s3 with
               | (Raise e4, s4) => (Raise e4, World s4 (out w1 ++ [line_deploy_nav]))
               | (Ok d, s4) =>
                   (Ok tt, World s4 ((out w1 ++ [line_deploy_nav]) ++ [line_now_in d]))
               end
           end
       end /\
     exists w',
       deploy fs w =
       (Ok (if returned (deploy_navigate w1) then root_ok fs else false), w')) /\
  (forall (v v1 : world S) u' e' s1',
     fix_connect v = (Ok u', v1) ->
     ftp_cwd fix_remote_path (srv v1) = (Raise e', s1') ->
     fix_mylzip_redirect fs v =
       (Ok false,
        World (snd (ftp_quit s1')) ((out v1 ++ [line_fix_nav]) ++ [line_fix_nav_err]))).
Proof.
  split; [intros w w1 u e s1 Hc Hcwd; split | intros v v1 u' e' s1' Hc' Hcwd'].
  - unfold deploy_navigate. run. rewrite Hcwd. simpl.
    match goal with
    | |- context [ftp_mkd ?p s1] => destruct (ftp_mkd p s1) as [[rep | e2] s2]
    end; [| reflexivity].
    simpl.
    match goal with
    | |- context [ftp_cwd ?p s2] => destruct (ftp_cwd p s2) as [[rep' | e3] s3]
    end; [| reflexivity].
    simpl.
    destruct (ftp_pwd s3) as [[d | e4] s4]; reflexivity.
  - destruct (deploy_value fs w) as [w' H]. exists w'. rewrite H.
    unfold deploy_stops, returned. rewrite Hc.
    destruct (deploy_navigate w1) as [[u2 | e2] w2]; simpl; [| reflexivity].
    pose proof (local_stop_root_ok fs) as Hl.
    destruct (local_stop fs), (root_ok fs); try reflexivity;
      exfalso; intuition congruence.
  - rewrite fix_eq, (fix_try_cwd_fails fs v v1 u' e' s1' Hc' Hcwd'). reflexivity.
Qed.

(** C6, amended.  [deploy], on any run that reaches its first listing
    and whose [nlst] raises there: the error is printed and nothing else
    happens; the upload phase starts from the world that follows and the
    result of [deploy] is decided by the local side alone.  The final
    listing of both scripts, in any state where [nlst] raises, prints the
    error and returns.  The first listing of [fix_mylzip_redirect] does
    not: on any run that reaches it and whose [nlst] raises there, the
    function prints the error and returns [False] before any upload. *)
Theorem listing_failure_handling fs :
  (forall (w0 w1 w2 : world S) u1 u2 e s3,
     deploy_connect w0 = (Ok u1, w1) ->
     deploy_navigate w1 = (Ok u2, w2) ->
     ftp_nlst (srv w2) = (Raise e, s3) ->
     deploy_list_current w2 =
       (Ok tt, World s3 ((out w2 ++ [line_deploy_list_current]) ++ [line_list_err e])) /\
     deploy_try fs w0 =
       deploy_upload fs
         (World s3 ((out w2 ++ [line_deploy_list_current]) ++ [line_list_err e])) /\
     exists w', deploy fs w0 = (Ok (root_ok fs), w')) /\
  (forall (v : world S) e' s',
     ftp_nlst (srv v) = (Raise e', s') ->
     deploy_list_final v =
       (Ok tt, World s' ((out v ++ [line_deploy_list_final]) ++ [line_list_final_err e'])) /\
     fix_list_final v =
       (Ok tt, World s' ((out v ++ [line_fix_list_final]) ++ [line_list_final_err e']))) /\
  (forall (v v1 : world S) u rep s2 d s3' e' s4,
     fix_connect v = (Ok u, v1) ->
     ftp_cwd fix_remote_path (srv v1) = (Ok rep, s2) ->
     ftp_pwd s2 = (Ok d, s3') ->
     ftp_nlst s3' = (Raise e', s4) ->
     fix_mylzip_redirect fs v =
       (Ok false,
        World (snd (ftp_quit s4))
          ((((out v1 ++ [line_fix_nav]) ++ [line_now_in d]) ++ [line_fix_list_current])
           ++ [line_list_err e']))).
Proof.
  split.
  - intros w0 w1 w2 u1 u2 e s3 Hc Hn Hl.
    assert (Hcur : deploy_list_current w2 =
                   (Ok tt, World s3 ((out w2 ++ [line_deploy_list_current])
                                     ++ [line_list_err e]))).
    { rewrite deploy_list_current_eq, Hl. reflexivity. }
    split; [exact Hcur |].
    split; [rewrite deploy_try_eq, Hc, Hn, Hcur; reflexivity |].
    destruct (deploy_value fs w0) as [w' H]. exists w'. rewrite H.
    unfold deploy_stops. rewrite Hc, Hn.
    pose proof (local_stop_root_ok fs) as Hs.
    destruct (local_stop fs), (root_ok fs); try reflexivity;
      exfalso; intuition congruence.
  - split.
    + intros v e' s' Hv. rewrite deploy_list_final_eq, fix_list_final_eq, Hv.
      split; reflexivity.
    + intros v v1 u rep s2 d s3' e' s4 Hv Hcwd Hpwd Hnl.
      rewrite fix_eq, (fix_try_nlst_fails fs v v1 u rep s2 d s3' e' s4 Hv Hcwd Hpwd Hnl).
      reflexivity.
Qed.

(** C9, amended: both scripts exit with code 0 when their main function
    returns [True] and with code 1 otherwise; the main function always
    returns.  [deploy] returns [False] exactly when the connection, the
    navigation or the top-level upload pass raised (the pass raises when
    the local root cannot be examined or listed, or when [is_file()] or
    [is_dir()] raises on one of its entries; failed uploads are caught
    inside it) or the local root was missing, and never because a remote
    listing failed; [fix_mylzip_redirect] returns [False] in these cases
    and also when its first remote listing raised. *)
Theorem exit_code_reflects_result fs (w : world S) :
  (exists b w1,
     deploy fs (World (srv w) (out w ++ [line_deploy_start])) = (Ok b, w1) /\
     fst (deploy_main fs w) = Ok (if b then 0 else 1)%Z /\
     (b = false <->
      exists p, deploy_stops fs (World (srv w) (out w ++ [line_deploy_start])) = Some p) /\
     deploy_stops fs (World (srv w) (out w ++ [line_deploy_start])) <> Some Listing) /\
  (exists b v1,
     fix_mylzip_redirect fs (World (srv w) (out w ++ [line_fix_start])) = (Ok b, v1) /\
     fst (fix_main fs w) = Ok (if b then 0 else 1)%Z /\
     (b = false <->
      exists p, fix_stops fs (World (srv w) (out w ++ [line_fix_start])) = Some p)).
Proof.
  split.
  - destruct (deploy_value fs (World (srv w) (out w ++ [line_deploy_start]))) as [w1 H].
    eexists _, w1. split; [exact H |]. split; [| split].
    + unfold deploy_main. unfold bind at 1, print at 1. unfold bind at 1.
      fold line_deploy_start. rewrite H.
      destruct (deploy_stops fs _); reflexivity.
    + destruct (deploy_stops fs _); split; intros; eauto; try discriminate.
      destruct H0; discriminate.
    + unfold deploy_stops.
      destruct (deploy_connect _) as [[u | e] w2]; [| discriminate].
      destruct (deploy_navigate w2) as [[u2 | e] w3]; [| discriminate].
      unfold local_stop. destruct (root fs) as [r |]; [| discriminate].
      destruct (os_listdir (resolved fs) r) as [items |]; [| discriminate].
      destruct (stat_ok items); discriminate.
  - destruct (fix_value fs (World (srv w) (out w ++ [line_fix_start]))) as [v1 H].
    eexists _, v1. split; [exact H |]. split.
    + unfold fix_main. unfold bind at 1, print at 1. unfold bind at 1.
      fold line_fix_start. rewrite H.
      destruct (fix_stops fs _); reflexivity.
    + destruct (fix_stops fs _); split; intros; eauto; try discriminate.
      destruct H0; discriminate.
Qed.

End Generic.

(** ** The reference peer *)

Local Open Scope list_scope.

(** *** Paths *)

Lemma split_raw_not_nil s : split_raw s <> [].
Proof.
  destruct s as [| c r]; simpl; [discriminate |].
  destruct (is_slash c); [discriminate |].
  destruct (split_raw r); discriminate.
Qed.

Lemma split_raw_app a b :
  split_raw (a +:+ String "/" b) = split_raw a ++ split_raw b.
Proof.
  induction a as [| c r IH]; simpl.
  - reflexivity.
  - destruct (is_slash c).
    + rewrite IH. reflexivity.
    + rewrite IH. pose proof (split_raw_not_nil r) as Hr.
      destruct (split_raw r) as [| h t]; [contradiction | reflexivity].
Qed.

Lemma split_raw_name s : has_slash s = false -> split_raw s = [s].
Proof.
  induction s as [| c r IH]; simpl; intros H.
  - reflexivity.
  - apply orb_false_iff in H as [Hc Hr]. rewrite Hc, (IH Hr). reflexivity.
Qed.

Lemma valid_name_inv s :
  valid_name s = true -> nonempty s = true /\ has_slash s = false.
Proof.
  unfold valid_name. intros H. apply andb_true_iff in H as [Hn Hs].
  apply negb_true_iff in Hs. split; assumption.
Qed.

Lemma split_path_name s : valid_name s = true -> split_path s = [s].
Proof.
  intros H. apply valid_name_inv in H as [Hn Hs].
  unfold split_path. rewrite (split_raw_name s Hs). simpl. rewrite Hn. reflexivity.
Qed.

Lemma relative_name s : valid_name s = true -> relative s [s].
Proof.
  intros H. split; [| apply split_path_name; exact H].
  apply valid_name_inv in H as [Hn Hs].
  destruct s as [| c r]; [reflexivity |]. simpl in *.
  apply orb_false_iff in Hs as [Hc _]. exact Hc.
Qed.

Lemma relative_child rd p name :
  relative rd p -> p <> [] -> valid_name name = true ->
  relative (rd +:+ "/" +:+ name) (p ++ [name]).
Proof.
  intros [Hs Hp] Hne Hv. split.
  - destruct rd as [| c r]; [| exact Hs].
    exfalso. apply Hne. rewrite <- Hp. reflexivity.
  - unfold split_path in *.
    change (rd +:+ "/" +:+ name) with (rd +:+ String "/" name).
    rewrite split_raw_app, List.filter_app.
    rewrite Hp. f_equal. apply (split_path_name name Hv).
Qed.

Lemma below_app base q : below base (base ++ q) = Some q.
Proof.
  induction base as [| b base IH]; simpl; [reflexivity |].
  rewrite decide_True by reflexivity. exact IH.
Qed.

Lemma below_Some base k q : below base k = Some q -> k = base ++ q.
Proof.
  revert k. induction base as [| b base IH]; intros k; simpl.
  - congruence.
  - destruct k as [| x k]; [discriminate |].
    destruct (decide (b = x)) as [-> |]; [| discriminate].
    intros H. rewrite (IH k H). reflexivity.
Qed.

Lemma below_snoc base name k :
  below (base ++ [name]) k =
  match below base k with
  | Some (x :: q) => if decide (name = x) then Some q else None
  | _ => None
  end.
Proof.
  revert k. induction base as [| b base IH]; intros k; simpl.
  - destruct k as [| x k]; [reflexivity |].
    destruct (decide (name = x)); reflexivity.
  - destruct k as [| x k]; [reflexivity |].
    destruct (decide (b = x)); [apply IH | reflexivity].
Qed.

Lemma removelast_snoc (base : list string) name :
  removelast (base ++ [name]) = base.
Proof. apply removelast_last. Qed.

Lemma strip_stor p : strip_prefix "STOR " ("STOR " +:+ p) = Some p.
Proof. reflexivity. Qed.

Lemma below_self_snoc (b : list string) name : below (b ++ [name]) b = None.
Proof.
  rewrite below_snoc.
  replace (below b b) with (Some (@nil string)); [reflexivity |].
  rewrite <- (app_nil_r b) at 2. symmetry. apply below_app.
Qed.

Lemma below_snoc_cons (b : list string) name q :
  below (b ++ [name]) (b ++ name :: q) = Some q.
Proof. rewrite below_snoc, below_app, decide_True by reflexivity. reflexivity. Qed.

Lemma below_snoc_other (b : list string) name x q :
  name <> x -> below (b ++ [name]) (b ++ x :: q) = None.
Proof. intros H. rewrite below_snoc, below_app, decide_False by exact H. reflexivity. Qed.

(** *** Commands on fresh paths *)

Lemma snoc_not_nil (b : list string) name : b ++ [name] <> [].
Proof. destruct b; discriminate. Qed.

Lemma is_dir_at_lookup r k :
  k <> [] -> is_dir_at r k = match store r !! k with Some RDir => true | _ => false end.
Proof. destruct k; [congruence | reflexivity]. Qed.

Lemma exists_at_lookup r k :
  k <> [] -> exists_at r k = match store r !! k with Some _ => true | None => false end.
Proof. destruct k; [congruence | reflexivity]. Qed.

Lemma is_dir_at_ext r r' k :
  store r' !! k = store r !! k -> is_dir_at r' k = is_dir_at r k.
Proof. intros H. unfold is_dir_at. rewrite H. reflexivity. Qed.

Lemma resolve_relative r rd p name :
  relative rd (p ++ [name]) -> resolve r rd = (cwd r ++ p) ++ [name].
Proof.
  intros [Hs Hp]. unfold resolve. rewrite Hs, Hp. apply app_assoc.
Qed.

Lemma sim_mkd_new r rd p name :
  relative rd (p ++ [name]) ->
  store r !! ((cwd r ++ p) ++ [name]) = None ->
  is_dir_at r (cwd r ++ p) = true ->
  sim_mkd rd r =
  (Ok rd, Remote (<[(cwd r ++ p) ++ [name] := RDir]> (store r)) (cwd r) (can_list r)).
Proof.
  intros Hrel Hfresh Hdir. unfold sim_mkd.
  rewrite (resolve_relative r rd p name Hrel).
  rewrite exists_at_lookup by apply snoc_not_nil. rewrite Hfresh.
  rewrite removelast_snoc, Hdir. reflexivity.
Qed.

Lemma sim_stor_new r rd p name data :
  relative rd (p ++ [name]) ->
  store r !! ((cwd r ++ p) ++ [name]) = None ->
  is_dir_at r (cwd r ++ p) = true ->
  sim_storbinary ("STOR " +:+ rd) data r =
  (Ok "226 Transfer complete",
   Remote (<[(cwd r ++ p) ++ [name] := RFile data]> (store r)) (cwd r) (can_list r)).
Proof.
  intros Hrel Hfresh Hdir. unfold sim_storbinary. rewrite strip_stor.
  cbv zeta.
  rewrite (resolve_relative r rd p name Hrel).
  rewrite is_dir_at_lookup by apply snoc_not_nil. rewrite Hfresh.
  rewrite removelast_snoc, Hdir. reflexivity.
Qed.

(** *** Uploading a tree to a fresh place *)

Lemma find_entry_not_in name (items : list (string * node)) :
  ~ In name (map fst items) -> find_entry name items = None.
Proof.
  induction items as [| [n c] items IH]; simpl; intros H; [reflexivity |].
  destruct (decide (n = name)) as [-> |].
  - exfalso. apply H. left. reflexivity.
  - apply IH. intros Hin. apply H. right. exact Hin.
Qed.

Lemma for_each_entries step p view items :
  Forall (entry_spec step p view) items ->
  NoDup (map fst items) ->
  forall (r : remote) o,
    is_dir_at r (cwd r ++ p) = true ->
    (forall name q, In name (map fst items) ->
                    store r !! ((cwd r ++ p) ++ name :: q) = None) ->
    exists w',
      for_each step items (World r o) = (Ok tt, w') /\
      cwd (srv w') = cwd r /\
      can_list (srv w') = can_list r /\
      forall k,
        store (srv w') !! k =
        match below (cwd r ++ p) k with
        | Some (name :: q) =>
            match find_entry name items with
            | Some child => node_at q (view child) ≫= image
            | None => store r !! k
            end
        | _ => store r !! k
        end.
Proof.
  induction 1 as [| [name child] items Hchild _ IH]; intros Hnd r o Hdir Hfresh.
  - exists (World r o). simpl. repeat split.
    intros k. destruct (below (cwd r ++ p) k) as [[| x q] |]; reflexivity.
  - simpl in Hnd. apply NoDup_cons in Hnd as [Hnotin Hnd].
    assert (Hnotin' : ~ In name (map fst items)).
    { intros Hin. apply Hnotin. apply list_elem_of_In. exact Hin. }
    destruct (Hchild r o Hdir) as (w1 & Hv & Hcwd1 & Hlist1 & Hstore1).
    { intros q. apply Hfresh. simpl. left. reflexivity. }
    cbn [fst snd] in Hstore1.
    destruct w1 as [r1 o1]. simpl in Hcwd1, Hlist1, Hstore1.
    destruct (IH Hnd r1 o1) as (w2 & Hrest & Hcwd2 & Hlist2 & Hstore2).
    { rewrite Hcwd1. rewrite <- Hdir. apply is_dir_at_ext.
      rewrite Hstore1, below_self_snoc. reflexivity. }
    { intros x q Hx. rewrite Hcwd1, Hstore1.
      rewrite below_snoc_other; [apply Hfresh; simpl; right; exact Hx |].
      intros ->. apply Hnotin'. exact Hx. }
    exists w2. split; [| split; [| split]].
    + simpl. unfold bind. rewrite Hv. exact Hrest.
    + congruence.
    + congruence.
    + intros k. rewrite Hstore2, Hcwd1.
      destruct (below (cwd r ++ p) k) as [[| x q] |] eqn:Hb.
      * rewrite Hstore1, below_snoc, Hb. reflexivity.
      * apply below_Some in Hb as ->.
        simpl. destruct (decide (name = x)) as [<- | Hne].
        -- rewrite (find_entry_not_in name items Hnotin').
           rewrite Hstore1, below_snoc_cons. reflexivity.
        -- destruct (find_entry x items); [reflexivity |].
           rewrite Hstore1, below_snoc_other by exact Hne. reflexivity.
      * rewrite Hstore1, below_snoc, Hb. reflexivity.
Qed.

Lemma visit_all_spec items :
  Forall (fun e => visit_spec (snd e)) items ->
  forall local_dir (remote_name : string -> string) p (r : remote) o,
    (forall name, valid_name name = true -> relative (remote_name name) (p ++ [name])) ->
    forallb (fun e => valid_name (fst e) && well_formed (snd e)) items = true ->
    NoDup (map fst items) ->
    is_dir_at r (cwd r ++ p) = true ->
    (forall name q, In name (map fst items) ->
                    store r !! ((cwd r ++ p) ++ name :: q) = None) ->
    exists w',
      for_each (visit local_dir remote_name) items (World r o) = (Ok tt, w') /\
      cwd (srv w') = cwd r /\
      can_list (srv w') = can_list r /\
      forall k,
        store (srv w') !! k =
        match below (cwd r ++ p) k with
        | Some (name :: q) =>
            match find_entry name items with
            | Some child => node_at q child ≫= image
            | None => store r !! k
            end
        | _ => store r !! k
        end.
Proof.
  intros Hall local_dir remote_name p r o Hrel Hwf Hnd Hdir Hfresh.
  apply (for_each_entries (visit local_dir remote_name) p (fun n => n) items);
    try assumption.
  rewrite forallb_forall in Hwf. rewrite List.Forall_forall in Hall.
  apply List.Forall_forall. intros [name child] Hin.
  specialize (Hwf _ Hin). specialize (Hall _ Hin). cbn [fst snd] in *.
  apply andb_true_iff in Hwf as [Hname Hwfc].
  intros r0 o0 Hdir0 Hfresh0.
  apply (Hall local_dir remote_name name p r0 o0 (Hrel name Hname) Hwfc Hdir0 Hfresh0).
Qed.

Lemma fresh_under (m : gmap (list string) rnode) (b : list string) name :
  (forall q, m !! (b ++ name :: q) = None) ->
  forall q, m !! ((b ++ [name]) ++ q) = None.
Proof. intros H q. rewrite <- app_assoc. apply H. Qed.

Lemma insert_base_lookup (m : gmap (list string) rnode) (base : list string) v k :
  (forall q, m !! (base ++ q) = None) ->
  <[base := v]> m !! k =
  match below base k with
  | Some [] => Some v
  | Some (_ :: _) => None
  | None => m !! k
  end.
Proof.
  intros Hfresh. destruct (below base k) as [[| x q] |] eqn:Hb.
  - apply below_Some in Hb as ->. rewrite app_nil_r. apply lookup_insert_eq.
  - apply below_Some in Hb as ->. rewrite lookup_insert_ne; [apply Hfresh |].
    intros H. rewrite <- (app_nil_r base) in H at 1.
    apply app_inv_head in H. discriminate.
  - rewrite lookup_insert_ne; [reflexivity |].
    intros <-. rewrite <- (app_nil_r base) in Hb at 2.
    rewrite below_app in Hb. discriminate.
Qed.

Lemma visit_meets_spec child : visit_spec child.
Proof.
  induction child as [readable data | listable items IH | | ] using node_rect';
    intros local_dir remote_name name p r o Hrel Hwf Hdir Hfresh;
    pose proof (fresh_under _ _ _ Hfresh) as Hunder;
    [ | | | discriminate Hwf ].
  - (* a regular file *)
    simpl in Hwf. subst readable.
    unfold visit. cbn [fst snd is_file]. unfold bind. rewrite upload_file_eq.
    cbn [open_rb srv out ftp_storbinary sim_ftp].
    rewrite (sim_stor_new r (remote_name name) p name data Hrel (Hfresh []) Hdir).
    eexists. split; [reflexivity |]. split; [reflexivity |]. split; [reflexivity |].
    intros k. cbn [srv store]. rewrite insert_base_lookup by exact Hunder.
    destruct (below ((cwd r ++ p) ++ [name]) k) as [[| x q] |]; reflexivity.
  - (* a directory *)
    simpl in Hwf. apply andb_true_iff in Hwf as [Hwf Hnd].
    apply andb_true_iff in Hwf as [Hl Hwf]. subst listable.
    apply bool_decide_eq_true in Hnd.
    unfold visit. cbn [fst snd is_file is_dir]. unfold bind.
    rewrite upload_directory_eq.
    cbn [srv out ftp_mkd sim_ftp].
    rewrite (sim_mkd_new r (remote_name name) p name Hrel (Hfresh []) Hdir).
    cbn [os_listdir]. cbv zeta. unfold upload_children.
    match goal with
    | |- context [for_each ?b items (World ?r1 ?o1)] =>
        destruct (visit_all_spec items IH (path_join local_dir name)
                    (fun item => remote_name name +:+ "/" +:+ item)
                    (p ++ [name]) r1 o1)
          as (w2 & Hrun & Hcwd & Hlist & Hstore)
    end.
    + intros n Hn. apply relative_child; [exact Hrel | apply snoc_not_nil | exact Hn].
    + exact Hwf.
    + exact Hnd.
    + cbn [cwd store]. rewrite app_assoc.
      rewrite is_dir_at_lookup by apply snoc_not_nil. cbn [store].
      rewrite lookup_insert_eq. reflexivity.
    + intros n q _. cbn [cwd store]. rewrite app_assoc.
      rewrite insert_base_lookup by exact Hunder.
      rewrite below_app. reflexivity.
    + rewrite Hrun. exists w2.
      split; [reflexivity |]. split; [exact Hcwd |]. split; [exact Hlist |].
      intros k. rewrite Hstore. cbn [cwd store]. rewrite app_assoc.
      rewrite insert_base_lookup by exact Hunder.
      destruct (below ((cwd r ++ p) ++ [name]) k) as [[| n q] |]; try reflexivity.
      simpl. destruct (find_entry n items); reflexivity.
  - (* neither *)
    exists (World r o). split; [reflexivity |]. split; [reflexivity |].
    split; [reflexivity |].
    intros k. cbn [srv store].
    destruct (below ((cwd r ++ p) ++ [name]) k) as [q |] eqn:Hb; [| reflexivity].
    apply below_Some in Hb as ->. rewrite Hunder.
    destruct q; reflexivity.
Qed.

(** *** A whole run of [deploy] *)

Lemma deploy_item_visit local_path c entry (w : world remote) :
  can_stat (snd entry) = true ->
  exists c',
    deploy_item local_path c entry w =
    (Ok c', snd (visit local_path (fun item => item) entry w)).
Proof.
  destruct entry as [name child]. unfold deploy_item, visit, path_is_file, path_is_dir.
  cbn [fst snd]. intros ->. cbn [branch].
  destruct (is_file child).
  - destruct (upload_file_total (path_join local_path name) child name w) as (b & w1 & H).
    unfold bind. rewrite H. eexists. reflexivity.
  - destruct (is_dir child); [| eexists; reflexivity].
    destruct (upload_directory_total (path_join local_path name) child name w)
      as (b & w1 & H).
    unfold bind. rewrite H. eexists. reflexivity.
Qed.

Lemma upload_pass_visits local_path items c (w w' : world remote) :
  stat_ok items = true ->
  for_each (visit local_path (fun item => item)) items w = (Ok tt, w') ->
  exists c', for_fold (deploy_item local_path) items c w = (Ok c', w').
Proof.
  revert c w. induction items as [| entry items IH]; intros c w Hs H.
  - simpl in *. unfold ret in *. injection H as <-. eexists. reflexivity.
  - rewrite stat_ok_cons in Hs. apply andb_prop in Hs as [Hx Hs].
    simpl in *. unfold bind in *.
    destruct (deploy_item_visit local_path c entry w Hx) as [c1 Hc].
    rewrite Hc.
    destruct (visit local_path (fun item => item) entry w) as [[[] | e] w1];
      [| discriminate].
    apply IH; [exact Hs | exact H].
Qed.

Lemma well_formed_can_stat n : well_formed n = true -> can_stat n = true.
Proof. destruct n; simpl; congruence. Qed.

Lemma well_formed_stat_ok (items : list (string * node)) :
  forallb (fun e => valid_name (fst e) && well_formed (snd e)) items = true ->
  stat_ok items = true.
Proof.
  unfold stat_ok. rewrite !forallb_forall. intros H x Hx.
  specialize (H x Hx). apply andb_true_iff in H as [_ H].
  apply well_formed_can_stat. exact H.
Qed.

Lemma resolve_site r : resolve r (remote_path config) = site_root.
Proof. reflexivity. Qed.

Lemma sim_deploy_connect r o :
  exists o', deploy_connect (World r o) = (Ok tt, World r o').
Proof. eexists. reflexivity. Qed.

Lemma sim_deploy_navigate r o :
  site_ready r -> site_empty r ->
  exists r1 o1,
    deploy_navigate (World r o) = (Ok tt, World r1 o1) /\
    cwd r1 = site_root /\
    is_dir_at r1 site_root = true /\
    site_empty r1 /\
    (forall k, below site_root k = None -> store r1 !! k = store r !! k).
Proof.
  intros Hready Hempty. unfold deploy_navigate.
  unfold bind at 1, print at 1. unfold bind at 1.
  unfold try_except, call at 1. cbn [srv out ftp_cwd sim_ftp].
  unfold sim_cwd at 1. rewrite resolve_site. cbv zeta.
  destruct (is_dir_at r site_root) eqn:Hd.
  - eexists _, _. split; [reflexivity |]. repeat split; try assumption.
  - destruct Hready as [? | [Hex Hpar]]; [congruence |].
    unfold bind at 1, call at 1. cbn [srv out ftp_mkd sim_ftp].
    unfold sim_mkd. rewrite resolve_site, Hex, Hpar.
    unfold call at 1. cbn [srv out ftp_cwd sim_ftp].
    unfold sim_cwd. rewrite resolve_site.
    assert (Hnew : is_dir_at (Remote (<[site_root := RDir]> (store r)) (cwd r) (can_list r))
                     site_root = true).
    { unfold is_dir_at, site_root. cbn [store]. rewrite lookup_insert_eq. reflexivity. }
    rewrite Hnew.
    eexists _, _. split; [reflexivity |]. split; [reflexivity |].
    split; [| split].
    + cbn [srv store]. exact Hnew.
    + intros q Hq. cbn [srv store]. rewrite lookup_insert_ne; [apply Hempty; exact Hq |].
      intros H. rewrite <- (app_nil_r site_root) in H at 1.
      apply app_inv_head in H. congruence.
    + intros k Hk. cbn [srv store]. rewrite lookup_insert_ne; [reflexivity |].
      intros <-. discriminate.
Qed.

Lemma sim_upload_pass local_path items (r : remote) o :
  well_formed (NDir true items) = true ->
  is_dir_at r (cwd r) = true ->
  (forall q, q <> [] -> store r !! (cwd r ++ q) = None) ->
  exists c w',
    upload_pass local_path items (World r o) = (Ok c, w') /\
    cwd (srv w') = cwd r /\
    can_list (srv w') = can_list r /\
    forall k,
      store (srv w') !! k =
      match below (cwd r) k with
      | Some (name :: q) => node_at (name :: q) (NDir true items) ≫= image
      | _ => store r !! k
      end.
Proof.
  intros Hwf Hdir Hempty.
  simpl in Hwf. apply andb_true_iff in Hwf as [Hwf Hnd].
  apply bool_decide_eq_true in Hnd.
  destruct (visit_all_spec items) with
    (local_dir := local_path) (remote_name := fun item : string => item)
    (p := @nil string) (r := r) (o := o)
    as (w' & Hrun & Hcwd & Hlist & Hstore).
  - apply List.Forall_forall. intros e _. apply visit_meets_spec.
  - intros name Hname. apply relative_name. exact Hname.
  - exact Hwf.
  - exact Hnd.
  - rewrite app_nil_r. exact Hdir.
  - intros name q _. rewrite app_nil_r. apply Hempty. discriminate.
  - destruct (upload_pass_visits local_path items (Counters 0 0) _ _
                (well_formed_stat_ok items Hwf) Hrun) as [c Hc].
    exists c, w'. split; [exact Hc |]. split; [exact Hcwd |]. split; [exact Hlist |].
    intros k. rewrite Hstore, app_nil_r.
    destruct (below (cwd r) k) as [[| name q] |] eqn:Hb; try reflexivity.
    simpl. destruct (find_entry name items); [reflexivity |].
    apply below_Some in Hb as ->. apply Hempty. discriminate.
Qed.

Lemma sim_nlst_state r : snd (sim_nlst r) = r.
Proof. unfold sim_nlst. destruct (can_list r); reflexivity. Qed.

Lemma sim_deploy_run fs items (r : remote) o :
  root fs = Some (NDir true items) ->
  well_formed (NDir true items) = true ->
  site_ready r ->
  site_empty r ->
  exists w',
    deploy fs (World r o) = (Ok true, w') /\
    (forall q, store (srv w') !! (site_root ++ q) = node_at q (NDir true items) ≫= image) /\
    (forall k, below site_root k = None -> store (srv w') !! k = store r !! k).
Proof.
  intros Hroot Hwf Hready Hempty.
  assert (Hstat : stat_ok items = true).
  { apply well_formed_stat_ok. simpl in Hwf.
    apply andb_true_iff in Hwf as [Hwf _]. exact Hwf. }
  rewrite deploy_eq, deploy_try_eq.
  destruct (sim_deploy_connect r o) as [o0 ->].
  destruct (sim_deploy_navigate r o0 Hready Hempty)
    as (r1 & o1 & -> & Hcwd & Hdir & Hempty1 & Hout).
  rewrite deploy_list_current_eq. cbn [srv out ftp_nlst sim_ftp].
  pose proof (sim_nlst_state r1) as Hn.
  destruct (sim_nlst r1) as [[files | e] r1']; simpl in Hn; subst r1';
    match goal with
    | |- context [deploy_upload fs (World r1 ?o2)] =>
        destruct (deploy_upload_listable fs (NDir true items) items (World r1 o2)
                    Hroot eq_refl Hstat)
          as (c & w1 & w' & Hpass & _ & -> & _ & Hsrv);
        destruct (sim_upload_pass (resolved fs) items r1 (o2 ++ [line_deploy_upload]) Hwf)
          as (c' & w1' & Hpass' & _ & _ & Hstore)
    end;
    try (rewrite Hcwd; exact Hdir);
    try (rewrite Hcwd; exact Hempty1);
    cbn [srv out] in Hpass; rewrite Hpass in Hpass'; injection Hpass' as <- <-;
    cbn [ftp_nlst sim_ftp] in Hsrv; rewrite sim_nlst_state in Hsrv;
    (eexists; split; [reflexivity |]);
    cbn [srv ftp_quit sim_ftp sim_quit snd]; rewrite Hsrv; rewrite Hcwd in Hstore;
    (split;
     [ intros q; rewrite Hstore, below_app;
       destruct q as [| name q]; [| reflexivity];
       rewrite app_nil_r; unfold is_dir_at, site_root in Hdir;
       unfold site_root; destruct (store r1 !! _) as [[|] |]; try discriminate; reflexivity
     | intros k Hk; rewrite Hstore, Hk; apply Hout; exact Hk ]).
Qed.


(** *** A whole run of [fix_mylzip_redirect] *)

Lemma find_entry_map (f : node -> node) name items :
  find_entry name (map (fun e => (fst e, f (snd e))) items) = f <$> find_entry name items.
Proof.
  induction items as [| [n c] items IH]; simpl; [reflexivity |].
  destruct (decide (n = name)); [reflexivity | exact IH].
Qed.

Lemma map_fst_map (f : node -> node) (items : list (string * node)) :
  map fst (map (fun e => (fst e, f (snd e))) items) = map fst items.
Proof. induction items as [| [n c] items IH]; simpl; [| rewrite IH]; reflexivity. Qed.

Lemma untouched_spec (step : string * node -> M remote unit) p view e :
  (forall w, step e w = (Ok tt, w)) ->
  (forall q, node_at q (view (snd e)) ≫= image = None) ->
  entry_spec step p view e.
Proof.
  intros Hstep Hnone r o Hdir Hfresh.
  exists (World r o). split; [apply Hstep |]. split; [reflexivity |].
  split; [reflexivity |].
  intros k. cbn [srv store].
  destruct (below ((cwd r ++ p) ++ [fst e]) k) as [q |] eqn:Hb; [| reflexivity].
  apply below_Some in Hb as ->. rewrite (fresh_under _ _ _ Hfresh). symmetry. apply Hnone.
Qed.

Lemma node_at_other q : node_at q NOther ≫= image = None.
Proof. destruct q; reflexivity. Qed.

Lemma fix_subitem_spec item local_item_path e :
  valid_name item = true ->
  valid_name (fst e) = true ->
  well_formed (leaf (snd e)) = true ->
  entry_spec (fix_subitem item local_item_path) [item] leaf e.
Proof.
  intros Hitem Hsub Hwf. destruct e as [subitem [readable data | l items | | ]];
    cbn [fst snd] in *; [ | | | discriminate Hwf ].
  - intros r o Hdir Hfresh. simpl in Hwf. subst readable.
    pose proof (fresh_under _ _ _ Hfresh) as Hunder. cbn [fst] in Hunder.
    assert (Hrel : relative (item +:+ "/" +:+ subitem) ([item] ++ [subitem])).
    { apply relative_child; [apply relative_name; exact Hitem | discriminate | exact Hsub]. }
    unfold fix_subitem. cbn [fst snd path_is_file can_stat is_file branch open_rb].
    unfold bind, lift_res, call.
    cbn [srv out ftp_storbinary sim_ftp].
    rewrite (sim_stor_new r _ [item] subitem data Hrel (Hfresh []) Hdir).
    eexists. split; [reflexivity |]. split; [reflexivity |]. split; [reflexivity |].
    intros k. cbn [srv store fst snd leaf]. rewrite insert_base_lookup by exact Hunder.
    destruct (below ((cwd r ++ [item]) ++ [subitem]) k) as [[| x q] |]; reflexivity.
  - apply untouched_spec; [reflexivity | intros q; apply node_at_other].
  - apply untouched_spec; [reflexivity | intros q; apply node_at_other].
Qed.

Lemma fix_visit_spec local_path e :
  valid_name (fst e) = true ->
  well_formed (shallow (snd e)) = true ->
  entry_spec (fix_visit local_path) [] shallow e.
Proof.
  intros Hname Hwf. destruct e as [name [readable data | l items | | ]];
    cbn [fst snd] in *; [ | | | discriminate Hwf ].
  - intros r o Hdir Hfresh. simpl in Hwf. subst readable.
    pose proof (fresh_under _ _ _ Hfresh) as Hunder. cbn [fst] in Hunder.
    assert (Hrel : relative name ([] ++ [name])) by (apply relative_name; exact Hname).
    unfold fix_visit, fix_item.
    cbn [fst snd path_is_file path_is_dir can_stat is_file is_dir branch open_rb].
    unfold bind, try_except, lift_res, call, print, ret.
    cbn [srv out ftp_storbinary sim_ftp].
    rewrite (sim_stor_new r name [] name data Hrel (Hfresh []) Hdir).
    eexists. split; [reflexivity |]. split; [reflexivity |]. split; [reflexivity |].
    intros k. cbn [srv store fst snd shallow]. rewrite insert_base_lookup by exact Hunder.
    destruct (below ((cwd r ++ []) ++ [name]) k) as [[| x q] |]; reflexivity.
  - intros r o Hdir Hfresh.
    pose proof (fresh_under _ _ _ Hfresh) as Hunder. cbn [fst] in Hunder.
    assert (Hrel : relative name ([] ++ [name])) by (apply relative_name; exact Hname).
    simpl in Hwf. apply andb_true_iff in Hwf as [Hwf Hnd].
    apply andb_true_iff in Hwf as [Hl Hwf]. subst l.
    apply bool_decide_eq_true in Hnd. rewrite map_fst_map in Hnd.
    unfold fix_visit, fix_item.
    cbn [fst snd path_is_file path_is_dir can_stat is_file is_dir branch].
    unfold bind at 1. unfold bind at 1, print at 1.
    unfold try_except, bind at 1, call at 1.
    cbn [srv out ftp_mkd sim_ftp].
    rewrite (sim_mkd_new r name [] name Hrel (Hfresh []) Hdir).
    rewrite (app_nil_r (cwd r)) in *.
    unfold bind at 1, lift_res. cbn [os_listdir]. unfold bind at 1.
    match goal with
    | |- context [for_each ?step items (World ?r1 ?o1)] =>
        destruct (for_each_entries step [name] leaf items) with (r := r1) (o := o1)
          as (w2 & Hrun & Hcwd & Hlist & Hstore)
    end.
    + rewrite forallb_forall in Hwf. apply List.Forall_forall. intros [sub c] Hin.
      assert (Hin' : In (sub, leaf c) (map (fun e => (fst e, leaf (snd e))) items)).
      { apply in_map_iff. exists (sub, c). split; [reflexivity | exact Hin]. }
      specialize (Hwf _ Hin'). cbn [fst snd] in Hwf.
      apply andb_true_iff in Hwf as [Hsub Hwfc].
      apply fix_subitem_spec; assumption.
    + exact Hnd.
    + cbn [cwd store].
      rewrite is_dir_at_lookup by apply snoc_not_nil. cbn [store].
      rewrite lookup_insert_eq. reflexivity.
    + intros n q _. cbn [cwd store].
      rewrite insert_base_lookup by exact Hunder.
      rewrite below_app. reflexivity.
    + rewrite Hrun. unfold bind, print, ret. cbn [srv out].
      eexists. split; [reflexivity |]. split; [exact Hcwd |]. split; [exact Hlist |].
      intros k. cbn [srv fst snd]. rewrite Hstore. cbn [cwd store].
      rewrite insert_base_lookup by exact Hunder.
      destruct (below (cwd r ++ [name]) k) as [[| n q] |]; try reflexivity.
      simpl. rewrite find_entry_map. destruct (find_entry n items); reflexivity.
  - apply untouched_spec; [reflexivity | intros q; apply node_at_other].
Qed.

Lemma fix_item_visit local_path c entry (w : world remote) :
  can_stat (snd entry) = true ->
  exists c', fix_item local_path c entry w = (Ok c', snd (fix_visit local_path entry w)).
Proof.
  destruct entry as [name f]. unfold fix_visit, fix_item, path_is_file, path_is_dir.
  cbn [fst snd]. intros ->. cbn [branch].
  destruct (is_file f).
  - run. destruct (open_rb _ f) as [data | e]; [| eexists; reflexivity].
    destruct (sim_storbinary _ data (srv w)) as [[rep | e] s1]; eexists; reflexivity.
  - destruct (is_dir f); [| eexists; reflexivity].
    run. destruct (sim_mkd name (srv w)) as [[rep | e] s1]; [| eexists; reflexivity].
    destruct (os_listdir _ f) as [subitems | e]; [| eexists; reflexivity].
    match goal with
    | |- context [for_each ?b ?l ?w0] => destruct (for_each b l w0) as [[[] | e] w2]
    end; eexists; reflexivity.
Qed.

Lemma fix_pass_visits local_path items c (w w' : world remote) :
  stat_ok items = true ->
  for_each (fix_visit local_path) items w = (Ok tt, w') ->
  exists c', for_fold (fix_item local_path) items c w = (Ok c', w').
Proof.
  revert c w. induction items as [| entry items IH]; intros c w Hs H.
  - simpl in *. unfold ret in *. injection H as <-. eexists. reflexivity.
  - rewrite stat_ok_cons in Hs. apply andb_prop in Hs as [Hx Hs].
    simpl in *. unfold bind in *.
    destruct (fix_item_visit local_path c entry w Hx) as [c1 Hc].
    rewrite Hc.
    destruct (fix_visit local_path entry w) as [[[] | e] w1]; [| discriminate].
    apply IH; [exact Hs | exact H].
Qed.

Lemma shallow_can_stat n : can_stat (shallow n) = can_stat n.
Proof. destruct n; reflexivity. Qed.

Lemma shallow_stat_ok (items : list (string * node)) :
  stat_ok (map (fun e => (fst e, shallow (snd e))) items) = stat_ok items.
Proof.
  induction items as [| [n c] items IH]; [reflexivity |].
  simpl map. rewrite !stat_ok_cons, IH. cbn [snd]. rewrite shallow_can_stat. reflexivity.
Qed.

Lemma fix_upload_listable {S} {ftp : FTP S} fs r items (w : world S) :
  root fs = Some r -> os_listdir (resolved fs) r = Ok items ->
  stat_ok items = true ->
  exists c w1 w',
    fix_upload_pass (resolved fs) items (World (srv w) (out w ++ [line_fix_upload]))
      = (Ok c, w1) /\
    fix_upload fs w = (Ok true, w') /\
    srv w' = snd (ftp_nlst (srv w1)).
Proof.
  intros H Hl Hs. apply listed_can_stat in Hl as ->.
  destruct (fix_upload_pass_total (resolved fs) items
              (World (srv w) (out w ++ [line_fix_upload])) Hs) as (c & w1 & Hp & Ht).
  exists c, w1.
  unfold fix_upload. rewrite H.
  unfold bind at 1, print at 1. cbn [path_exists can_stat branch os_listdir_at os_listdir].
  unfold bind at 1, lift_res.
  unfold bind at 1. fold line_fix_upload. rewrite Hp.
  unfold bind at 1, print at 1. unfold bind at 1.
  rewrite fix_list_final_eq. simpl.
  destruct (ftp_nlst (srv w1)) as [[files | e] s1]; eexists;
    (split; [reflexivity |]); split; reflexivity.
Qed.

Lemma resolve_fix_site r : resolve r fix_remote_path = fix_site_root.
Proof. reflexivity. Qed.

Lemma sim_fix_pass local_path items (r : remote) o :
  well_formed (shallow_tree items) = true ->
  is_dir_at r (cwd r) = true ->
  (forall q, q <> [] -> store r !! (cwd r ++ q) = None) ->
  exists c w',
    fix_upload_pass local_path items (World r o) = (Ok c, w') /\
    forall k,
      store (srv w') !! k =
      match below (cwd r) k with
      | Some (name :: q) => node_at (name :: q) (shallow_tree items) ≫= image
      | _ => store r !! k
      end.
Proof.
  intros Hwf Hdir Hempty.
  simpl in Hwf. apply andb_true_iff in Hwf as [Hwf Hnd].
  apply bool_decide_eq_true in Hnd. rewrite map_fst_map in Hnd.
  assert (Hstat : stat_ok items = true).
  { rewrite <- shallow_stat_ok. apply well_formed_stat_ok. exact Hwf. }
  destruct (for_each_entries (fix_visit local_path) [] shallow items)
    with (r := r) (o := o) as (w' & Hrun & _ & _ & Hstore).
  - rewrite forallb_forall in Hwf. apply List.Forall_forall. intros [name c] Hin.
    assert (Hin' : In (name, shallow c) (map (fun e => (fst e, shallow (snd e))) items)).
    { apply in_map_iff. exists (name, c). split; [reflexivity | exact Hin]. }
    specialize (Hwf _ Hin'). cbn [fst snd] in Hwf.
    apply andb_true_iff in Hwf as [Hname Hwfc].
    apply fix_visit_spec; assumption.
  - exact Hnd.
  - rewrite app_nil_r. exact Hdir.
  - intros name q _. rewrite app_nil_r. apply Hempty. discriminate.
  - destruct (fix_pass_visits local_path items (Counters 0 0) _ _ Hstat Hrun) as [c Hc].
    exists c, w'. split; [exact Hc |].
    intros k. rewrite Hstore, app_nil_r.
    destruct (below (cwd r) k) as [[| name q] |] eqn:Hb; try reflexivity.
    unfold shallow_tree. simpl. rewrite find_entry_map.
    destruct (find_entry name items); [reflexivity |].
    apply below_Some in Hb as ->. apply Hempty. discriminate.
Qed.

Lemma sim_fix_run fs items (r : remote) o :
  root fs = Some (NDir true items) ->
  well_formed (shallow_tree items) = true ->
  is_dir_at r fix_site_root = true ->
  can_list r = true ->
  (forall q, q <> [] -> store r !! (fix_site_root ++ q) = None) ->
  exists w',
    fix_mylzip_redirect fs (World r o) = (Ok true, w') /\
    (forall q,
       store (srv w') !! (fix_site_root ++ q) = node_at q (shallow_tree items) ≫= image) /\
    (forall k, below fix_site_root k = None -> store (srv w') !! k = store r !! k).
Proof.
  intros Hroot Hwf Hdir Hlist Hempty.
  rewrite fix_eq.
  assert (Hconn : exists o', fix_connect (World r o) = (Ok tt, World r o'))
    by (eexists; reflexivity).
  destruct Hconn as [o' Hconn].
  assert (Hcwd : ftp_cwd fix_remote_path r =
                 (Ok "250 CWD command successful",
                  Remote (store r) fix_site_root (can_list r))).
  { cbn [ftp_cwd sim_ftp]. unfold sim_cwd. rewrite resolve_fix_site, Hdir. reflexivity. }
  set (r1 := Remote (store r) fix_site_root (can_list r)) in *.
  assert (Hnl : ftp_nlst r1 = (Ok (omap (child_name (cwd r1)) (map_to_list (store r1))), r1)).
  { cbn [ftp_nlst sim_ftp]. unfold sim_nlst. subst r1. cbn [can_list]. rewrite Hlist.
    reflexivity. }
  destruct (fix_try_listed fs (World r o) (World r o') tt _ r1 _ r1 _ r1
              Hconn Hcwd eq_refl Hnl) as [o2 ->].
  assert (Hstat : stat_ok items = true).
  { rewrite <- shallow_stat_ok. apply well_formed_stat_ok.
    unfold shallow_tree in Hwf. simpl in Hwf.
    apply andb_true_iff in Hwf as [Hwf' _]. exact Hwf'. }
  destruct (fix_upload_listable fs (NDir true items) items (World r1 o2) Hroot eq_refl Hstat)
    as (c & w1 & w' & Hpass & -> & Hsrv).
  destruct (sim_fix_pass (resolved fs) items r1 (o2 ++ [line_fix_upload]) Hwf Hdir Hempty)
    as (c' & w1' & Hpass' & Hstore).
  cbn [srv out] in Hpass. rewrite Hpass in Hpass'. injection Hpass' as <- <-.
  cbn [ftp_nlst sim_ftp] in Hsrv. rewrite sim_nlst_state in Hsrv.
  eexists. split; [reflexivity |].
  cbn [srv ftp_quit sim_ftp sim_quit snd]. rewrite Hsrv.
  subst r1. cbn [cwd store] in Hstore.
  split.
  - intros q. rewrite Hstore, below_app.
    destruct q as [| name q]; [| reflexivity].
    rewrite app_nil_r. unfold is_dir_at, fix_site_root in Hdir.
    unfold fix_site_root. destruct (store r !! _) as [[|] |]; try discriminate; reflexivity.
  - intros k Hk. rewrite Hstore, Hk. reflexivity.
Qed.

(** *** The isomorphism claim *)

Lemma well_formed_leaf c : well_formed c = true -> well_formed (leaf c) = true.
Proof. destruct c; simpl; intros H; [exact H | reflexivity | reflexivity | exact H]. Qed.

Lemma forallb_map_entries (f : node -> node) (items : list (string * node)) :
  (forall c, well_formed c = true -> well_formed (f c) = true) ->
  forallb (fun e => valid_name (fst e) && well_formed (snd e)) items = true ->
  forallb (fun e => valid_name (fst e) && well_formed (snd e))
    (map (fun e => (fst e, f (snd e))) items) = true.
Proof.
  intros Hf. induction items as [| [n c] items IH]; simpl; [reflexivity |].
  intros H. apply andb_true_iff in H as [H1 H2].
  apply andb_true_iff in H1 as [Hn Hc].
  rewrite Hn, (Hf c Hc), (IH H2). reflexivity.
Qed.

Lemma well_formed_shallow c : well_formed c = true -> well_formed (shallow c) = true.
Proof.
  destruct c as [r d | l items | | ]; simpl; intros H; try assumption.
  apply andb_true_iff in H as [H Hnd]. apply andb_true_iff in H as [Hl Hall].
  rewrite Hl, (forallb_map_entries leaf items well_formed_leaf Hall), map_fst_map, Hnd.
  reflexivity.
Qed.

Lemma well_formed_shallow_tree items :
  well_formed (NDir true items) = true -> well_formed (shallow_tree items) = true.
Proof.
  unfold shallow_tree. simpl. intros H.
  apply andb_true_iff in H as [Hall Hnd].
  rewrite (forallb_map_entries shallow items well_formed_shallow Hall), map_fst_map, Hnd.
  reflexivity.
Qed.

(** C1, amended.  Take a local tree on which no item can fail (readable
    files, listable directories, genuine listings).  [deploy], run against
    a peer whose remote root is empty (or absent and creatable), returns
    [True] and leaves under the remote root exactly the image of the
    tree: at every relative path, at any depth, a file with the same
    bytes where the tree has a file, a directory where it has a
    directory, nothing elsewhere; the rest of the store is untouched.
    [fix_mylzip_redirect], run against its own empty remote root,
    reproduces the tree only down to the files directly inside the
    top-level directories: what it leaves is the image of the tree cut
    at that depth, and an entry that is a directory inside a directory is
    skipped without any command. *)
Theorem upload_reproduces_local_tree fs items (r v : remote) o :
  root fs = Some (NDir true items) ->
  well_formed (NDir true items) = true ->
  site_ready r ->
  site_empty r ->
  is_dir_at v fix_site_root = true ->
  can_list v = true ->
  (forall q, q <> [] -> store v !! (fix_site_root ++ q) = None) ->
  (exists w',
     deploy fs (World r o) = (Ok true, w') /\
     (forall q,
        store (srv w') !! (site_root ++ q) = node_at q (NDir true items) ≫= image) /\
     (forall k, below site_root k = None -> store (srv w') !! k = store r !! k)) /\
  (exists w',
     fix_mylzip_redirect fs (World v o) = (Ok true, w') /\
     (forall q,
        store (srv w') !! (fix_site_root ++ q) = node_at q (shallow_tree items) ≫= image) /\
     (forall k, below fix_site_root k = None -> store (srv w') !! k = store v !! k)) /\
  (forall item local_item_path name l children (w : world remote),
     fix_subitem item local_item_path (name, NDir l children) w = (Ok tt, w)).
Proof.
  intros Hroot Hwf Hready Hempty Hdir Hlist Hempty'.
  split; [apply sim_deploy_run; assumption |].
  split; [| reflexivity].
  apply sim_fix_run; try assumption.
  apply well_formed_shallow_tree. exact Hwf.
Qed.

(** *** The peer states used in the examples *)

Lemma hostgator_site_empty : site_empty hostgator.
Proof.
  intros q Hq. unfold hostgator. cbn [store].
  rewrite !lookup_insert_ne; [apply lookup_empty | | |];
    destruct q; try congruence; discriminate.
Qed.

Lemma hostgator_fix_site_empty q :
  q <> [] -> store hostgator !! (fix_site_root ++ q) = None.
Proof.
  intros Hq. unfold hostgator. cbn [store].
  rewrite !lookup_insert_ne; [apply lookup_empty | | |];
    destruct q; try congruence; discriminate.
Qed.

(** *** Examples of the theorems at work *)

(** C1 at the scenario of the specification: [index.html] and
    [assets/style.css] uploaded to the empty site. *)
Lemma upload_reproduces_local_tree_witness :
  well_formed (NDir true scenario_tree) = true /\
  site_ready hostgator /\
  (exists w',
     deploy scenario_fs (World hostgator []) = (Ok true, w') /\
     forall q,
       store (srv w') !! (site_root ++ q) = node_at q (NDir true scenario_tree) ≫= image) /\
  (exists w',
     fix_mylzip_redirect scenario_fs (World hostgator []) = (Ok true, w') /\
     forall q,
       store (srv w') !! (fix_site_root ++ q) = node_at q (shallow_tree scenario_tree) ≫= image).
Proof.
  split; [reflexivity |]. split; [left; reflexivity |].
  destruct (upload_reproduces_local_tree scenario_fs scenario_tree hostgator hostgator []
              eq_refl eq_refl (or_introl eq_refl) hostgator_site_empty
              eq_refl eq_refl hostgator_fix_site_empty)
    as [(w1 & H1 & H2 & _) [(w2 & H3 & H4 & _) _]].
  split; [exists w1 | exists w2]; split; assumption.
Defined.

(** C2 at the same scenario: two direct entries, two attempts. *)
Lemma attempted_counts_direct_entries_witness :
  root scenario_fs = Some (NDir true scenario_tree) /\
  stat_ok scenario_tree = true /\
  exists c w1 w',
    upload_pass staging scenario_tree
      (World (in_site hostgator) ([] ++ [line_deploy_upload])) = (Ok c, w1) /\
    total_count c = 2 /\
    deploy_upload scenario_fs (World (in_site hostgator) []) = (Ok true, w') /\
    In (line_summary c) (out w').
Proof.
  split; [reflexivity |]. split; [reflexivity |].
  apply (attempted_counts_direct_entries scenario_fs (NDir true scenario_tree)
           scenario_tree (World (in_site hostgator) []) eq_refl eq_refl eq_refl).
Defined.

(** C3 where [assets] already exists on the remote side. *)
Lemma failed_mkd_skips_the_directory_witness :
  ftp_mkd "assets" (in_site taken) =
    (Raise (error_perm "550 assets: File exists"), in_site taken) /\
  deploy_item staging (Counters 1 1)
    ("assets", NDir true [("style.css", NFile true (bytes_of "body {}"))])
    (World (in_site taken) []) =
  (Ok (Counters 1 2),
   World (in_site taken)
     (([] ++ [line_dir_start (path_join staging "assets")])
      ++ [line_dir_err (path_join staging "assets") (error_perm "550 assets: File exists")])).
Proof.
  split; [reflexivity |].
  apply (failed_mkd_skips_the_directory staging (Counters 1 1) "assets" true
           [("style.css", NFile true (bytes_of "body {}"))]
           (World (in_site taken) []) (error_perm "550 assets: File exists")
           (in_site taken)).
  reflexivity.
Defined.

(** C4 on three files of which the second cannot be read: [a.css] is
    uploaded, [b.css] fails, and the loop goes on to [c.css], which
    reaches the remote side; two successes out of three attempts. *)
Lemma failed_direct_file_is_survived_witness :
  (exists e w2,
     upload_file (path_join staging "b.css") (NFile false (bytes_of "b")) "b.css"
       (snd (upload_pass staging [("a.css", NFile true (bytes_of "a"))]
               (World (in_site hostgator) []))) = (Ok false, w2) /\
     last (out w2) = Some (line_file_err (path_join staging "b.css") e) /\
     upload_pass staging css_tree (World (in_site hostgator) []) =
       for_fold (deploy_item staging) [("c.css", NFile true (bytes_of "c"))]
         (Counters 1 (1 + 1)) w2 /\
     exists c w3,
       upload_pass staging css_tree (World (in_site hostgator) []) = (Ok c, w3) /\
       total_count c = 3 /\
       success_count c < total_count c) /\
  fst (upload_pass staging css_tree (World (in_site hostgator) [])) = Ok (Counters 2 3) /\
  store (srv (snd (upload_pass staging css_tree (World (in_site hostgator) []))))
    !! (site_root ++ ["c.css"]) = Some (RFile (bytes_of "c")).
Proof.
  split; [| split; reflexivity].
  refine (proj1 (failed_direct_file_is_survived staging
                   [("a.css", NFile true (bytes_of "a"))]
                   "b.css" false (bytes_of "b")
                   [("c.css", NFile true (bytes_of "c"))]
                   (World (in_site hostgator) [])
                   (Counters 1 1)
                   (snd (upload_pass staging [("a.css", NFile true (bytes_of "a"))]
                           (World (in_site hostgator) []))) _ _)).
  - reflexivity.
  - left. reflexivity.
Defined.

(** C5 on an account where neither remote root exists yet. *)
Lemma navigation_failure_handling_witness :
  returned (ftp_cwd (remote_path config) bare) = false /\
  returned (ftp_cwd fix_remote_path bare) = false /\
  (exists w', deploy scenario_fs (World bare []) = (Ok true, w')) /\
  fst (fix_mylzip_redirect scenario_fs (World bare [])) = Ok false.
Proof.
  split; [reflexivity |]. split; [reflexivity |].
  destruct (@navigation_failure_handling remote sim_ftp scenario_fs) as [Hd Hf].
  split.
  - destruct (Hd (World bare []) (snd (deploy_connect (World bare []))) tt
                (error_perm "550 /public_html/website_1a41642e: No such file or directory")
                bare)
      as [_ Hdeploy]; [reflexivity | reflexivity | exact Hdeploy].
  - rewrite (Hf (World bare []) (snd (fix_connect (World bare []))) tt
               (error_perm "550 /public_html/website_0f1108f2: No such file or directory")
               bare); reflexivity.
Defined.

(** C6 on a peer that refuses to list. *)
Lemma listing_failure_handling_witness :
  ftp_nlst (in_site mute) =
    (Raise (error_temp "425 Unable to build data connection"), in_site mute) /\
  (exists w', deploy scenario_fs (World mute []) = (Ok (root_ok scenario_fs), w')) /\
  fst (deploy_list_final (World (in_site mute) [])) = Ok tt /\
  fst (fix_list_final (World (in_site mute) [])) = Ok tt /\
  fst (fix_mylzip_redirect scenario_fs (World mute [])) = Ok false.
Proof.
  split; [reflexivity |].
  destruct (@listing_failure_handling remote sim_ftp scenario_fs) as (Hd & Hfin & Hfix).
  split; [| split; [| split]].
  - apply (Hd (World mute []) (snd (deploy_connect (World mute [])))
             (snd (deploy_navigate (snd (deploy_connect (World mute [])))))
             tt tt (error_temp "425 Unable to build data connection") (in_site mute));
      reflexivity.
  - destruct (Hfin (World (in_site mute) [])
                (error_temp "425 Unable to build data connection") (in_site mute) eq_refl)
      as [H _].
    rewrite H. reflexivity.
  - destruct (Hfin (World (in_site mute) [])
                (error_temp "425 Unable to build data connection") (in_site mute) eq_refl)
      as [_ H].
    rewrite H. reflexivity.
  - erewrite (Hfix (World mute [])); reflexivity.
Defined.

(** C10 with a FIFO next to [index.html]. *)
Lemma other_entry_is_attempted_only_witness :
  In ("queue.fifo", NOther) special_tree /\
  (exists c' w', upload_pass staging special_tree (World (in_site hostgator) []) = (Ok c', w')
                 /\ success_count c' < total_count c') /\
  (exists c' w', fix_upload_pass staging special_tree (World (in_site hostgator) []) = (Ok c', w')
                 /\ success_count c' < total_count c').
Proof.
  assert (Hin : In ("queue.fifo", NOther) special_tree) by (right; left; reflexivity).
  split; [exact Hin |].
  exact (proj2 (proj2 (other_entry_is_attempted_only staging special_tree "queue.fifo"
                         (Counters 0 0) (World (in_site hostgator) []))) Hin).
Defined.

(** *** Where the claims as first stated fail *)

(** C1 as stated: [fix_mylzip_redirect] returns [True] on a tree without
    any failing item, yet the directory [a/b] and the file [a/b/c.txt] of
    the local tree are absent from the remote root. *)
Lemma fix_does_not_recurse :
  well_formed (NDir true deep_tree) = true /\
  fst (fix_mylzip_redirect deep_fs (World hostgator [])) = Ok true /\
  node_at ["a"; "b"] (NDir true deep_tree) ≫= image = Some RDir /\
  store (srv (snd (fix_mylzip_redirect deep_fs (World hostgator []))))
    !! (fix_site_root ++ ["a"; "b"]) = None /\
  node_at ["a"; "b"; "c.txt"] (NDir true deep_tree) ≫= image = Some (RFile (bytes_of "c")) /\
  store (srv (snd (fix_mylzip_redirect deep_fs (World hostgator []))))
    !! (fix_site_root ++ ["a"; "b"; "c.txt"]) = None.
Proof. repeat split; vm_compute; reflexivity. Qed.

(** C2 as stated: on the scenario of the specification the traversal
    visits three entries, all of which reach the remote side, and the
    attempted count is two. *)
Lemma attempted_is_not_all_entries :
  fst (upload_pass staging scenario_tree (World (in_site hostgator) [])) = Ok (Counters 2 2) /\
  tree_entries scenario_tree = 3 /\
  store (srv (snd (upload_pass staging scenario_tree (World (in_site hostgator) []))))
    !! (site_root ++ ["index.html"]) = Some (RFile (bytes_of "<html></html>")) /\
  store (srv (snd (upload_pass staging scenario_tree (World (in_site hostgator) []))))
    !! (site_root ++ ["assets"]) = Some RDir /\
  store (srv (snd (upload_pass staging scenario_tree (World (in_site hostgator) []))))
    !! (site_root ++ ["assets"; "style.css"]) = Some (RFile (bytes_of "body {}")) /\
  total_count (Counters 2 2) <> tree_entries scenario_tree.
Proof. repeat split; try (vm_compute; reflexivity). vm_compute. discriminate. Qed.

(** C3 as stated: [assets] exists on the remote side, its creation fails,
    and [assets/style.css] is not uploaded by either script. *)
Lemma existing_directory_is_not_entered :
  returned (ftp_mkd "assets" (in_site taken)) = false /\
  node_at ["assets"; "style.css"] (NDir true scenario_tree) ≫= image
    = Some (RFile (bytes_of "body {}")) /\
  fst (upload_pass staging scenario_tree (World (in_site taken) [])) = Ok (Counters 1 2) /\
  store (srv (snd (upload_pass staging scenario_tree (World (in_site taken) []))))
    !! (site_root ++ ["assets"; "style.css"]) = None /\
  fst (fix_upload_pass staging scenario_tree (World (in_site taken) [])) = Ok (Counters 1 2) /\
  store (srv (snd (fix_upload_pass staging scenario_tree (World (in_site taken) []))))
    !! (site_root ++ ["assets"; "style.css"]) = None.
Proof. repeat split; vm_compute; reflexivity. Qed.

(** C4 as stated: a file inside a directory cannot be read, and the run
    ends with succeeded = attempted. *)
Lemma nested_unreadable_file_is_not_counted :
  node_at ["docs"; "secret.txt"] (NDir true nested_unreadable_tree)
    = Some (NFile false (bytes_of "s")) /\
  returned (open_rb (path_join (path_join staging "docs") "secret.txt")
              (NFile false (bytes_of "s")), tt) = false /\
  fst (upload_pass staging nested_unreadable_tree (World (in_site hostgator) []))
    = Ok (Counters 1 1) /\
  ~ success_count (Counters 1 1) < total_count (Counters 1 1).
Proof. repeat split; try (vm_compute; reflexivity). simpl. lia. Qed.

(** C7 as stated: in the tree [a/b/c.txt] the remote creation of the
    directory [a/b] and the pass over its contents return
    ([upload_directory] returns [True] for it, and [a/b] is on the remote
    side afterwards), yet [a/b] is not counted: the run ends with
    succeeded = 1, as it does when [a] is empty. *)
Lemma nested_directory_is_not_counted :
  node_at ["a"; "b"] (NDir true deep_tree)
    = Some (NDir true [("c.txt", NFile true (bytes_of "c"))]) /\
  fst (upload_directory (path_join (path_join staging "a") "b")
         (NDir true [("c.txt", NFile true (bytes_of "c"))]) "a/b"
         (World (snd (ftp_mkd "a" (in_site hostgator))) [])) = Ok true /\
  store (srv (snd (upload_pass staging deep_tree (World (in_site hostgator) []))))
    !! (site_root ++ ["a"; "b"]) = Some RDir /\
  fst (upload_pass staging deep_tree (World (in_site hostgator) [])) = Ok (Counters 1 1) /\
  fst (upload_pass staging [("a", NDir true [])] (World (in_site hostgator) []))
    = Ok (Counters 1 1).
Proof. repeat split; vm_compute; reflexivity. Qed.

(** C10 as stated: the listing holds a FIFO, and an entry on which
    [is_file()] raises.  The loop of either script is left by the
    exception, so that the run ends without counters: no summary line is
    printed and the script exits with code 1. *)
Lemma special_entry_run_without_counters :
  In ("queue.fifo", NOther) special_locked_tree /\
  fst (upload_pass staging special_locked_tree (World (in_site hostgator) []))
    = Raise (permission_denied (path_join staging "locked")) /\
  fst (fix_upload_pass staging special_locked_tree
         (World (Remote (store hostgator) fix_site_root true) []))
    = Raise (permission_denied (path_join staging "locked")) /\
  fst (deploy_main special_locked_fs (World hostgator [])) = Ok 1%Z /\
  fst (fix_main special_locked_fs (World hostgator [])) = Ok 1%Z /\
  (forall c, ~ In (line_summary c)
                 (out (snd (deploy_main special_locked_fs (World hostgator []))))) /\
  (forall c, ~ In (line_summary c)
                 (out (snd (fix_main special_locked_fs (World hostgator []))))).
Proof.
  split; [right; left; reflexivity |].
  do 4 (split; [vm_compute; reflexivity |]).
  split; intros c; vm_compute; intros H;
    repeat (destruct H as [H | H]; [discriminate H |]); exact H.
Qed.

(** C5 as stated: the remote root of [fix_mylzip_redirect] is missing and
    could be created, but the script creates nothing and fails. *)
Lemma fix_has_no_navigation_fallback :
  returned (ftp_cwd fix_remote_path bare) = false /\
  returned (ftp_mkd fix_remote_path bare) = true /\
  fst (fix_mylzip_redirect scenario_fs (World bare [])) = Ok false /\
  store (srv (snd (fix_mylzip_redirect scenario_fs (World bare [])))) = store bare.
Proof. repeat split; vm_compute; reflexivity. Qed.

(** C6 as stated: the first listing of [fix_mylzip_redirect] fails; the
    run, which succeeds when the listing is allowed, returns [False] and
    uploads nothing. *)
Lemma fix_first_listing_is_fatal :
  returned (ftp_nlst (Remote (store mute) fix_site_root false)) = false /\
  fst (fix_mylzip_redirect scenario_fs (World hostgator [])) = Ok true /\
  fst (fix_mylzip_redirect scenario_fs (World mute [])) = Ok false /\
  store (srv (snd (fix_mylzip_redirect scenario_fs (World mute [])))) = store mute.
Proof. repeat split; vm_compute; reflexivity. Qed.

(** C9 as stated: [fix_mylzip_redirect] exits with code 1 although the
    connection and the navigation returned and the local root is there
    and can be listed: the run stopped at the first remote listing. *)
Lemma fix_exits_1_on_listing_failure :
  fst (fix_main scenario_fs (World mute [])) = Ok 1%Z /\
  fix_stops scenario_fs (World mute [line_fix_start]) = Some Listing /\
  returned (fix_connect (World mute [line_fix_start])) = true /\
  returned (ftp_cwd fix_remote_path mute) = true /\
  local_stop scenario_fs = None.
Proof. repeat split; vm_compute; reflexivity. Qed.

(** ** Further properties of the scripts, for every peer *)

Section MoreGeneric.
Context {S : Type} {ftp : FTP S}.

Lemma for_each_app {A} (body : A -> M S unit) (l1 l2 : list A) (w : world S) :
  for_each body (l1 ++ l2) w =
  match for_each body l1 w with
  | (Ok _, w1) => for_each body l2 w1
  | (Raise e, w1) => (Raise e, w1)
  end.
Proof.
  revert w. induction l1 as [| x l1 IH]; intros w; simpl.
  - reflexivity.
  - unfold bind. destruct (body x w) as [[[] | e] w1]; [apply IH | reflexivity].
Qed.

(** X1: in [fix_mylzip_redirect] the files of a top-level directory are
    uploaded inside one [try] block.  When one of them fails (its [open]
    or its [storbinary] raises) after the files before it went through,
    the loop stops there: the files after it are not attempted, the error
    is printed once for the directory, and the directory is counted as
    attempted but not as succeeded. *)
Theorem fix_directory_stops_at_first_failure local_path c item l1 name r data l2
    (w w1 : world S) rep s1 :
  ftp_mkd item (srv w) = (Ok rep, s1) ->
  for_each (fix_subitem item (path_join local_path item)) l1
    (World s1 (out w ++ [line_fix_dir_start item])) = (Ok tt, w1) ->
  r = false \/
    returned (ftp_storbinary ("STOR " +:+ item +:+ "/" +:+ name) data (srv w1)) = false ->
  exists e,
    fix_item local_path c (item, NDir true (l1 ++ (name, NFile r data) :: l2)) w =
    (Ok (Counters (success_count c) (total_count c + 1)),
     World (if r
            then snd (ftp_storbinary ("STOR " +:+ item +:+ "/" +:+ name) data (srv w1))
            else srv w1)
       (out w1 ++ [line_fix_dir_err item e])).
Proof.
  intros Hm Hl1 Hbad.
  unfold fix_item. cbn [fst snd path_is_file path_is_dir can_stat branch is_file is_dir os_listdir].
  unfold bind at 1, print at 1. unfold try_except. unfold bind at 1, call at 1.
  cbn [srv out]. rewrite Hm.
  unfold bind at 1, lift_res at 1. unfold bind at 1.
  fold (line_fix_dir_start item).
  rewrite for_each_app, Hl1.
  cbn [for_each]. unfold bind at 1, fix_subitem at 1. cbn [fst snd path_is_file path_is_dir can_stat branch is_file].
  unfold bind at 1, lift_res at 1.
  destruct r; cbn [open_rb].
  - unfold bind at 1, call at 1. unfold returned in Hbad.
    destruct (ftp_storbinary _ data (srv w1)) as [[rep' | e] s2]; cbn [fst snd] in *.
    + destruct Hbad; discriminate.
    + exists e. reflexivity.
  - eexists. reflexivity.
Qed.

(** X2: both scripts create the remote directory before they list the
    local one.  For a local directory that cannot be listed, the remote
    directory is created and left empty, the error is printed, and the
    entry is counted as attempted but not as succeeded. *)
Theorem unlistable_directory_is_created_then_failed local_path c name items
    (w : world S) rep s1 :
  ftp_mkd name (srv w) = (Ok rep, s1) ->
  exists e,
    os_listdir (path_join local_path name) (NDir false items) = Raise e /\
    deploy_item local_path c (name, NDir false items) w =
      (Ok (Counters (success_count c) (total_count c + 1)),
       World s1 (((out w ++ [line_dir_start (path_join local_path name)])
                  ++ [line_dir_created name])
                 ++ [line_dir_err (path_join local_path name) e])) /\
    fix_item local_path c (name, NDir false items) w =
      (Ok (Counters (success_count c) (total_count c + 1)),
       World s1 ((out w ++ [line_fix_dir_start name]) ++ [line_fix_dir_err name e])).
Proof.
  intros Hm. eexists. split; [reflexivity |]. split.
  - unfold deploy_item. cbn [fst snd path_is_file path_is_dir can_stat branch is_file is_dir]. unfold bind at 1.
    rewrite upload_directory_eq, Hm. reflexivity.
  - unfold fix_item. cbn [fst snd path_is_file path_is_dir can_stat branch is_file is_dir]. run. rewrite Hm. reflexivity.
Qed.

(** X3: [quit] is the last command of every run of both functions: the
    peer ends in the state [quit] produces from the state the [try] block
    left, whether that block returned or raised.  What [quit] answers,
    exception included, has no effect on the result: a value returned by
    the [try] block is returned, an exception of it gives [False]. *)
Theorem session_is_always_closed fs (w : world S) :
  (exists b,
     fst (deploy fs w) = Ok b /\
     srv (snd (deploy fs w)) = snd (ftp_quit (srv (snd (deploy_try fs w)))) /\
     b = match fst (deploy_try fs w) with Ok b' => b' | Raise _ => false end) /\
  (exists b,
     fst (fix_mylzip_redirect fs w) = Ok b /\
     srv (snd (fix_mylzip_redirect fs w)) = snd (ftp_quit (srv (snd (fix_try fs w)))) /\
     b = match fst (fix_try fs w) with Ok b' => b' | Raise _ => false end).
Proof.
  split.
  - rewrite deploy_eq. destruct (deploy_try fs w) as [[b | e] w1];
      eexists; repeat split.
  - rewrite fix_eq. destruct (fix_try fs w) as [[b | e] w1];
      eexists; repeat split.
Qed.

Lemma file_item_agree local_path c name f (w v : world S) :
  is_file f = true -> srv w = srv v ->
  exists c' w' v',
    deploy_item local_path c (name, f) w = (Ok c', w') /\
    fix_item local_path c (name, f) v = (Ok c', v') /\
    srv w' = srv v'.
Proof.
  intros Hf Hs. destruct f as [r data | | |]; try discriminate.
  unfold deploy_item, fix_item. cbn [fst snd path_is_file path_is_dir can_stat branch is_file].
  unfold bind at 1. rewrite upload_file_eq.
  unfold try_except, bind at 1, lift_res.
  destruct r; cbn [open_rb].
  - unfold bind at 1, bind at 1, print at 1, call at 1. cbn [srv out]. rewrite <- Hs.
    destruct (ftp_storbinary _ data (srv w)) as [[rep | e] s1];
      eexists _, _, _; repeat split.
  - eexists _, _, _; repeat split. exact Hs.
Qed.

Lemma file_loops_agree local_path items :
  forallb (fun e => is_file (snd e)) items = true ->
  forall c (w v : world S), srv w = srv v ->
  exists c' w' v',
    for_fold (deploy_item local_path) items c w = (Ok c', w') /\
    for_fold (fix_item local_path) items c v = (Ok c', v') /\
    srv w' = srv v'.
Proof.
  induction items as [| [name f] items IH]; intros Hall c w v Hs; simpl in *.
  - eexists _, _, _; repeat split. exact Hs.
  - apply andb_true_iff in Hall as [Hf Hall].
    destruct (file_item_agree local_path c name f w v Hf Hs)
      as (c1 & w1 & v1 & Hd & Hx & Hs1).
    unfold bind. rewrite Hd, Hx. apply IH; assumption.
Qed.

(** X4: on a listing made of regular files only, the loops of the two
    scripts send the same commands: started on the same state of the
    peer, whatever it answers, they return the same counters and leave
    the peer in the same state. *)
Theorem scripts_agree_on_regular_files local_path items (w v : world S) :
  forallb (fun e => is_file (snd e)) items = true ->
  srv w = srv v ->
  fst (upload_pass local_path items w) = fst (fix_upload_pass local_path items v) /\
  srv (snd (upload_pass local_path items w)) = srv (snd (fix_upload_pass local_path items v)).
Proof.
  intros Hall Hs.
  destruct (file_loops_agree local_path items Hall (Counters 0 0) w v Hs)
    as (c & w' & v' & Hd & Hx & Hs').
  unfold upload_pass, fix_upload_pass. rewrite Hd, Hx. split; [reflexivity | exact Hs'].
Qed.

Lemma all_failing_item local_path c entry (w : world S) :
  can_stat (snd entry) = true ->
  (forall cmd data s, returned (ftp_storbinary cmd data s) = false) ->
  (forall p s, returned (ftp_mkd p s) = false) ->
  exists w',
    deploy_item local_path c entry w =
    (Ok (Counters (success_count c) (total_count c + 1)), w').
Proof.
  intros Hstat Hstor Hmkd. destruct entry as [name f]. unfold deploy_item. cbn [fst snd] in *.
  destruct f as [r data | l items | | ]; [ | | | discriminate Hstat ];
    cbn [path_is_file path_is_dir can_stat is_file is_dir branch].
  - unfold bind. rewrite upload_file_eq.
    destruct r; cbn [open_rb]; [| eexists; reflexivity].
    specialize (Hstor ("STOR " +:+ name) data (srv w)). unfold returned in Hstor.
    destruct (ftp_storbinary _ data (srv w)) as [[rep | e] s1]; cbn [fst] in Hstor;
      [discriminate | eexists; reflexivity].
  - unfold bind. rewrite upload_directory_eq.
    specialize (Hmkd name (srv w)). unfold returned in Hmkd.
    destruct (ftp_mkd name (srv w)) as [[rep | e] s1]; cbn [fst] in Hmkd;
      [discriminate | eexists; reflexivity].
  - eexists; reflexivity.
Qed.

Lemma all_failing_pass local_path items :
  stat_ok items = true ->
  (forall cmd data s, returned (ftp_storbinary cmd data s) = false) ->
  (forall p s, returned (ftp_mkd p s) = false) ->
  forall c (w : world S), exists w',
    for_fold (deploy_item local_path) items c w =
    (Ok (Counters (success_count c) (total_count c + length items)), w').
Proof.
  intros Hstat Hstor Hmkd. induction items as [| entry items IH]; intros c w.
  - exists w. simpl. unfold ret. destruct c as [sc tc]. simpl. rewrite Nat.add_0_r.
    reflexivity.
  - rewrite stat_ok_cons in Hstat. apply andb_prop in Hstat as [Hx Hstat].
    destruct (all_failing_item local_path c entry w Hx Hstor Hmkd) as [w1 H1].
    simpl. unfold bind. rewrite H1.
    destruct (IH Hstat (Counters (success_count c) (total_count c + 1)) w1) as [w2 H2].
    exists w2. rewrite H2. simpl. do 2 f_equal. f_equal. lia.
Qed.

(** X5: the result of [deploy], and so the exit code, does not look at
    the counters.  Against a peer that lets the session in but refuses
    every [MKD] and [STOR], a run over a local root that can be listed and
    whose entries all let [is_file()] and [is_dir()] answer prints a
    summary with zero successes and still exits with code 0. *)
Theorem exit_code_ignores_failed_uploads fs items (w w1 w2 : world S) u1 u2 :
  root fs = Some (NDir true items) ->
  stat_ok items = true ->
  deploy_connect (World (srv w) (out w ++ [line_deploy_start])) = (Ok u1, w1) ->
  deploy_navigate w1 = (Ok u2, w2) ->
  (forall cmd data s, returned (ftp_storbinary cmd data s) = false) ->
  (forall p s, returned (ftp_mkd p s) = false) ->
  exists w',
    deploy_main fs w = (Ok 0%Z, w') /\
    In (line_summary (Counters 0 (length items))) (out w').
Proof.
  intros Hroot Hstat Hc Hn Hstor Hmkd.
  unfold deploy_main. unfold bind at 1, print at 1. unfold bind at 1.
  fold line_deploy_start.
  rewrite deploy_eq, deploy_try_eq, Hc, Hn, deploy_list_current_eq.
  destruct (ftp_nlst (srv w2)) as [[files | e] s3];
    match goal with
    | |- context [deploy_upload fs ?w3] =>
        destruct (deploy_upload_listable fs (NDir true items) items w3 Hroot eq_refl Hstat)
          as (c & wp & w' & Hpass & _ & -> & Hin & _);
        destruct (all_failing_pass (resolved fs) items Hstat Hstor Hmkd (Counters 0 0)
                    (World (srv w3) (out w3 ++ [line_deploy_upload]))) as [wp' Hpass']
    end;
    unfold upload_pass in Hpass; rewrite Hpass in Hpass'; injection Hpass' as -> _;
    cbn [success_count total_count] in Hin; rewrite ?Nat.add_0_l in Hin;
    run; eexists; (split; [reflexivity |]); cbn [out];
    rewrite !in_app_iff; left; left; exact Hin.
Qed.

End MoreGeneric.

(** X1 on the reference peer: [a.css] goes through, [b.css] cannot be
    read, [c.css] is never attempted. *)
Lemma fix_directory_stops_at_first_failure_witness :
  exists e,
    fix_item staging (Counters 0 0) ("assets", NDir true css_tree)
      (World (in_site hostgator) []) =
    (Ok (Counters 0 (0 + 1)),
     World
       (srv (snd (for_each (fix_subitem "assets" (path_join staging "assets"))
                    [("a.css", NFile true (bytes_of "a"))]
                    (World (snd (ftp_mkd "assets" (in_site hostgator)))
                       ([] ++ [line_fix_dir_start "assets"])))))
       (out (snd (for_each (fix_subitem "assets" (path_join staging "assets"))
                    [("a.css", NFile true (bytes_of "a"))]
                    (World (snd (ftp_mkd "assets" (in_site hostgator)))
                       ([] ++ [line_fix_dir_start "assets"]))))
        ++ [line_fix_dir_err "assets" e])).
Proof.
  apply (fix_directory_stops_at_first_failure staging (Counters 0 0) "assets"
           [("a.css", NFile true (bytes_of "a"))] "b.css" false (bytes_of "b")
           [("c.css", NFile true (bytes_of "c"))]
           (World (in_site hostgator) [])
           (snd (for_each (fix_subitem "assets" (path_join staging "assets"))
                   [("a.css", NFile true (bytes_of "a"))]
                   (World (snd (ftp_mkd "assets" (in_site hostgator)))
                      ([] ++ [line_fix_dir_start "assets"]))))
           "assets" (snd (ftp_mkd "assets" (in_site hostgator)))).
  - reflexivity.
  - reflexivity.
  - left. reflexivity.
Defined.

(** X2 on the reference peer. *)
Lemma unlistable_directory_is_created_then_failed_witness :
  returned (ftp_mkd "private" (in_site hostgator)) = true /\
  exists e,
    os_listdir (path_join staging "private") (NDir false []) = Raise e /\
    deploy_item staging (Counters 0 0) ("private", NDir false [])
      (World (in_site hostgator) []) =
      (Ok (Counters 0 (0 + 1)),
       World (snd (ftp_mkd "private" (in_site hostgator)))
         ((([] ++ [line_dir_start (path_join staging "private")])
           ++ [line_dir_created "private"])
          ++ [line_dir_err (path_join staging "private") e])) /\
    fix_item staging (Counters 0 0) ("private", NDir false [])
      (World (in_site hostgator) []) =
      (Ok (Counters 0 (0 + 1)),
       World (snd (ftp_mkd "private" (in_site hostgator)))
         (([] ++ [line_fix_dir_start "private"]) ++ [line_fix_dir_err "private" e])).
Proof.
  split; [reflexivity |].
  apply (unlistable_directory_is_created_then_failed staging (Counters 0 0) "private" []
           (World (in_site hostgator) []) "private"
           (snd (ftp_mkd "private" (in_site hostgator)))).
  reflexivity.
Defined.

(** X4 on the reference peer, with one file that cannot be read. *)
Lemma scripts_agree_on_regular_files_witness :
  fst (upload_pass staging unreadable_tree (World (in_site hostgator) []))
    = fst (fix_upload_pass staging unreadable_tree (World (in_site hostgator) [])) /\
  srv (snd (upload_pass staging unreadable_tree (World (in_site hostgator) [])))
    = srv (snd (fix_upload_pass staging unreadable_tree (World (in_site hostgator) []))).
Proof.
  apply (scripts_agree_on_regular_files staging unreadable_tree
           (World (in_site hostgator) []) (World (in_site hostgator) []));
    reflexivity.
Defined.

(** X5 on the read-only peer. *)
Lemma exit_code_ignores_failed_uploads_witness :
  exists w',
    @deploy_main remote readonly_ftp scenario_fs (World hostgator []) = (Ok 0%Z, w') /\
    In (line_summary (Counters 0 2)) (out w').
Proof.
  apply (@exit_code_ignores_failed_uploads remote readonly_ftp scenario_fs scenario_tree
           (World hostgator [])
           (snd (@deploy_connect remote readonly_ftp
                   (World hostgator ([] ++ [line_deploy_start]))))
           (snd (@deploy_navigate remote readonly_ftp
                   (snd (@deploy_connect remote readonly_ftp
                           (World hostgator ([] ++ [line_deploy_start]))))))
           tt tt).
  - reflexivity.
  - reflexivity.
  - reflexivity.
  - reflexivity.
  - intros cmd data s. reflexivity.
  - intros p s. reflexivity.
Defined.

(** ** Further properties of the scripts, on the reference peer *)

Lemma sim_navigate_creates r o :
  exists_at r site_root = false ->
  is_dir_at r (removelast site_root) = true ->
  exists o1,
    deploy_navigate (World r o) =
    (Ok tt, World (Remote (<[site_root := RDir]> (store r)) site_root (can_list r)) o1).
Proof.
  intros Hex Hpar.
  assert (Hd : is_dir_at r site_root = false).
  { unfold exists_at, is_dir_at, site_root in *.
    destruct (store r !! _); [discriminate | reflexivity]. }
  unfold deploy_navigate.
  unfold bind at 1, print at 1. unfold bind at 1.
  unfold try_except, call at 1. cbn [srv out ftp_cwd sim_ftp].
  unfold sim_cwd at 1. rewrite resolve_site. cbv zeta. rewrite Hd.
  unfold bind at 1, call at 1. cbn [srv out ftp_mkd sim_ftp].
  unfold sim_mkd. rewrite resolve_site, Hex, Hpar.
  unfold call at 1. cbn [srv out ftp_cwd sim_ftp].
  unfold sim_cwd. rewrite resolve_site.
  assert (Hnew : is_dir_at (Remote (<[site_root := RDir]> (store r)) (cwd r) (can_list r))
                   site_root = true).
  { unfold is_dir_at, site_root. cbn [store]. rewrite lookup_insert_eq. reflexivity. }
  rewrite Hnew. eexists. reflexivity.
Qed.

(** X6: [deploy] looks for the local directory only after it has
    connected, navigated and listed the remote root.  When the local
    directory is missing and the remote root does not exist yet, the run
    returns [False] and has uploaded nothing, but it has created the
    remote root: that is the only change on the remote side. *)
Theorem missing_local_root_is_found_after_navigation fs (r : remote) o :
  root fs = None ->
  exists_at r site_root = false ->
  is_dir_at r (removelast site_root) = true ->
  exists w',
    deploy fs (World r o) = (Ok false, w') /\
    store (srv w') = <[site_root := RDir]> (store r).
Proof.
  intros Hroot Hex Hpar.
  rewrite deploy_eq, deploy_try_eq.
  destruct (sim_deploy_connect r o) as [o0 ->].
  destruct (sim_navigate_creates r o0 Hex Hpar) as [o1 ->].
  rewrite deploy_list_current_eq. cbn [srv out ftp_nlst sim_ftp].
  match goal with
  | |- context [sim_nlst ?r1] =>
      pose proof (sim_nlst_state r1) as Hn; destruct (sim_nlst r1) as [[files | e] r1'];
        simpl in Hn; subst r1'
  end;
    unfold deploy_upload; rewrite Hroot; run; eexists; split; reflexivity.
Qed.

Lemma deploy_item_clean local_path c name child (r : remote) o :
  valid_name name = true ->
  well_formed child = true ->
  is_dir_at r (cwd r) = true ->
  store r !! (cwd r ++ [name]) = None ->
  fst (deploy_item local_path c (name, child) (World r o)) =
  Ok (Counters (success_count c + (if is_file child || is_dir child then 1 else 0))
        (total_count c + 1)).
Proof.
  intros Hname Hwf Hdir Hfresh.
  assert (Hrel : relative name ([] ++ [name])) by (apply relative_name; exact Hname).
  assert (Hdir' : is_dir_at r (cwd r ++ []) = true) by (rewrite app_nil_r; exact Hdir).
  assert (Hfresh' : store r !! ((cwd r ++ []) ++ [name]) = None)
    by (rewrite app_nil_r; exact Hfresh).
  unfold deploy_item. cbn [fst snd].
  destruct child as [readable data | l items | | ]; [ | | | discriminate Hwf ];
    cbn [path_is_file path_is_dir can_stat is_file is_dir branch orb].
  - simpl in Hwf. subst readable. unfold bind. rewrite upload_file_eq.
    cbn [open_rb srv out ftp_storbinary sim_ftp].
    rewrite (sim_stor_new r name [] name data Hrel Hfresh' Hdir'). reflexivity.
  - simpl in Hwf. apply andb_true_iff in Hwf as [Hwf _].
    apply andb_true_iff in Hwf as [Hl _]. subst l.
    destruct (upload_directory_returns (path_join local_path name) (NDir true items) name
                (World r o)) as [w' H].
    unfold bind. rewrite H. cbn [srv ftp_mkd sim_ftp].
    rewrite (sim_mkd_new r name [] name Hrel Hfresh' Hdir'). reflexivity.
  - simpl. rewrite Nat.add_0_r. reflexivity.
Qed.

Lemma sim_upload_counts local_path items :
  forallb (fun e => valid_name (fst e) && well_formed (snd e)) items = true ->
  NoDup (map fst items) ->
  forall c (r : remote) o,
    is_dir_at r (cwd r) = true ->
    (forall name q, In name (map fst items) -> store r !! (cwd r ++ name :: q) = None) ->
    exists w',
      for_fold (deploy_item local_path) items c (World r o) =
      (Ok (Counters (success_count c + uploadable items) (total_count c + length items)), w').
Proof.
  induction items as [| [name child] items IH]; intros Hwf Hnd c r o Hdir Hfresh.
  - exists (World r o). simpl. unfold ret, uploadable. simpl.
    rewrite !Nat.add_0_r. destruct c; reflexivity.
  - simpl in Hwf. apply andb_true_iff in Hwf as [Hhead Hwf].
    apply andb_true_iff in Hhead as [Hname Hwfc].
    simpl in Hnd. apply NoDup_cons in Hnd as [Hnotin Hnd].
    assert (Hnotin' : ~ In name (map fst items)).
    { intros Hin. apply Hnotin. apply list_elem_of_In. exact Hin. }
    destruct (deploy_item_visit local_path c (name, child) (World r o)
                (well_formed_can_stat child Hwfc)) as [c1 Hc1].
    pose proof (deploy_item_clean local_path c name child r o Hname Hwfc Hdir
                  (Hfresh name [] (or_introl eq_refl))) as Hfst.
    rewrite Hc1 in Hfst. cbn [fst] in Hfst. injection Hfst as ->.
    destruct (visit_meets_spec child local_path (fun item : string => item) name [] r o)
      as (w1 & Hv & Hcwd1 & _ & Hstore1).
    { apply relative_name. exact Hname. }
    { exact Hwfc. }
    { rewrite app_nil_r. exact Hdir. }
    { intros q. rewrite app_nil_r. apply Hfresh. left. reflexivity. }
    rewrite Hv in Hc1. cbn [snd] in Hc1.
    destruct w1 as [r1 o1]. cbn [srv] in Hcwd1, Hstore1.
    rewrite app_nil_r in Hstore1.
    destruct (IH Hwf Hnd
                (Counters (success_count c + (if is_file child || is_dir child then 1 else 0))
                   (total_count c + 1)) r1 o1) as [w2 H2].
    { rewrite Hcwd1. rewrite <- Hdir. apply is_dir_at_ext.
      rewrite Hstore1, below_self_snoc. reflexivity. }
    { intros x q Hx. rewrite Hcwd1, Hstore1.
      rewrite below_snoc_other; [apply Hfresh; right; exact Hx |].
      intros ->. apply Hnotin'. exact Hx. }
    exists w2. cbn [for_fold]. unfold bind. rewrite Hc1, H2.
    cbn [success_count total_count]. unfold uploadable. cbn [List.filter snd length].
    destruct (is_file child || is_dir child); cbn [length]; do 2 f_equal; f_equal; lia.
Qed.

Lemma sim_deploy_summary fs items (r : remote) o :
  root fs = Some (NDir true items) ->
  well_formed (NDir true items) = true ->
  site_ready r ->
  site_empty r ->
  exists w',
    deploy fs (World r o) = (Ok true, w') /\
    In (line_summary (Counters (uploadable items) (length items))) (out w').
Proof.
  intros Hroot Hwf Hready Hempty.
  assert (Hstat : stat_ok items = true).
  { apply well_formed_stat_ok. simpl in Hwf.
    apply andb_true_iff in Hwf as [Hwf _]. exact Hwf. }
  rewrite deploy_eq, deploy_try_eq.
  destruct (sim_deploy_connect r o) as [o0 ->].
  destruct (sim_deploy_navigate r o0 Hready Hempty)
    as (r1 & o1 & -> & Hcwd & Hdir & Hempty1 & Hout).
  simpl in Hwf. apply andb_true_iff in Hwf as [Hwf Hnd].
  apply bool_decide_eq_true in Hnd.
  rewrite deploy_list_current_eq. cbn [srv out ftp_nlst sim_ftp].
  pose proof (sim_nlst_state r1) as Hn.
  destruct (sim_nlst r1) as [[files | e] r1']; simpl in Hn; subst r1';
    match goal with
    | |- context [deploy_upload fs (World r1 ?o2)] =>
        destruct (deploy_upload_listable fs (NDir true items) items (World r1 o2)
                    Hroot eq_refl Hstat)
          as (c & w1 & w' & Hpass & _ & -> & Hin & _);
        destruct (sim_upload_counts (resolved fs) items Hwf Hnd (Counters 0 0) r1
                    (o2 ++ [line_deploy_upload]))
          as (w1' & Hpass')
    end;
    try (rewrite Hcwd; exact Hdir);
    try (intros name q _; rewrite Hcwd; apply Hempty1; discriminate);
    cbn [srv out] in Hpass; unfold upload_pass in Hpass;
    rewrite Hpass in Hpass'; injection Hpass' as -> _;
    (eexists; split; [reflexivity |]); exact Hin.
Qed.

(** X7: on a run without failures (a local tree on which no item can
    fail, an empty remote root) the summary printed by [deploy] reports
    as succeeded every entry of the local root that is a regular file or
    a directory, out of all its entries: "n/n" when the root holds
    nothing else. *)
Theorem clean_run_reports_every_upload fs items (r : remote) o :
  root fs = Some (NDir true items) ->
  well_formed (NDir true items) = true ->
  site_ready r ->
  site_empty r ->
  (exists w',
     deploy fs (World r o) = (Ok true, w') /\
     In (line_summary (Counters (uploadable items) (length items))) (out w')) /\
  uploadable items <= length items /\
  (forallb (fun e => is_file (snd e) || is_dir (snd e)) items = true ->
   uploadable items = length items).
Proof.
  intros Hroot Hwf Hready Hempty.
  split; [apply sim_deploy_summary; assumption |].
  unfold uploadable. split; [apply filter_length_le |].
  clear. induction items as [| e items IH]; simpl; intros H; [reflexivity |].
  apply andb_true_iff in H as [He Hall]. rewrite He. simpl. rewrite (IH Hall). reflexivity.
Qed.

Lemma find_entry_In name child (items : list (string * node)) :
  find_entry name items = Some child -> In (name, child) items.
Proof.
  induction items as [| [n c] items IH]; simpl; [discriminate |].
  destruct (decide (n = name)) as [-> |].
  - intros H. injection H as ->. left. reflexivity.
  - intros H. right. apply IH. exact H.
Qed.

Lemma shallow_same_image items :
  no_nested_dirs items = true ->
  forall q, node_at q (shallow_tree items) ≫= image = node_at q (NDir true items) ≫= image.
Proof.
  intros Hflat [| name q]; [reflexivity |].
  unfold shallow_tree. cbn [node_at]. rewrite find_entry_map.
  destruct (find_entry name items) as [child |] eqn:Hfind; [| reflexivity].
  cbn [fmap option_fmap option_map].
  apply find_entry_In in Hfind.
  unfold no_nested_dirs in Hflat. rewrite forallb_forall in Hflat.
  specialize (Hflat _ Hfind). cbn [snd] in Hflat.
  destruct child as [r d | l children | | ]; try reflexivity.
  destruct q as [| sub q]; [reflexivity |].
  cbn [shallow node_at]. rewrite find_entry_map.
  destruct (find_entry sub children) as [c |] eqn:Hsub; [| reflexivity].
  cbn [fmap option_fmap option_map].
  apply find_entry_In in Hsub. rewrite forallb_forall in Hflat.
  specialize (Hflat _ Hsub). cbn [snd] in Hflat.
  destruct c as [r d | l' ch | | ]; try reflexivity. discriminate.
Qed.

(** X8: on a local tree without failing items whose directories hold no
    directory, the two scripts produce the same remote tree, each under
    its own remote root. *)
Theorem scripts_agree_on_shallow_trees fs items (r v : remote) o :
  root fs = Some (NDir true items) ->
  well_formed (NDir true items) = true ->
  no_nested_dirs items = true ->
  site_ready r ->
  site_empty r ->
  is_dir_at v fix_site_root = true ->
  can_list v = true ->
  (forall q, q <> [] -> store v !! (fix_site_root ++ q) = None) ->
  exists w1 w2,
    deploy fs (World r o) = (Ok true, w1) /\
    fix_mylzip_redirect fs (World v o) = (Ok true, w2) /\
    forall q, store (srv w1) !! (site_root ++ q) = store (srv w2) !! (fix_site_root ++ q).
Proof.
  intros Hroot Hwf Hflat Hready Hempty Hdir Hlist Hempty'.
  destruct (sim_deploy_run fs items r o Hroot Hwf Hready Hempty) as (w1 & H1 & Hs1 & _).
  destruct (sim_fix_run fs items v o Hroot (well_formed_shallow_tree items Hwf)
              Hdir Hlist Hempty') as (w2 & H2 & Hs2 & _).
  exists w1, w2. split; [exact H1 |]. split; [exact H2 |].
  intros q. rewrite Hs1, Hs2. symmetry. apply shallow_same_image. exact Hflat.
Qed.

Lemma scripts_agree_on_shallow_trees_witness :
  no_nested_dirs scenario_tree = true /\
  exists w1 w2,
    deploy scenario_fs (World hostgator []) = (Ok true, w1) /\
    fix_mylzip_redirect scenario_fs (World hostgator []) = (Ok true, w2) /\
    forall q, store (srv w1) !! (site_root ++ q) = store (srv w2) !! (fix_site_root ++ q).
Proof.
  split; [reflexivity |].
  apply (scripts_agree_on_shallow_trees scenario_fs scenario_tree hostgator hostgator []);
    try reflexivity.
  - left. reflexivity.
  - exact hostgator_site_empty.
  - exact hostgator_fix_site_empty.
Defined.

(** *** A run over a remote root that is not empty *)

Lemma sim_stor_over r rd name data :
  relative rd [name] ->
  is_dir_at r (cwd r ++ [name]) = false ->
  is_dir_at r (cwd r) = true ->
  sim_storbinary ("STOR " +:+ rd) data r =
  (Ok "226 Transfer complete",
   Remote (<[cwd r ++ [name] := RFile data]> (store r)) (cwd r) (can_list r)).
Proof.
  intros [Hs Hp] Hfree Hdir. unfold sim_storbinary. rewrite strip_stor. cbv zeta.
  unfold resolve. rewrite Hs, Hp, Hfree, removelast_snoc, Hdir. reflexivity.
Qed.

Lemma sim_mkd_taken r rd name :
  relative rd [name] ->
  exists_at r (cwd r ++ [name]) = true ->
  sim_mkd rd r = (Raise (error_perm ("550 " +:+ rd +:+ ": File exists")), r).
Proof.
  intros [Hs Hp] Hex. unfold sim_mkd, resolve. rewrite Hs, Hp, Hex. reflexivity.
Qed.

Lemma already_there_insert r key data e :
  already_there r e = true ->
  already_there (Remote (<[key := RFile data]> (store r)) (cwd r) (can_list r)) e = true.
Proof.
  unfold already_there. intros H. apply andb_true_iff in H as [Hname H].
  rewrite Hname. cbn [andb cwd].
  destruct (snd e) as [rd d | l ch | | ]; [| | reflexivity | discriminate H].
  - apply negb_true_iff in H. apply negb_true_iff.
    rewrite is_dir_at_lookup in * by apply snoc_not_nil. cbn [store].
    destruct (decide (key = cwd r ++ [fst e])) as [-> | Hne].
    + rewrite lookup_insert_eq. reflexivity.
    + rewrite lookup_insert_ne by exact Hne. exact H.
  - rewrite exists_at_lookup in * by apply snoc_not_nil. cbn [store].
    destruct (decide (key = cwd r ++ [fst e])) as [-> | Hne].
    + rewrite lookup_insert_eq. reflexivity.
    + rewrite lookup_insert_ne by exact Hne. exact H.
Qed.

Lemma deploy_item_again local_path c e (r : remote) o :
  is_dir_at r (cwd r) = true ->
  already_there r e = true ->
  exists o',
    deploy_item local_path c e (World r o) =
    (Ok (Counters
           (success_count c + match snd e with NFile true _ => 1 | _ => 0 end)
           (total_count c + 1)),
     World (Remote (refresh (cwd r) [e] (store r)) (cwd r) (can_list r)) o').
Proof.
  intros Hdir H. unfold already_there in H. apply andb_true_iff in H as [Hname H].
  destruct e as [name child]. cbn [fst snd] in *.
  pose proof (relative_name name Hname) as Hrel.
  unfold deploy_item, refresh. cbn [fst snd fold_left].
  destruct child as [readable data | l items | | ]; [ | | | discriminate H ];
    cbn [path_is_file path_is_dir can_stat is_file is_dir branch].
  - apply negb_true_iff in H. unfold bind. rewrite upload_file_eq.
    destruct readable; cbn [open_rb].
    + cbn [srv out ftp_storbinary sim_ftp].
      rewrite (sim_stor_over r name name data Hrel H Hdir).
      eexists. reflexivity.
    + eexists. unfold ret. rewrite Nat.add_0_r. destruct r; reflexivity.
  - unfold bind. rewrite upload_directory_eq. cbn [srv out ftp_mkd sim_ftp].
    rewrite (sim_mkd_taken r name name Hrel H).
    eexists. unfold ret. rewrite Nat.add_0_r. destruct r; reflexivity.
  - eexists. unfold ret. rewrite Nat.add_0_r. destruct r; reflexivity.
Qed.

Lemma upload_pass_again local_path items :
  forall c (r : remote) o,
    is_dir_at r (cwd r) = true ->
    forallb (already_there r) items = true ->
    exists o',
      for_fold (deploy_item local_path) items c (World r o) =
      (Ok (Counters (success_count c + readable_files items) (total_count c + length items)),
       World (Remote (refresh (cwd r) items (store r)) (cwd r) (can_list r)) o').
Proof.
  induction items as [| e items IH]; intros c r o Hdir Hall.
  - exists o. simpl. unfold ret, readable_files, refresh. simpl.
    rewrite !Nat.add_0_r. destruct c, r; reflexivity.
  - simpl in Hall. apply andb_true_iff in Hall as [He Hall].
    destruct (deploy_item_again local_path c e r o Hdir He) as [o1 H1].
    cbn [for_fold]. unfold bind. rewrite H1.
    set (r1 := Remote (refresh (cwd r) [e] (store r)) (cwd r) (can_list r)).
    assert (Hr1 : is_dir_at r1 (cwd r1) = true /\ forallb (already_there r1) items = true).
    { subst r1. unfold refresh. cbn [fold_left cwd].
      destruct (snd e) as [[|] data | l ch | | ] eqn:Hsnd;
        try (split; [exact Hdir | destruct r; exact Hall]).
      split.
      - rewrite <- Hdir. apply is_dir_at_ext. cbn [store].
        apply lookup_insert_ne. intros H. rewrite <- (app_nil_r (cwd r)) in H at 2.
        apply app_inv_head in H. discriminate.
      - rewrite forallb_forall in *. intros x Hx. apply already_there_insert.
        apply Hall. exact Hx. }
    destruct Hr1 as [Hdir1 Hall1].
    destruct (IH (Counters (success_count c + match snd e with NFile true _ => 1 | _ => 0 end)
                    (total_count c + 1)) r1 o1 Hdir1 Hall1) as [o2 H2].
    exists o2. rewrite H2. subst r1. cbn [cwd store can_list success_count total_count].
    unfold readable_files, refresh. cbn [List.filter fold_left length].
    f_equal. f_equal.
    destruct (snd e) as [[|] data | l ch | | ]; cbn [length]; f_equal; lia.
Qed.

Lemma refresh_lookup_other (base : list string) (items : list (string * node))
    (m : gmap (list string) rnode) (k : list string) :
  (forall name, k <> base ++ [name]) ->
  refresh base items m !! k = m !! k.
Proof.
  intros Hk. unfold refresh. revert m.
  induction items as [| e items IH]; intros m; simpl; [reflexivity |].
  rewrite IH. destruct (snd e) as [[|] data | l ch | | ]; try reflexivity.
  apply lookup_insert_ne. intros H. apply (Hk (fst e)). symmetry. exact H.
Qed.

(** X9: take a run of the upload loop from an existing remote directory,
    over a listing of valid names where [is_file()] and [is_dir()] answer
    for every entry, the name of every local directory is already taken
    on the remote side (as after a previous run) and the name of no local
    file is taken by a remote directory.  The run refreshes the readable
    files that sit directly in the local root and nothing else: every
    directory is refused by [mkd] and skipped, so what lies deeper on the
    remote side is left as it was, and the counters report the readable
    top-level files out of all the entries. *)
Theorem second_run_refreshes_only_direct_files local_path items (r : remote) o :
  is_dir_at r (cwd r) = true ->
  forallb (already_there r) items = true ->
  exists w',
    upload_pass local_path items (World r o) =
      (Ok (Counters (readable_files items) (length items)), w') /\
    store (srv w') = refresh (cwd r) items (store r) /\
    (forall q, 2 <= length q -> store (srv w') !! (cwd r ++ q) = store r !! (cwd r ++ q)) /\
    (forall k, below (cwd r) k = None -> store (srv w') !! k = store r !! k).
Proof.
  intros Hdir Hall.
  destruct (upload_pass_again local_path items (Counters 0 0) r o Hdir Hall) as [o' H].
  eexists. split; [exact H |]. cbn [srv store]. split; [reflexivity |]. split.
  - intros q Hq. apply refresh_lookup_other. intros name Heq.
    apply app_inv_head in Heq. subst q. simpl in Hq. lia.
  - intros k Hk. apply refresh_lookup_other. intros name ->.
    rewrite below_app in Hk. discriminate.
Qed.

(** X9 after a first run over the scenario tree: the second run, with new
    contents for both files, refreshes [index.html] and leaves the old
    [assets/style.css]. *)
Lemma second_run_refreshes_only_direct_files_witness :
  exists w',
    upload_pass staging updated_tree (World first_run []) = (Ok (Counters 1 2), w') /\
    store (srv w') !! (cwd first_run ++ ["index.html"])
      = Some (RFile (bytes_of "<html>v2</html>")) /\
    store (srv w') !! (cwd first_run ++ ["assets"; "style.css"])
      = Some (RFile (bytes_of "body {}")).
Proof.
  destruct (second_run_refreshes_only_direct_files staging updated_tree first_run [])
    as (w' & Hrun & Hstore & Hdeep & _).
  - reflexivity.
  - reflexivity.
  - exists w'. split; [exact Hrun |]. split.
    + rewrite Hstore. vm_compute. reflexivity.
    + rewrite Hdeep by (simpl; lia). vm_compute. reflexivity.
Defined.

(** *** The order of the listings *)

Lemma find_entry_perm (items items' : list (string * node)) name :
  Permutation items items' ->
  NoDup (map fst items) ->
  find_entry name items = find_entry name items'.
Proof.
  induction 1 as [| [n c] l l' Hperm IH | [nx cx] [ny cy] l | l l' l'' H1 IH1 H2 IH2];
    intros Hnd.
  - reflexivity.
  - simpl in *. apply NoDup_cons in Hnd as [_ Hnd].
    destruct (decide (n = name)); [reflexivity | apply IH; exact Hnd].
  - simpl in *. apply NoDup_cons in Hnd as [Hnotin _].
    destruct (decide (nx = name)) as [-> |], (decide (ny = name)) as [-> |];
      try reflexivity.
    exfalso. apply Hnotin. left.
  - rewrite IH1 by exact Hnd. apply IH2.
    apply (NoDup_Permutation_proper _ _ (Permutation_map fst H1)). exact Hnd.
Qed.

Lemma find_entry_reordered (items1 items' : list (string * node)) name :
  Forall2 (fun e e' => fst e = fst e' /\ reordered (snd e) (snd e')) items1 items' ->
  match find_entry name items1, find_entry name items' with
  | Some c, Some c' => reordered c c'
  | None, None => True
  | _, _ => False
  end.
Proof.
  induction 1 as [| [n c] [n' c'] l l' [Hn Hr] _ IH]; simpl; [exact I |].
  cbn [fst snd] in *. subst n'.
  destruct (decide (n = name)); [exact Hr | exact IH].
Qed.

Lemma well_formed_entry name child listable items :
  well_formed (NDir listable items) = true ->
  In (name, child) items ->
  well_formed child = true.
Proof.
  simpl. intros H Hin. apply andb_true_iff in H as [H _].
  apply andb_true_iff in H as [_ H]. rewrite forallb_forall in H.
  specialize (H _ Hin). apply andb_true_iff in H as [_ H]. exact H.
Qed.

Lemma node_at_reordered q :
  forall T T',
    reordered T T' ->
    well_formed T = true ->
    node_at q T ≫= image = node_at q T' ≫= image.
Proof.
  induction q as [| name q IH]; intros T T' Hre Hwf.
  - inversion Hre; reflexivity.
  - inversion Hre as [| | | l items items1 items' Hperm Hall]; subst; try reflexivity.
    cbn [node_at].
    assert (Hnd : NoDup (map fst items)).
    { simpl in Hwf. apply andb_true_iff in Hwf as [_ Hnd].
      apply bool_decide_eq_true in Hnd. exact Hnd. }
    rewrite (find_entry_perm items items1 name Hperm Hnd).
    pose proof (find_entry_reordered items1 items' name Hall) as Hfind.
    destruct (find_entry name items1) as [c |] eqn:H1,
             (find_entry name items') as [c' |] eqn:H2; try contradiction;
      [| reflexivity].
    apply IH; [exact Hfind |].
    apply (well_formed_entry name c l items Hwf).
    apply (Permutation_in _ (Permutation_sym Hperm)).
    apply find_entry_In. exact H1.
Qed.

(** X10: the order in which [os.listdir] yields the entries, in the local
    root or in any directory below it, has no effect on what [deploy]
    leaves on the remote side: two runs over the same tree listed in
    different orders, without failing items and from the same empty
    remote root, end with the same remote store. *)
Theorem upload_is_independent_of_listing_order fs fs' items items' (r : remote) o :
  root fs = Some (NDir true items) ->
  root fs' = Some (NDir true items') ->
  reordered (NDir true items) (NDir true items') ->
  well_formed (NDir true items) = true ->
  well_formed (NDir true items') = true ->
  site_ready r ->
  site_empty r ->
  exists w w',
    deploy fs (World r o) = (Ok true, w) /\
    deploy fs' (World r o) = (Ok true, w') /\
    store (srv w) = store (srv w').
Proof.
  intros Hroot Hroot' Hre Hwf Hwf' Hready Hempty.
  destruct (sim_deploy_run fs items r o Hroot Hwf Hready Hempty) as (w & H & Hin & Hout).
  destruct (sim_deploy_run fs' items' r o Hroot' Hwf' Hready Hempty)
    as (w' & H' & Hin' & Hout').
  exists w, w'. split; [exact H |]. split; [exact H' |].
  apply map_eq. intros k.
  destruct (below site_root k) as [q |] eqn:Hb.
  - apply below_Some in Hb as ->. rewrite Hin, Hin'.
    apply node_at_reordered; assumption.
  - rewrite Hout, Hout' by exact Hb. reflexivity.
Qed.

Lemma upload_is_independent_of_listing_order_witness :
  reordered (NDir true scenario_tree) (NDir true reversed_tree) /\
  exists w w',
    deploy scenario_fs (World hostgator []) = (Ok true, w) /\
    deploy (LocalFS staging (Some (NDir true reversed_tree))) (World hostgator [])
      = (Ok true, w') /\
    store (srv w) = store (srv w').
Proof.
  assert (Hre : reordered (NDir true scenario_tree) (NDir true reversed_tree)).
  { apply (reordered_dir true scenario_tree reversed_tree reversed_tree).
    - apply perm_swap.
    - repeat constructor.
      apply (reordered_dir true _ [("style.css", NFile true (bytes_of "body {}"))]).
      + apply Permutation_refl.
      + repeat constructor. }
  split; [exact Hre |].
  apply (upload_is_independent_of_listing_order scenario_fs
           (LocalFS staging (Some (NDir true reversed_tree)))
           scenario_tree reversed_tree hostgator []); try reflexivity.
  - exact Hre.
  - left. reflexivity.
  - exact hostgator_site_empty.
Defined.

(** X6 on the account that has [public_html] only. *)
Lemma missing_local_root_is_found_after_navigation_witness :
  exists w',
    deploy (LocalFS staging None) (World bare []) = (Ok false, w') /\
    store (srv w') = <[site_root := RDir]> (store bare).
Proof.
  apply (missing_local_root_is_found_after_navigation (LocalFS staging None) bare []);
    reflexivity.
Defined.

(** X7 at the scenario of the specification: "2/2". *)
Lemma clean_run_reports_every_upload_witness :
  exists w',
    deploy scenario_fs (World hostgator []) = (Ok true, w') /\
    In (line_summary (Counters 2 2)) (out w').
Proof.
  apply (clean_run_reports_every_upload scenario_fs scenario_tree hostgator []);
    try reflexivity.
  - left. reflexivity.
  - exact hostgator_site_empty.
Defined.

(** *** What a run can change on the remote side *)

Lemma grown_refl (base : list string) (m : gmap (list string) rnode) : grown base m m.
Proof. intros k. left. reflexivity. Qed.

Lemma grown_trans (base : list string) (m1 m2 m3 : gmap (list string) rnode) :
  grown base m1 m2 -> grown base m2 m3 -> grown base m1 m3.
Proof.
  intros H12 H23 k.
  destruct (H23 k) as [H | (q & -> & Hnd & Hsome)].
  - rewrite H. apply H12.
  - right. exists q. split; [reflexivity |]. split; [| exact Hsome].
    destruct (H12 (base ++ q)) as [H | (q' & _ & Hnd' & _)]; [congruence | exact Hnd'].
Qed.

Lemma grown_insert (base q : list string) (v : rnode) (m : gmap (list string) rnode) :
  m !! (base ++ q) <> Some RDir -> grown base m (<[base ++ q := v]> m).
Proof.
  intros Hnd k. destruct (decide (k = base ++ q)) as [-> | Hne].
  - right. exists q. split; [reflexivity |]. split; [exact Hnd |].
    rewrite lookup_insert_eq. eexists; reflexivity.
  - left. apply lookup_insert_ne. congruence.
Qed.

Lemma kept_refl r : kept r r.
Proof. split; [reflexivity | apply grown_refl]. Qed.

Lemma kept_trans r1 r2 r3 : kept r1 r2 -> kept r2 r3 -> kept r1 r3.
Proof.
  intros [Hc12 Hg12] [Hc23 Hg23]. split; [congruence |].
  rewrite Hc12 in Hg23. apply (grown_trans _ _ _ _ Hg12 Hg23).
Qed.

Lemma app_right_not_nil (b q : list string) : q <> [] -> b ++ q <> [].
Proof. intros Hq H. apply app_eq_nil in H as [_ H]. contradiction. Qed.

Lemma sim_mkd_kept r p q :
  relative p q -> q <> [] -> kept r (snd (sim_mkd p r)).
Proof.
  intros [Hs Hp] Hq. unfold sim_mkd, resolve. rewrite Hs, Hp.
  destruct (exists_at r (cwd r ++ q)) eqn:Hex; [apply kept_refl |].
  destruct (is_dir_at r (removelast (cwd r ++ q))); [| apply kept_refl].
  split; [reflexivity |]. cbn [snd store]. apply grown_insert.
  rewrite exists_at_lookup in Hex by (apply app_right_not_nil; exact Hq).
  destruct (store r !! (cwd r ++ q)); [discriminate | congruence].
Qed.

Lemma sim_stor_kept r p q data :
  relative p q -> q <> [] -> kept r (snd (sim_storbinary ("STOR " +:+ p) data r)).
Proof.
  intros [Hs Hp] Hq. unfold sim_storbinary. rewrite strip_stor. cbv zeta.
  unfold resolve. rewrite Hs, Hp.
  destruct (is_dir_at r (cwd r ++ q)) eqn:Hd; [apply kept_refl |].
  destruct (is_dir_at r (removelast (cwd r ++ q))); [| apply kept_refl].
  split; [reflexivity |]. cbn [snd store]. apply grown_insert.
  rewrite is_dir_at_lookup in Hd by (apply app_right_not_nil; exact Hq).
  destruct (store r !! (cwd r ++ q)) as [[|] |]; congruence.
Qed.

Lemma upload_file_kept local_file f p q (r : remote) o :
  relative p q -> q <> [] ->
  exists b w', upload_file local_file f p (World r o) = (Ok b, w') /\ kept r (srv w').
Proof.
  intros Hrel Hq. rewrite upload_file_eq.
  destruct (open_rb local_file f) as [data | e].
  - cbn [srv out ftp_storbinary sim_ftp].
    pose proof (sim_stor_kept r p q data Hrel Hq) as Hk.
    destruct (sim_storbinary ("STOR " +:+ p) data r) as [[rep | e] r1];
      eexists _, _; (split; [reflexivity | exact Hk]).
  - eexists _, _. split; [reflexivity | apply kept_refl].
Qed.

Lemma for_each_kept {A} (body : A -> M remote unit) (l : list A) :
  Forall (fun x => forall r o, exists w', body x (World r o) = (Ok tt, w') /\ kept r (srv w')) l ->
  forall r o, exists w', for_each body l (World r o) = (Ok tt, w') /\ kept r (srv w').
Proof.
  induction 1 as [| x l Hx _ IH]; intros r o; simpl.
  - eexists. split; [reflexivity | apply kept_refl].
  - destruct (Hx r o) as ([r1 o1] & H1 & Hk1). unfold bind. rewrite H1.
    destruct (IH r1 o1) as (w2 & H2 & Hk2). exists w2. split; [exact H2 |].
    apply (kept_trans _ _ _ Hk1 Hk2).
Qed.

Lemma upload_directory_kept d :
  names_ok d = true ->
  forall local_dir p q (r : remote) o,
    relative p q -> q <> [] ->
    exists b w', upload_directory local_dir d p (World r o) = (Ok b, w') /\ kept r (srv w').
Proof.
  induction d as [readable data | listable items IH | | ] using node_rect';
    intros Hok local_dir p q r o Hrel Hq; rewrite upload_directory_eq;
    cbn [srv out ftp_mkd sim_ftp];
    pose proof (sim_mkd_kept r p q Hrel Hq) as Hk;
    destruct (sim_mkd p r) as [[rep | e] r1]; cbn [snd] in Hk;
    try (eexists _, _; split; [reflexivity | exact Hk]).
  destruct listable; cbn [os_listdir];
    [| eexists _, _; split; [reflexivity | exact Hk]].
  cbv zeta. unfold upload_children.
  match goal with
  | |- context [for_each ?b items (World r1 ?o1)] =>
      destruct (for_each_kept b items) with (r := r1) (o := o1) as (w2 & H2 & Hk2)
  end.
    + simpl in Hok. rewrite forallb_forall in Hok. rewrite List.Forall_forall in IH.
      apply List.Forall_forall. intros [name child] Hin r0 o0.
      specialize (Hok _ Hin). cbn [fst snd] in Hok.
      apply andb_true_iff in Hok as [Hname Hokc].
      specialize (IH _ Hin). cbn [snd] in IH.
      pose proof (relative_child p q name Hrel Hq Hname) as Hrel'.
      unfold visit. cbn [fst snd].
      destruct (is_file child).
      * destruct (upload_file_kept (path_join local_dir name) child _ _ r0 o0 Hrel'
                    (snoc_not_nil q name)) as (b & w' & H & Hk').
        unfold bind. rewrite H. eexists. split; [reflexivity | exact Hk'].
      * destruct (is_dir child);
          [| eexists; split; [reflexivity | apply kept_refl]].
        destruct (IH Hokc (path_join local_dir name) _ _ r0 o0 Hrel'
                    (snoc_not_nil q name)) as (b & w' & H & Hk').
        unfold bind. rewrite H. eexists. split; [reflexivity | exact Hk'].
    + rewrite H2. eexists _, _. split; [reflexivity |].
      apply (kept_trans _ _ _ Hk Hk2).
Qed.

Lemma upload_pass_kept local_path items :
  names_ok (NDir true items) = true ->
  forall c (r : remote) o,
    exists res w',
      for_fold (deploy_item local_path) items c (World r o) = (res, w') /\ kept r (srv w').
Proof.
  induction items as [| [name child] items IH]; intros Hok c r o.
  - eexists _, _. split; [reflexivity | apply kept_refl].
  - simpl in Hok. apply andb_true_iff in Hok as [Hhead Hok].
    apply andb_true_iff in Hhead as [Hname Hokc].
    pose proof (relative_name name Hname) as Hrel.
    destruct (can_stat child) eqn:Hstat.
    2: { pose proof (deploy_item_counting local_path c (name, child) (World r o)) as Hc.
         cbn [snd] in Hc. rewrite Hstat in Hc. destruct Hc as [e He].
         exists (Raise e), (World r o). cbn [for_fold]. unfold bind. rewrite He.
         split; [reflexivity | apply kept_refl]. }
    assert (Hstep : exists c1 w1,
               deploy_item local_path c (name, child) (World r o) = (Ok c1, w1)
               /\ kept r (srv w1)).
    { unfold deploy_item, path_is_file, path_is_dir. cbn [fst snd].
      rewrite Hstat. cbn [branch].
      destruct (is_file child).
      - destruct (upload_file_kept (path_join local_path name) child name [name] r o Hrel)
          as (b & w' & H & Hk); [discriminate |].
        unfold bind. rewrite H. eexists _, _. split; [reflexivity | exact Hk].
      - destruct (is_dir child);
          [| eexists _, _; split; [reflexivity | apply kept_refl]].
        destruct (upload_directory_kept child Hokc (path_join local_path name) name [name]
                    r o Hrel) as (b & w' & H & Hk); [discriminate |].
        unfold bind. rewrite H. eexists _, _. split; [reflexivity | exact Hk]. }
    destruct Hstep as (c1 & [r1 o1] & H1 & Hk1).
    destruct (IH Hok c1 r1 o1) as (res2 & w2 & H2 & Hk2).
    exists res2, w2. cbn [for_fold]. unfold bind. rewrite H1.
    split; [exact H2 | apply (kept_trans _ _ _ Hk1 Hk2)].
Qed.

Lemma sim_navigate_grown r o :
  exists res r1 o1,
    deploy_navigate (World r o) = (res, World r1 o1) /\
    grown site_root (store r) (store r1) /\
    (returned (res, tt) = true -> cwd r1 = site_root).
Proof.
  unfold deploy_navigate.
  unfold bind at 1, print at 1. unfold bind at 1.
  unfold try_except, call at 1. cbn [srv out ftp_cwd sim_ftp].
  unfold sim_cwd at 1. rewrite resolve_site. cbv zeta.
  destruct (is_dir_at r site_root) eqn:Hd.
  - eexists _, _, _. split; [reflexivity |]. split; [apply grown_refl | reflexivity].
  - unfold bind at 1, call at 1. cbn [srv out ftp_mkd sim_ftp].
    unfold sim_mkd. rewrite resolve_site.
    destruct (exists_at r site_root) eqn:Hex.
    { eexists _, _, _. split; [reflexivity |]. split; [apply grown_refl | discriminate]. }
    destruct (is_dir_at r (removelast site_root)).
    2: { eexists _, _, _. split; [reflexivity |]. split; [apply grown_refl | discriminate]. }
    unfold call at 1. cbn [srv out ftp_cwd sim_ftp].
    unfold sim_cwd. rewrite resolve_site.
    assert (Hnew : is_dir_at (Remote (<[site_root := RDir]> (store r)) (cwd r) (can_list r))
                     site_root = true).
    { unfold is_dir_at, site_root. cbn [store]. rewrite lookup_insert_eq. reflexivity. }
    rewrite Hnew.
    eexists _, _, _. split; [reflexivity |]. split; [| reflexivity].
    cbn [srv store]. rewrite <- (app_nil_r site_root) at 2. apply grown_insert.
    rewrite app_nil_r. unfold exists_at, site_root in Hex.
    destruct (store r !! _); [discriminate | congruence].
Qed.

Lemma sim_deploy_grown fs (r : remote) o :
  fs_names_ok fs = true ->
  exists b w', deploy fs (World r o) = (Ok b, w') /\ grown site_root (store r) (store (srv w')).
Proof.
  intros Hok. rewrite deploy_eq, deploy_try_eq.
  destruct (sim_deploy_connect r o) as [o0 ->].
  destruct (sim_navigate_grown r o0) as (res & r1 & o1 & -> & Hg1 & Hcwd).
  destruct res as [u | e]; [| eexists _, _; split; [reflexivity | exact Hg1]].
  specialize (Hcwd eq_refl).
  rewrite deploy_list_current_eq. cbn [srv out ftp_nlst sim_ftp].
  pose proof (sim_nlst_state r1) as Hn.
  assert (Hup : forall o2, exists res w3,
               deploy_upload fs (World r1 o2) = (res, w3)
               /\ grown site_root (store r) (store (srv w3))).
  { intros o2. destruct (root fs) as [rt |] eqn:Hroot.
    - destruct (os_listdir (resolved fs) rt) as [items | e] eqn:Hl.
      + assert (Hitems : names_ok (NDir true items) = true).
        { unfold fs_names_ok in Hok. rewrite Hroot in Hok.
          rewrite (listed_can_stat _ _ _ Hl) in Hok. exact Hok. }
        destruct (upload_pass_kept (resolved fs) items Hitems (Counters 0 0) r1
                    (o2 ++ [line_deploy_upload])) as (res' & w1' & Hpass' & [_ Hg]).
        rewrite Hcwd in Hg.
        destruct (stat_ok items) eqn:Hstat.
        * destruct (deploy_upload_listable fs rt items (World r1 o2) Hroot Hl Hstat)
            as (c & w1 & w' & Hpass & _ & Hd & _ & Hsrv).
          cbn [srv out] in Hpass. unfold upload_pass in Hpass.
          rewrite Hpass in Hpass'. injection Hpass' as <- <-.
          cbn [ftp_nlst sim_ftp] in Hsrv. rewrite sim_nlst_state in Hsrv.
          eexists _, _. split; [exact Hd |]. rewrite Hsrv.
          apply (grown_trans _ _ _ _ Hg1 Hg).
        * destruct (deploy_upload_stat_raises fs rt items (World r1 o2) Hroot Hl Hstat)
            as (e & w1 & Hpass & Hd).
          cbn [srv out] in Hpass. unfold upload_pass in Hpass.
          rewrite Hpass in Hpass'. injection Hpass' as <- <-.
          eexists _, _. split; [exact Hd |].
          apply (grown_trans _ _ _ _ Hg1 Hg).
      + rewrite (deploy_upload_unlistable fs rt e (World r1 o2) Hroot Hl).
        eexists _, _. split; [reflexivity | exact Hg1].
    - unfold deploy_upload. rewrite Hroot. run.
      eexists _, _. split; [reflexivity | exact Hg1]. }
  destruct (sim_nlst r1) as [[files | e] r1']; simpl in Hn; subst r1';
    match goal with
    | |- context [deploy_upload fs (World r1 ?o2)] =>
        destruct (Hup o2) as ([b | e'] & w3 & -> & Hg)
    end;
    eexists _, _; (split; [reflexivity | exact Hg]).
Qed.

(** X11: whatever the local tree holds and whatever fails, a run of
    [deploy] only adds to the remote side or rewrites files, at or under
    its remote root: every remote path outside the root holds afterwards
    what it held before, a remote directory is never removed or replaced,
    and no remote entry disappears. *)
Theorem deploy_never_removes_or_strays fs (r : remote) o :
  fs_names_ok fs = true ->
  exists b w',
    deploy fs (World r o) = (Ok b, w') /\
    (forall k, below site_root k = None -> store (srv w') !! k = store r !! k) /\
    (forall k, store r !! k = Some RDir -> store (srv w') !! k = Some RDir) /\
    (forall k, is_Some (store r !! k) -> is_Some (store (srv w') !! k)).
Proof.
  intros Hok. destruct (sim_deploy_grown fs r o Hok) as (b & w' & H & Hg).
  exists b, w'. split; [exact H |]. split; [| split].
  - intros k Hk. destruct (Hg k) as [Hsame | (q & -> & _)]; [exact Hsame |].
    rewrite below_app in Hk. discriminate.
  - intros k Hk. destruct (Hg k) as [Hsame | (q & _ & Hnd & _)]; [congruence | contradiction].
  - intros k Hk. destruct (Hg k) as [Hsame | (q & _ & _ & Hsome)];
      [rewrite Hsame; exact Hk | exact Hsome].
Qed.

(** X11 on a remote root that already holds an [assets] directory. *)
Lemma deploy_never_removes_or_strays_witness :
  fs_names_ok scenario_fs = true /\
  exists b w',
    deploy scenario_fs (World taken []) = (Ok b, w') /\
    (forall k, below site_root k = None -> store (srv w') !! k = store taken !! k) /\
    (forall k, store taken !! k = Some RDir -> store (srv w') !! k = Some RDir) /\
    (forall k, is_Some (store taken !! k) -> is_Some (store (srv w') !! k)).
Proof.
  split; [reflexivity |].
  apply (deploy_never_removes_or_strays scenario_fs taken []). reflexivity.
Defined.

(** *** Running twice *)

Lemma In_find_entry name child (items : list (string * node)) :
  NoDup (map fst items) -> In (name, child) items -> find_entry name items = Some child.
Proof.
  induction items as [| [n c] items IH]; simpl; intros Hnd Hin; [contradiction |].
  apply NoDup_cons in Hnd as [Hnotin Hnd].
  destruct Hin as [Heq | Hin].
  - injection Heq as -> ->. rewrite decide_True by reflexivity. reflexivity.
  - destruct (decide (n = name)) as [-> |]; [| apply IH; assumption].
    exfalso. apply Hnotin. apply list_elem_of_In.
    apply in_map_iff. exists (name, child). split; [reflexivity | exact Hin].
Qed.

Lemma refresh_id (base : list string) (items : list (string * node))
    (m : gmap (list string) rnode) :
  (forall name data, In (name, NFile true data) items ->
                     m !! (base ++ [name]) = Some (RFile data)) ->
  refresh base items m = m.
Proof.
  unfold refresh. induction items as [| [name child] items IH]; intros H; simpl;
    [reflexivity |].
  destruct child as [[|] data | l ch | | ];
    try (apply IH; intros n d Hin; apply H; right; exact Hin).
  rewrite insert_id by (apply H; left; reflexivity).
  apply IH. intros n d Hin. apply H. right. exact Hin.
Qed.

(** X12: running the upload loop of [deploy] a second time over the same
    tree, right after a first run without failures, leaves the remote
    store as the first run left it, but does not report the same
    counters: the first run counts every file and directory of the root,
    the second only its files, each directory being refused by [mkd]
    because it exists. *)
Theorem second_run_of_same_tree local_path items (r : remote) o :
  well_formed (NDir true items) = true ->
  is_dir_at r (cwd r) = true ->
  (forall q, q <> [] -> store r !! (cwd r ++ q) = None) ->
  exists w1 w2,
    upload_pass local_path items (World r o)
      = (Ok (Counters (uploadable items) (length items)), w1) /\
    upload_pass local_path items w1
      = (Ok (Counters (readable_files items) (length items)), w2) /\
    store (srv w2) = store (srv w1).
Proof.
  intros Hwf Hdir Hempty.
  destruct (sim_upload_pass local_path items r o Hwf Hdir Hempty)
    as (c & [r1 o1] & H1 & Hcwd & _ & Hstore).
  cbn [srv] in Hcwd, Hstore.
  pose proof Hwf as Hwf'. simpl in Hwf'. apply andb_true_iff in Hwf' as [Hall Hnd].
  apply bool_decide_eq_true in Hnd.
  destruct (sim_upload_counts local_path items Hall Hnd (Counters 0 0) r o Hdir)
    as [w1' H1'].
  { intros name q _. apply Hempty. discriminate. }
  unfold upload_pass in H1. rewrite H1 in H1'. injection H1' as -> _.
  cbn [success_count total_count] in H1. rewrite ?Nat.add_0_l in H1.
  assert (Htop : forall name child, In (name, child) items ->
                   store r1 !! (cwd r1 ++ [name]) = image child).
  { intros name child Hin. rewrite Hstore, Hcwd, below_app. cbn [node_at].
    rewrite (In_find_entry name child items Hnd Hin). reflexivity. }
  destruct (upload_pass_again local_path items (Counters 0 0) r1 o1) as [o2 H2].
  - rewrite Hcwd. rewrite <- Hdir. apply is_dir_at_ext.
    rewrite Hstore. replace (below (cwd r) (cwd r)) with (Some (@nil string));
      [reflexivity |].
    rewrite <- (app_nil_r (cwd r)) at 2. symmetry. apply below_app.
  - rewrite forallb_forall in *. intros [name child] Hin.
    specialize (Hall _ Hin). cbn [fst snd] in Hall.
    apply andb_true_iff in Hall as [Hname Hwfc].
    unfold already_there. cbn [fst snd]. rewrite Hname. cbn [andb].
    pose proof (Htop name child Hin) as Hk.
    destruct child as [rd d | l ch | | ]; [| | reflexivity | discriminate Hwfc].
    + rewrite is_dir_at_lookup by apply snoc_not_nil. rewrite Hk. reflexivity.
    + rewrite exists_at_lookup by apply snoc_not_nil. rewrite Hk. reflexivity.
  - exists (World r1 o1), (World (Remote (refresh (cwd r1) items (store r1)) (cwd r1)
                                  (can_list r1)) o2).
    split; [exact H1 |]. split.
    + unfold upload_pass. rewrite H2. cbn [success_count total_count].
      rewrite ?Nat.add_0_l. reflexivity.
    + cbn [srv store]. apply refresh_id. intros name data Hin.
      apply (Htop name (NFile true data) Hin).
Qed.

Lemma second_run_of_same_tree_witness :
  exists w1 w2,
    upload_pass staging scenario_tree (World (in_site hostgator) [])
      = (Ok (Counters 2 2), w1) /\
    upload_pass staging scenario_tree w1 = (Ok (Counters 1 2), w2) /\
    store (srv w2) = store (srv w1).
Proof.
  apply (second_run_of_same_tree staging scenario_tree (in_site hostgator) []).
  - reflexivity.
  - reflexivity.
  - intros q Hq. apply hostgator_site_empty. exact Hq.
Defined.

(** *** An entry whose kind cannot be tested *)

Section StatFailure.
Context {S : Type} {ftp : FTP S}.

Lemma for_fold_stops (body : counters -> string * node -> M S counters) l1 x l2 c
    (w : world S) c1 w1 :
  counting body ->
  can_stat (snd x) = false ->
  for_fold body l1 c w = (Ok c1, w1) ->
  exists e, for_fold body (l1 ++ x :: l2) c w = (Raise e, w1).
Proof.
  intros Hb Hx H1. pose proof (Hb c1 x w1) as H. rewrite Hx in H.
  destruct H as [e He]. exists e.
  rewrite for_fold_app, H1. cbn [for_fold]. unfold bind. rewrite He. reflexivity.
Qed.

Lemma local_stop_stat fs items :
  root fs = Some (NDir true items) -> stat_ok items = false ->
  local_stop fs = Some UploadPass.
Proof. intros Hr Hs. unfold local_stop. rewrite Hr. cbn [os_listdir]. rewrite Hs. reflexivity. Qed.

(** X13: when [is_file()] raises on an entry of the local root, the
    exception leaves the top-level loop of either script: the entries
    listed before it have been processed, the loop stops in the state they
    left, those listed after it are never attempted and no counters are
    returned; the function returns [False] and the script exits with
    code 1, whatever the peer answers. *)
Theorem stat_failure_aborts_the_run fs l1 name l2 :
  root fs = Some (NDir true (l1 ++ (name, NNoStat) :: l2)) ->
  (forall (w : world S) c1 w1,
     upload_pass (resolved fs) l1 w = (Ok c1, w1) ->
     exists e,
       upload_pass (resolved fs) (l1 ++ (name, NNoStat) :: l2) w = (Raise e, w1)) /\
  (forall (w : world S) c1 w1,
     fix_upload_pass (resolved fs) l1 w = (Ok c1, w1) ->
     exists e,
       fix_upload_pass (resolved fs) (l1 ++ (name, NNoStat) :: l2) w = (Raise e, w1)) /\
  (forall w : world S, exists w', deploy_main fs w = (Ok 1%Z, w')) /\
  (forall w : world S, exists w', fix_main fs w = (Ok 1%Z, w')).
Proof.
  intros Hroot.
  assert (Hs : stat_ok (l1 ++ (name, NNoStat) :: l2) = false).
  { rewrite stat_ok_app, stat_ok_cons. cbn [snd can_stat andb]. apply andb_false_r. }
  pose proof (local_stop_stat fs _ Hroot Hs) as Hstop.
  split; [| split; [| split]].
  - intros w c1 w1 H1.
    apply (for_fold_stops _ l1 (name, NNoStat) l2 (Counters 0 0) w c1 w1
             (deploy_item_counting (resolved fs)) eq_refl H1).
  - intros w c1 w1 H1.
    apply (for_fold_stops _ l1 (name, NNoStat) l2 (Counters 0 0) w c1 w1
             (fix_item_counting (resolved fs)) eq_refl H1).
  - intros w. unfold deploy_main. unfold bind at 1, print at 1. unfold bind at 1.
    destruct (deploy_value fs (World (srv w) (out w ++ [line_deploy_start]))) as [w1 H].
    fold line_deploy_start. rewrite H.
    assert (Hd : deploy_stops fs (World (srv w) (out w ++ [line_deploy_start])) <> None).
    { unfold deploy_stops.
      destruct (deploy_connect _) as [[u | e] w2]; [| discriminate].
      destruct (deploy_navigate w2) as [[u2 | e] w3]; [| discriminate].
      rewrite Hstop. discriminate. }
    destruct (deploy_stops fs _); [| contradiction]. run. eexists. reflexivity.
  - intros w. unfold fix_main. unfold bind at 1, print at 1. unfold bind at 1.
    destruct (fix_value fs (World (srv w) (out w ++ [line_fix_start]))) as [w1 H].
    fold line_fix_start. rewrite H.
    assert (Hd : fix_stops fs (World (srv w) (out w ++ [line_fix_start])) <> None).
    { unfold fix_stops.
      destruct (fix_connect _) as [[u | e] w2]; [| discriminate].
      destruct (ftp_cwd fix_remote_path (srv w2)) as [[rep | e] s2]; [| discriminate].
      destruct (ftp_pwd s2) as [[d | e] s3]; [| discriminate].
      destruct (ftp_nlst s3) as [[files | e] s4]; [| discriminate].
      rewrite Hstop. discriminate. }
    destruct (fix_stops fs _); [| contradiction]. run. eexists. reflexivity.
Qed.

End StatFailure.

(** X13 on the reference peer: [index.html] is uploaded, the test of
    [locked] raises, [assets] is never created, and the run exits with
    code 1. *)
Lemma stat_failure_aborts_the_run_witness :
  (exists e,
     upload_pass staging locked_tree (World (in_site hostgator) []) =
     (Raise e,
      snd (upload_pass staging [("index.html", NFile true (bytes_of "<html></html>"))]
             (World (in_site hostgator) [])))) /\
  (exists w', deploy_main locked_fs (World hostgator []) = (Ok 1%Z, w')) /\
  store (srv (snd (deploy_main locked_fs (World hostgator []))))
    !! (site_root ++ ["index.html"]) = Some (RFile (bytes_of "<html></html>")) /\
  store (srv (snd (deploy_main locked_fs (World hostgator []))))
    !! (site_root ++ ["assets"]) = None.
Proof.
  destruct (@stat_failure_aborts_the_run remote sim_ftp locked_fs
              [("index.html", NFile true (bytes_of "<html></html>"))] "locked"
              [("assets", NDir true [("style.css", NFile true (bytes_of "body {}"))])]
              eq_refl) as (Hd & _ & Hm & _).
  split; [| split; [| split]].
  - apply (Hd (World (in_site hostgator) []) (Counters 1 1)). reflexivity.
  - apply Hm.
  - vm_compute. reflexivity.
  - vm_compute. reflexivity.
Defined.
